(** * LLM-Council: the decision pipeline, embedded and verified

    A shallow embedding of the council orchestrator
    ([src/core/council.py]), the safety gate ([src/safety/gate.py]), the
    judge-disagreement check ([src/judges/evaluators.py]), the decision
    records ([src/core/decision.py]) and the audit logger
    ([src/audit/logger.py]).

    Conventions of the embedding:
    - a Python [float] is a binary64 value ([PrimFloat.float]); comparisons
      are the IEEE ones, so every comparison with a NaN is false;
    - a Python [str] is the [string] of its UTF-8 encoding, the bytes
      [str.encode()] returns: ASCII text is its own encoding, and
      equality, concatenation and [in] are those of the encodings;
      [len] counts characters and [strip] knows the white space of
      Unicode; the case mappings behind [lower] belong to the
      interpreter's Unicode database and are a parameter ([Unicode]);
    - a Python [dict] is an association list in insertion order, because
      the selector depends on that order;
    - an operation that can raise returns [result];
    - calls that leave the process (generation, evaluation and refinement
      backends, the regular-expression engine, SHA-256, the clock) are
      parameters of the model. *)

From Stdlib Require Import List String Ascii Bool ZArith Lia Permutation.
From Stdlib Require Import Floats DecimalString.
Import ListNotations.

Set Warnings "-inexact-float,-register-all".

Local Open Scope string_scope.
Local Open Scope list_scope.

(* ################################################################## *)
(** * Part I: the embedding *)
(* ################################################################## *)

(* ================================================================== *)
(** ** Python built-ins used by the sources *)
(* ================================================================== *)

Module Py.

(** Exceptions the modelled code can raise. *)
Inductive exn : Type :=
| ValueError
| IndexError
| TypeError.

Inductive result (A : Type) : Type :=
| Ok (a : A)
| Raise (e : exn).
Arguments Ok {A} a.
Arguments Raise {A} e.

Definition bind {A B : Type} (r : result A) (k : A -> result B) : result B :=
  match r with
  | Ok a => k a
  | Raise e => Raise e
  end.

(** *** Floats *)

(** [a < b], [a > b] and [a == b] on floats. *)
Definition flt (a b : float) : bool := PrimFloat.ltb a b.
Definition fgt (a b : float) : bool := PrimFloat.ltb b a.
Definition feq (a b : float) : bool := PrimFloat.eqb a b.

(** [float(n)] for a list length. *)
Definition float_of_nat (n : nat) : float :=
  PrimFloat.of_uint63 (Uint63.of_Z (Z.of_nat n)).

(** [sum(xs)]: the accumulator starts at the integer 0 and the items are
    added from left to right, each addition rounded (CPython up to 3.11;
    later versions carry a compensation term through the same loop,
    which is not modelled). *)
Definition sum (xs : list float) : float :=
  fold_left PrimFloat.add xs 0%float.

(** [max(xs)] and [min(xs)]: the first item is the candidate, and a later
    item replaces it only when it compares strictly greater (smaller).
    Both raise [ValueError] on an empty sequence. *)
Definition max_from (x : float) (xs : list float) : float :=
  fold_left (fun cur v => if fgt v cur then v else cur) xs x.

Definition min_from (x : float) (xs : list float) : float :=
  fold_left (fun cur v => if flt v cur then v else cur) xs x.

Definition max (xs : list float) : result float :=
  match xs with
  | [] => Raise ValueError
  | x :: rest => Ok (max_from x rest)
  end.

Definition min (xs : list float) : result float :=
  match xs with
  | [] => Raise ValueError
  | x :: rest => Ok (min_from x rest)
  end.

(** [min(a, b)] with two positional arguments. *)
Definition min2 (a b : float) : float := min_from a [b].

(** *** Strings *)

Definition is_upper (c : ascii) : bool :=
  let n := nat_of_ascii c in (65 <=? n)%nat && (n <=? 90)%nat.

Definition lower_char (c : ascii) : ascii :=
  if is_upper c then ascii_of_nat (nat_of_ascii c + 32) else c.

(** [s.lower()] on ASCII text: the letters A to Z are mapped. *)
Fixpoint ascii_lower (s : string) : string :=
  match s with
  | EmptyString => EmptyString
  | String c rest => String (lower_char c) (ascii_lower rest)
  end.

(** [s.isascii()]. *)
Fixpoint is_ascii (s : string) : bool :=
  match s with
  | EmptyString => true
  | String c rest => (nat_of_ascii c <? 128)%nat && is_ascii rest
  end.

(** [s.lower()].  Beyond ASCII it follows the case mappings of the
    interpreter's Unicode database, with their context rules (the final
    sigma, for one); they are not modelled.  [lower] is a parameter of
    which only its values on ASCII text are known. *)
Class Unicode : Type := {
  lower : string -> string;
  lower_ascii : forall s, is_ascii s = true -> lower s = ascii_lower s
}.

(** The instance the examples run on; their texts are ASCII. *)
Definition ascii_text : Unicode :=
  {| lower := ascii_lower; lower_ascii := fun _ _ => eq_refl |}.

(** [c.isspace()] for a character below 128: tab, line feed, vertical
    tab, form feed, carriage return, the four separators 0x1c-0x1f and
    the space. *)
Definition is_space (c : ascii) : bool :=
  let n := nat_of_ascii c in
  ((9 <=? n)%nat && (n <=? 13)%nat) || ((28 <=? n)%nat && (n <=? 32)%nat).

(** The white-space characters above 127, by their encodings: U+0085
    and U+00A0 take two bytes; U+1680, U+2000 to U+200A, U+2028, U+2029,
    U+202F, U+205F and U+3000 take three. *)
Definition is_space2 (b1 b2 : ascii) : bool :=
  let n1 := nat_of_ascii b1 in
  let n2 := nat_of_ascii b2 in
  (n1 =? 194)%nat && ((n2 =? 133)%nat || (n2 =? 160)%nat).

Definition is_space3 (b1 b2 b3 : ascii) : bool :=
  let n1 := nat_of_ascii b1 in
  let n2 := nat_of_ascii b2 in
  let n3 := nat_of_ascii b3 in
  ((n1 =? 225)%nat && (n2 =? 154)%nat && (n3 =? 128)%nat)
  || ((n1 =? 226)%nat && (n2 =? 128)%nat
      && (((128 <=? n3)%nat && (n3 <=? 138)%nat)
          || (n3 =? 168)%nat || (n3 =? 169)%nat || (n3 =? 175)%nat))
  || ((n1 =? 226)%nat && (n2 =? 129)%nat && (n3 =? 159)%nat)
  || ((n1 =? 227)%nat && (n2 =? 128)%nat && (n3 =? 128)%nat).

(** [s.lstrip()]: leading white-space characters are dropped, whether
    they take one, two or three bytes. *)
Fixpoint lstrip (s : string) : string :=
  match s with
  | EmptyString => EmptyString
  | String b1 rest1 =>
      if is_space b1 then lstrip rest1
      else
        match rest1 with
        | EmptyString => s
        | String b2 rest2 =>
            if is_space2 b1 b2 then lstrip rest2
            else
              match rest2 with
              | EmptyString => s
              | String b3 rest3 =>
                  if is_space3 b1 b2 b3 then lstrip rest3 else s
              end
        end
  end.

(** [s.rstrip()]: the text is cut where only white space follows. *)
Fixpoint rstrip (s : string) : string :=
  match s with
  | EmptyString => EmptyString
  | String c rest =>
      match lstrip s with
      | EmptyString => EmptyString
      | String _ _ => String c (rstrip rest)
      end
  end.

(** [s.strip()]. *)
Definition strip (s : string) : string := rstrip (lstrip s).

(** [len(s)]: the number of characters, that is of the bytes that do
    not continue a character (those from 0x80 to 0xbf do). *)
Definition is_continuation (c : ascii) : bool :=
  let n := nat_of_ascii c in (128 <=? n)%nat && (n <? 192)%nat.

Fixpoint len (s : string) : nat :=
  match s with
  | EmptyString => 0%nat
  | String c rest => ((if is_continuation c then 0 else 1) + len rest)%nat
  end.

(** [needle in hay] on strings. *)
Fixpoint contains (needle hay : string) : bool :=
  String.prefix needle hay ||
  match hay with
  | EmptyString => false
  | String _ rest => contains needle rest
  end.

(** [sep.join(parts)]. *)
Definition join (sep : string) (parts : list string) : string :=
  String.concat sep parts.

(** Truthiness of a string and of a list. *)
Definition truthy_str (s : string) : bool :=
  match s with EmptyString => false | _ => true end.

Definition truthy_list {A : Type} (l : list A) : bool :=
  match l with [] => false | _ => true end.

(** [x in xs] on a list of strings. *)
Definition mem (x : string) (xs : list string) : bool :=
  existsb (String.eqb x) xs.

(** *** Dictionaries with string keys, in insertion order *)

Definition dict (V : Type) : Type := list (string * V).

Fixpoint get {V : Type} (d : dict V) (k : string) : option V :=
  match d with
  | [] => None
  | (k', v) :: rest => if String.eqb k k' then Some v else get rest k
  end.

Definition has_key {V : Type} (d : dict V) (k : string) : bool :=
  match get d k with Some _ => true | None => false end.

(** [d[k] = v]: an existing key keeps its position, a new key goes last. *)
Fixpoint set {V : Type} (d : dict V) (k : string) (v : V) : dict V :=
  match d with
  | [] => [(k, v)]
  | (k', v') :: rest =>
      if String.eqb k k' then (k', v) :: rest else (k', v') :: set rest k v
  end.

Definition keys {V : Type} (d : dict V) : list string := map fst d.
Definition values {V : Type} (d : dict V) : list V := map snd d.

End Py.

(* ================================================================== *)
(** ** Decision records ([src/core/decision.py]) *)
(* ================================================================== *)

Inductive RiskLevel : Type := LOW | MEDIUM | HIGH | CRITICAL.

(** [RiskLevel.value]. *)
Definition risk_value (r : RiskLevel) : string :=
  match r with
  | LOW => "LOW"
  | MEDIUM => "MEDIUM"
  | HIGH => "HIGH"
  | CRITICAL => "CRITICAL"
  end.

Record AgentResponse : Type := mkAgentResponse {
  agent_id : string;
  agent_type : string;
  response_text : string;
  temperature : float;
  generation_time_ms : Z
}.

Record JudgeEvaluation : Type := mkJudgeEvaluation {
  judge_id : string;
  judge_type : string;
  target_agent_id : string;
  scores : Py.dict float;
  total_score : float;
  reasoning : string;
  flagged_issues : list string
}.

(** [timestamp] holds the [datetime] as the text [isoformat()] gives. *)
Record Decision : Type := mkDecision {
  decision_id : string;
  timestamp : string;
  query : string;
  agent_responses : list AgentResponse;
  judge_evaluations : list JudgeEvaluation;
  selected_response : AgentResponse;
  confidence_score : float;
  risk_level : RiskLevel;
  identified_risks : list string;
  citations : list string;
  selection_reasoning : string;
  refined_response : option AgentResponse;
  retry_feedback : string;
  processing_time_ms : Z;
  safety_passed : bool;
  judge_disagreement : bool;
  was_refined : bool;
  was_retried : bool
}.

Record BlockedDecision : Type := mkBlockedDecision {
  blocked_decision_id : string;
  blocked_timestamp : string;
  blocked_query : string;
  blocked_safety_passed : bool;
  block_reason : string;
  matched_patterns : list string
}.

(** The grouping loop shared by [Decision.get_agent_scores] and
    [LLMCouncil._select_best]: [d[k]] after [if k not in d: d[k] = []]. *)
Definition item_or_empty {V : Type} (d : Py.dict (list V)) (k : string) : list V :=
  match Py.get d k with
  | Some l => l
  | None => []
  end.

Definition setdefault_empty {V : Type} (d : Py.dict (list V)) (k : string)
  : Py.dict (list V) :=
  if Py.has_key d k then d else Py.set d k [].

(** [d[k].append(v)] and [d[k].extend(vs)] once the key is present. *)
Definition append_at {V : Type} (d : Py.dict (list V)) (k : string) (vs : list V)
  : Py.dict (list V) :=
  Py.set d k (item_or_empty d k ++ vs).

(** [sum(scores) / len(scores)]. *)
Definition average (xs : list float) : float :=
  PrimFloat.div (Py.sum xs) (Py.float_of_nat (List.length xs)).

Definition collect_scores (evaluations : list JudgeEvaluation)
  : Py.dict (list float) :=
  fold_left
    (fun agent_scores ev =>
       append_at (setdefault_empty agent_scores (target_agent_id ev))
                 (target_agent_id ev) [total_score ev])
    evaluations [].

Definition collect_issues (evaluations : list JudgeEvaluation)
  : Py.dict (list string) :=
  fold_left
    (fun agent_issues ev =>
       append_at (setdefault_empty agent_issues (target_agent_id ev))
                 (target_agent_id ev) (flagged_issues ev))
    evaluations [].

(** The dict comprehension [{agent_id: sum(scores) / len(scores) ...}]. *)
Definition average_scores (agent_scores : Py.dict (list float)) : Py.dict float :=
  map (fun kv => (fst kv, average (snd kv))) agent_scores.

(** [Decision.get_agent_scores]. *)
Definition get_agent_scores (d : Decision) : Py.dict float :=
  average_scores (collect_scores (judge_evaluations d)).

(** [Decision.get_final_response_text]: the refined text when there is a
    refined response, the selected text otherwise. *)
Definition get_final_response_text (d : Decision) : string :=
  match refined_response d with
  | Some r => response_text r
  | None => response_text (selected_response d)
  end.

(* ================================================================== *)
(** ** The selector ([LLMCouncil._select_best]) *)
(* ================================================================== *)

Module Selector.

Import Py.

(** ["safety" in aid.lower() or "advocate" in aid.lower()]. *)
Definition is_safety_advocate {U : Unicode} (aid : string) : bool :=
  contains "safety" (lower aid) || contains "advocate" (lower aid).

(** [[aid for aid, score in avg_scores.items() if score == best_score]]. *)
Definition top_agents (avg_scores : dict float) (best_score : float) : list string :=
  map fst (filter (fun kv => feq (snd kv) best_score) avg_scores).

(** The tie-break loop: [top_agents[0]] unless a later tied agent carries
    the marker; [IndexError] when there is no tied agent. *)
Definition tie_break {U : Unicode} (top : list string) : result string :=
  match top with
  | [] => Raise IndexError
  | first :: _ =>
      match find is_safety_advocate top with
      | Some aid => Ok aid
      | None => Ok first
      end
  end.

(** The response of [best_agent_id], or [responses[0]] as the fallback. *)
Definition response_of (responses : list AgentResponse) (best_agent_id : string)
  : result AgentResponse :=
  match find (fun r => String.eqb (agent_id r) best_agent_id) responses with
  | Some r => Ok r
  | None =>
      match responses with
      | [] => Raise IndexError
      | r0 :: _ => Ok r0
      end
  end.

Section Rationale.

Context {U : Unicode}.

(** The f-string that renders the rationale from the winner's type, the
    averages and the winner's issues (number formatting and sorting are
    left to the renderer). *)
Variable render_reasoning : string -> dict float -> list string -> string.

Definition select_best
    (responses : list AgentResponse) (evaluations : list JudgeEvaluation)
  : result (AgentResponse * float * string) :=
  let agent_scores := collect_scores evaluations in
  let agent_issues := collect_issues evaluations in
  let avg_scores := average_scores agent_scores in
  bind (max (values avg_scores)) (fun best_score =>
  bind (tie_break (top_agents avg_scores best_score)) (fun best_agent_id =>
  bind (response_of responses best_agent_id) (fun best_response =>
  let confidence := PrimFloat.div best_score 10%float in
  let issues := item_or_empty agent_issues best_agent_id in
  Ok (best_response, confidence,
      render_reasoning (agent_type best_response) avg_scores issues)))).

End Rationale.

End Selector.

(* ================================================================== *)
(** ** The safety gate ([src/safety/gate.py]) *)
(* ================================================================== *)

Module SafetyGate.

Import Py.

Record SafetyResult : Type := mkSafetyResult {
  passed : bool;
  reason : string;
  matched_patterns : list string
}.

(** The loaded configuration.  A compiled pattern is kept as its source
    text, which is also what [pattern.pattern] returns. *)
Record t : Type := mkSafetyGate {
  blocked_keywords : list string;
  blocked_patterns : list string;
  allowlist_patterns : list string;
  max_query_length : Z;
  min_query_length : Z
}.

(** [str(n)] for an integer. *)
Definition str_of_Z (n : Z) : string :=
  DecimalString.NilZero.string_of_int (Z.to_int n).

Section Check.

Context {U : Unicode}.

(** [re.compile(pattern, re.IGNORECASE).search(text)] finds a match. *)
Variable re_search : string -> string -> bool.

Definition check (gate : t) (query : string) : SafetyResult :=
  (* 1. empty or white space only *)
  if negb (truthy_str query) || negb (truthy_str (strip query)) then
    mkSafetyResult false "Query is empty" []
  else
    let query := strip query in
    (* 2. length bounds *)
    if (Z.of_nat (len query) <? min_query_length gate)%Z then
      mkSafetyResult false
        ("Query too short (min " ++ str_of_Z (min_query_length gate) ++ " chars)") []
    else if (max_query_length gate <? Z.of_nat (len query))%Z then
      mkSafetyResult false
        ("Query too long (max " ++ str_of_Z (max_query_length gate) ++ " chars)") []
    else
      (* 3. blocked keywords, before the allowlist *)
      let query_lower := lower query in
      match find (fun keyword => contains (lower keyword) query_lower)
                 (blocked_keywords gate) with
      | Some keyword =>
          mkSafetyResult false
            ("Blocked keyword detected: '" ++ keyword ++ "'") [keyword]
      | None =>
          (* 4. blocked patterns: every match is reported *)
          let matched :=
            filter (fun pattern => re_search pattern query) (blocked_patterns gate) in
          if truthy_list matched then
            mkSafetyResult false "Blocked pattern matched" matched
          else
            (* 5. the allowlist, after the blocklist *)
            if existsb (fun pattern => re_search pattern query)
                       (allowlist_patterns gate) then
              mkSafetyResult true "Allowlisted query" []
            else
              mkSafetyResult true "Query passed all safety checks" []
      end.

Definition is_safe (gate : t) (query : string) : bool :=
  passed (check gate query).

Definition get_block_reason (gate : t) (query : string) : option string :=
  let result := check gate query in
  if passed result then None else Some (reason result).

End Check.

End SafetyGate.

(* ================================================================== *)
(** ** Judge disagreement ([src/judges/evaluators.py]) *)
(* ================================================================== *)

Module Judges.

Import Py.

(** The default of the [threshold] parameter. *)
Definition default_threshold : float := 3%float.

(** [agent_scores[agent_id][eval.judge_type] = eval.total_score], after
    [if agent_id not in agent_scores: agent_scores[agent_id] = {}]. *)
Definition judge_scores (evaluations : list JudgeEvaluation) : dict (dict float) :=
  fold_left
    (fun agent_scores ev =>
       Py.set (setdefault_empty agent_scores (target_agent_id ev))
         (target_agent_id ev)
         (Py.set (item_or_empty (setdefault_empty agent_scores (target_agent_id ev))
                                (target_agent_id ev))
                 (judge_type ev) (total_score ev)))
    evaluations [].

(** The test made for one agent: at least two scores, and
    [max(score_values) - min(score_values) > threshold]. *)
Definition significant (threshold : float) (scores : dict float) : bool :=
  if (2 <=? List.length scores)%nat then
    match max (values scores), min (values scores) with
    | Ok hi, Ok lo => fgt (PrimFloat.sub hi lo) threshold
    | _, _ => false
    end
  else false.

Definition check_judge_disagreement
    (evaluations : list JudgeEvaluation) (threshold : float) : bool :=
  existsb (fun kv => significant threshold (snd kv)) (judge_scores evaluations).

(** One entry of ["by_agent"] in the result of [get_disagreement_details]:
    the keys ["scores"], ["difference"] and ["significant"]. *)
Record AgentDisagreement : Type := mkAgentDisagreement {
  entry_scores : dict float;
  difference : float;
  entry_significant : bool
}.

(** The result of [get_disagreement_details]. *)
Record DisagreementDetails : Type := mkDisagreementDetails {
  has_significant_disagreement : bool;
  details_threshold : float;
  by_agent : dict AgentDisagreement
}.

(** The body of its second loop, on one item of [agent_scores]. *)
Definition detail_step (threshold : float)
    (state : dict AgentDisagreement * bool) (item : string * dict float)
  : dict AgentDisagreement * bool :=
  let '(disagreements, has_any) := state in
  let '(agent_id, scores) := item in
  if (2 <=? List.length scores)%nat then
    match max (values scores), min (values scores) with
    | Ok hi, Ok lo =>
        let diff := PrimFloat.sub hi lo in
        (Py.set disagreements agent_id
           (mkAgentDisagreement scores diff (fgt diff threshold)),
         if fgt diff threshold then true else has_any)
    | _, _ => state (* not reached: there are two scores *)
    end
  else state.

Definition get_disagreement_details
    (evaluations : list JudgeEvaluation) (threshold : float) : DisagreementDetails :=
  let '(disagreements, has_any) :=
    fold_left (detail_step threshold) (judge_scores evaluations) ([], false) in
  mkDisagreementDetails has_any threshold disagreements.

End Judges.

(* ================================================================== *)
(** ** Risk assessment ([LLMCouncil._assess_risk]) *)
(* ================================================================== *)

Module Risk.

Import Py.

(** ["harmful" in r.lower() or "dangerous" in r.lower()]. *)
Definition is_alarming {U : Unicode} (r : string) : bool :=
  contains "harmful" (lower r) || contains "dangerous" (lower r).

Section Assess.

Context {U : Unicode}.

(** [str(score)], as the f-string renders a score. *)
Variable repr_float : float -> string.

(** The risk strings of one safety evaluation: a line for every
    dimension that scored below 5. *)
Definition low_scores (scores : dict float) : list string :=
  map (fun kv => ("Low " ++ fst kv ++ " score: " ++ repr_float (snd kv))%string)
      (filter (fun kv => flt (snd kv) 5%float) scores).

Definition safety_concerns (evaluations : list JudgeEvaluation) : list string :=
  flat_map
    (fun ev => if String.eqb (judge_type ev) "Safety"
               then low_scores (scores ev) else [])
    evaluations.

(** The second loop: every flagged issue not yet among the risks. *)
Definition add_issue (risks : list string) (issue : string) : list string :=
  if mem issue risks then risks else risks ++ [issue].

Definition collect_flagged (risks : list string)
    (evaluations : list JudgeEvaluation) : list string :=
  fold_left (fun risks ev => fold_left add_issue (flagged_issues ev) risks)
            evaluations risks.

Definition collect_risks (evaluations : list JudgeEvaluation) : list string :=
  collect_flagged ([] ++ safety_concerns evaluations) evaluations.

Definition assess_risk
    (evaluations : list JudgeEvaluation) (confidence : float)
    (judge_disagreement : bool) : RiskLevel * list string :=
  let risks := collect_risks evaluations in
  if existsb is_alarming risks then (CRITICAL, risks)
  else if (4 <=? List.length risks)%nat || flt confidence 0.4%float then (HIGH, risks)
  else if (2 <=? List.length risks)%nat || flt confidence 0.6%float
          || judge_disagreement then (MEDIUM, risks)
  else (LOW, risks).

End Assess.

End Risk.


(* ================================================================== *)
(** ** Citation extraction ([LLMCouncil._extract_citations]) *)
(* ================================================================== *)

Module Citations.

Import Py.

(** The URL pattern of the source; its double quote is given by code. *)
Definition url_pattern : string :=
  "https?://[^\s<>" ++ String (ascii_of_nat 34) "{}|\\^`\[\]]+".

Definition source_patterns : list string :=
  [ "according to ([^,\.]+)"; "source:\s*([^,\.]+)"; "cited from ([^,\.]+)" ].

(** The de-duplication loop: [seen] holds the lower-cased citations met
    so far, [unique] the citations kept. *)
Definition keep_new {U : Unicode}
    (state : list string * list string) (c : string)
  : list string * list string :=
  let '(seen, unique) := state in
  if mem (lower c) seen then (seen, unique)
  else (lower c :: seen, unique ++ [c]).

Definition dedupe {U : Unicode} (citations : list string) : list string :=
  snd (fold_left keep_new citations ([], [])).

Section Extract.

Context {U : Unicode}.

(** [re.findall(pattern, text, flags)]; the flag says whether
    [re.IGNORECASE] is given. *)
Variable re_findall : string -> bool -> string -> list string.

(** The citations in extraction order, before de-duplication. *)
Definition raw_citations (text : string) : list string :=
  ([] ++ re_findall url_pattern false text)
  ++ flat_map (fun pattern => re_findall pattern true text) source_patterns.

Definition extract_citations (text : string) : list string :=
  firstn 10 (dedupe (raw_citations text)).

End Extract.

End Citations.

(* ================================================================== *)
(** ** Serialisation and the audit log
       ([to_dict] in [src/core/decision.py], [src/audit/logger.py]) *)
(* ================================================================== *)

(** The values [json.dumps] writes. *)
Inductive json : Type :=
| JNull
| JBool (b : bool)
| JInt (n : Z)
| JFloat (x : float)
| JStr (s : string)
| JList (items : list json)
| JObj (fields : list (string * json)).

Definition JStrings (l : list string) : json := JList (map JStr l).

(** [obj[key]] on a serialised object. *)
Definition field (key : string) (j : json) : option json :=
  match j with
  | JObj fields => Py.get fields key
  | _ => None
  end.

(** Some string inside the value contains [needle]. *)
Fixpoint mentions (needle : string) (j : json) : bool :=
  match j with
  | JStr s => Py.contains needle s
  | JList items => existsb (mentions needle) items
  | JObj fields => existsb (fun kv => mentions needle (snd kv)) fields
  | _ => false
  end.

Module Serialise.

(** [asdict] of an [AgentResponse] and of a [JudgeEvaluation]. *)
Definition agent_response_to_dict (r : AgentResponse) : json :=
  JObj [ ("agent_id", JStr (agent_id r));
         ("agent_type", JStr (agent_type r));
         ("response_text", JStr (response_text r));
         ("temperature", JFloat (temperature r));
         ("generation_time_ms", JInt (generation_time_ms r)) ].

Definition float_dict (d : Py.dict float) : json :=
  JObj (map (fun kv => (fst kv, JFloat (snd kv))) d).

Definition judge_evaluation_to_dict (e : JudgeEvaluation) : json :=
  JObj [ ("judge_id", JStr (judge_id e));
         ("judge_type", JStr (judge_type e));
         ("target_agent_id", JStr (target_agent_id e));
         ("scores", float_dict (scores e));
         ("total_score", JFloat (total_score e));
         ("reasoning", JStr (reasoning e));
         ("flagged_issues", JStrings (flagged_issues e)) ].

(** [Decision.to_dict]. *)
Definition decision_to_dict (d : Decision) : json :=
  JObj [ ("decision_id", JStr (decision_id d));
         ("timestamp", JStr (timestamp d));
         ("query", JStr (query d));
         ("agent_responses", JList (map agent_response_to_dict (agent_responses d)));
         ("judge_evaluations",
            JList (map judge_evaluation_to_dict (judge_evaluations d)));
         ("selected_response", agent_response_to_dict (selected_response d));
         ("refined_response",
            match refined_response d with
            | Some r => agent_response_to_dict r
            | None => JNull
            end);
         ("confidence_score", JFloat (confidence_score d));
         ("risk_level", JStr (risk_value (risk_level d)));
         ("identified_risks", JStrings (identified_risks d));
         ("citations", JStrings (citations d));
         ("selection_reasoning", JStr (selection_reasoning d));
         ("retry_feedback", JStr (retry_feedback d));
         ("processing_time_ms", JInt (processing_time_ms d));
         ("safety_passed", JBool (safety_passed d));
         ("judge_disagreement", JBool (judge_disagreement d));
         ("was_refined", JBool (was_refined d));
         ("was_retried", JBool (was_retried d));
         ("agent_scores", float_dict (get_agent_scores d)) ].

(** [BlockedDecision.to_dict]. *)
Definition blocked_to_dict (b : BlockedDecision) : json :=
  JObj [ ("decision_id", JStr (blocked_decision_id b));
         ("timestamp", JStr (blocked_timestamp b));
         ("query", JStr (blocked_query b));
         ("safety_passed", JBool (blocked_safety_passed b));
         ("block_reason", JStr (block_reason b));
         ("matched_patterns", JStrings (matched_patterns b)) ].

End Serialise.

(** What [decide] returns and the logger accepts. *)
Inductive Outcome : Type :=
| Decided (d : Decision)
| Blocked (b : BlockedDecision).

Definition outcome_id (o : Outcome) : string :=
  match o with
  | Decided d => decision_id d
  | Blocked b => blocked_decision_id b
  end.

Definition outcome_query (o : Outcome) : string :=
  match o with
  | Decided d => query d
  | Blocked b => blocked_query b
  end.

Definition outcome_safety_passed (o : Outcome) : bool :=
  match o with
  | Decided d => safety_passed d
  | Blocked b => blocked_safety_passed b
  end.

Module AuditLogger.

Import Serialise.

(** [entry.update(more)]. *)
Definition update (entry more : list (string * json)) : list (string * json) :=
  fold_left (fun e kv => Py.set e (fst kv) (snd kv)) more entry.

Section Log.

(** [hashlib.sha256(data).hexdigest()]; a string stands for its bytes. *)
Variable sha256_hexdigest : string -> string.

(** [_hash_query]: the first 16 characters of the digest. *)
Definition hash_query (query : string) : string :=
  String.substring 0 16 (sha256_hexdigest query).

(** The entry [log] builds; [now] is [datetime.now().isoformat()]. *)
Definition log_entry (now : string) (decision : Outcome) : json :=
  let entry :=
    [ ("log_timestamp", JStr now);
      ("decision_id", JStr (outcome_id decision));
      ("query_hash", JStr (hash_query (outcome_query decision)));
      ("safety_passed", JBool (outcome_safety_passed decision)) ] in
  match decision with
  | Decided d =>
      JObj (update entry
        [ ("type", JStr "decision");
          ("selected_agent", JStr (agent_type (selected_response d)));
          ("confidence", JFloat (confidence_score d));
          ("risk_level", JStr (risk_value (risk_level d)));
          ("risks", JStrings (identified_risks d));
          ("processing_time_ms", JInt (processing_time_ms d));
          ("was_refined", JBool (was_refined d));
          ("was_retried", JBool (was_retried d));
          ("judge_disagreement", JBool (judge_disagreement d));
          ("full_decision", decision_to_dict d) ])
  | Blocked b =>
      JObj (update entry
        [ ("type", JStr "blocked");
          ("block_reason", JStr (block_reason b));
          ("matched_patterns", JStrings (matched_patterns b)) ])
  end.

(** [log]: one more line in the file, and the logged id. *)
Definition log (file : list json) (now : string) (decision : Outcome)
  : list json * string :=
  (file ++ [log_entry now decision], outcome_id decision).

End Log.

(** *** Reading the file back

    A line of the file is given by what [json.loads(line.strip())] makes
    of it: the value it parses to ([Some]; an object is given with each
    key once), or [None] when it raises [JSONDecodeError].  A file that
    does not exist reads as a file without lines. *)

(** The lines [log] wrote: [json.loads] gives back what [json.dumps] was
    given. *)
Definition lines_of (file : list json) : list (option json) := map Some file.

(** [lines[-limit:]]: a negative start counts from the end and is
    clamped at the first line; a start that is zero or more counts from
    the front. *)
Definition last_lines {A : Type} (limit : Z) (lines : list A) : list A :=
  let n := Z.of_nat (List.length lines) in
  let start := (- limit)%Z in
  let start := if (start <? 0)%Z then Z.max 0 (start + n) else Z.min start n in
  skipn (Z.to_nat start) lines.

(** The lines that parse, in order. *)
Definition parsed (lines : list (option json)) : list json :=
  flat_map (fun line => match line with Some entry => [entry] | None => [] end) lines.

(** [get_recent]. *)
Definition get_recent (lines : list (option json)) (limit : Z) : list json :=
  rev (parsed (last_lines limit lines)).

(** How a read ends: a value, or the [AttributeError] of [entry.get] on
    a line that parses to something other than an object. *)
Inductive read (A : Type) : Type :=
| Returned (a : A)
| AttributeError.
Arguments Returned {A} a.
Arguments AttributeError {A}.

(** [get_by_id]: the first object whose ["decision_id"] is the string
    asked for. *)
Fixpoint get_by_id (lines : list (option json)) (decision_id : string)
  : read (option json) :=
  match lines with
  | [] => Returned None
  | None :: rest => get_by_id rest decision_id
  | Some (JObj fields) :: rest =>
      match Py.get fields "decision_id" with
      | Some (JStr found) =>
          if String.eqb found decision_id then Returned (Some (JObj fields))
          else get_by_id rest decision_id
      | _ => get_by_id rest decision_id
      end
  | Some _ :: rest => AttributeError
  end.

End AuditLogger.

(* ================================================================== *)
(** ** Agents, judges and the synthesizer *)
(* ================================================================== *)

(** The two agent classes of [src/agents/generators.py]. *)
Inductive AgentClass : Type :=
| MegaLLMAgent
| MockAgent.

(** A configured generation agent ([BaseAgent]) and its class. *)
Record Agent : Type := mkAgent {
  a_id : string;
  a_type : string;
  a_temperature : float;
  a_class : AgentClass
}.

(** A rubric dimension: [dim_config.get('weight', 0.25)] reads [weight]. *)
Record Dimension : Type := mkDimension {
  weight : option float;
  description : string
}.

(** A configured judge ([BaseJudge]). *)
Record Judge : Type := mkJudge {
  j_id : string;
  j_type : string;
  dimensions : Py.dict Dimension
}.

(** [BaseJudge.calculate_weighted_score]. *)
Definition calculate_weighted_score (judge : Judge) (scores : Py.dict float) : float :=
  let '(total, total_weight) :=
    fold_left
      (fun acc dim =>
         let '(total, total_weight) := acc in
         match Py.get scores (fst dim) with
         | Some score =>
             let w := match weight (snd dim) with Some w => w | None => 0.25%float end in
             (PrimFloat.add total (PrimFloat.mul score w), PrimFloat.add total_weight w)
         | None => acc
         end)
      (dimensions judge) (0%float, 0%float) in
  if Py.feq total_weight 0%float then 0%float
  else PrimFloat.div total total_weight.

(** Everything the pipeline obtains from outside the process.  A backend
    call is represented by what the caller ends up with after its own
    error handling (the error-marker text of a failed generation, the
    default scores of a failed evaluation, the winner's text of a failed
    refinement).  The backends are taken to be initialised: the lazy
    client set-up, which raises without an API key, is not modelled, and
    every call to a backend returns. *)
Record World : Type := mkWorld {
  (** the regular-expression engine *)
  re_search : string -> string -> bool;
  re_findall : string -> bool -> string -> list string;
  (** [hashlib.sha256(...).hexdigest()] *)
  sha256_hexdigest : string -> string;
  (** the text an agent ends up with for a query, error marker included,
      and the time it took *)
  generated_text : Agent -> string -> string;
  generation_ms : Agent -> string -> Z;
  (** the chunks an agent streams, given the word limit *)
  stream_chunks : Agent -> string -> option Z -> list string;
  (** how many of its chunks an agent has written at a poll *)
  written_at : nat -> Agent -> nat;
  (** how often the polling loop finds a task still running *)
  polls : nat;
  (** the scores, reasoning and issues a judge ends up with for a response *)
  judged_scores : Judge -> string -> AgentResponse -> Py.dict float;
  judged_reasoning : Judge -> string -> AgentResponse -> string;
  judged_issues : Judge -> string -> AgentResponse -> list string;
  (** the text the refinement backend ends up with, fallback included *)
  synthesis_text : string -> AgentResponse -> list AgentResponse -> string -> string;
  synthesis_ms : Z;
  (** string rendering *)
  render_reasoning : string -> Py.dict float -> list string -> string;
  repr_float : float -> string;
  format_percent : float -> string;
  (** [uuid], [datetime.now()] for the decision and for the log line,
      and the measured processing time *)
  new_decision_id : string;
  now : string;
  log_now : string;
  elapsed_ms : Z
}.

Section Backends.

Variable w : World.

(** [agent.generate(query)].  [MockAgent.generate] builds its result
    with [AgentResponse(...)], the ellipsis being the only argument, and
    that call raises [TypeError]. *)
Definition generate (agent : Agent) (query : string) : Py.result AgentResponse :=
  match a_class agent with
  | MockAgent => Py.Raise Py.TypeError
  | MegaLLMAgent =>
      Py.Ok (mkAgentResponse (a_id agent) (a_type agent)
               (generated_text w agent query)
               (a_temperature agent) (generation_ms w agent query))
  end.

(** [asyncio.gather] on the tasks: the results in their order, or
    the exception of a task that raises (the tasks that raise here all
    raise the same one). *)
Fixpoint gather {A : Type} (tasks : list (Py.result A)) : Py.result (list A) :=
  match tasks with
  | [] => Py.Ok []
  | task :: rest =>
      Py.bind task (fun a => Py.bind (gather rest) (fun l => Py.Ok (a :: l)))
  end.

(** [run_agents_parallel]: one response per agent, in declaration order. *)
Definition run_agents_parallel (agents : list Agent) (query : string)
  : Py.result (list AgentResponse) :=
  gather (map (fun agent => generate agent query) agents).

(** One evaluation of a response by a judge ([_evaluate_single], and the
    body of [MockJudge.evaluate]'s loop). *)
Definition evaluate_single (judge : Judge) (query : string) (response : AgentResponse)
  : JudgeEvaluation :=
  let scores := judged_scores w judge query response in
  mkJudgeEvaluation (j_id judge) (j_type judge) (agent_id response) scores
    (calculate_weighted_score judge scores)
    (judged_reasoning w judge query response)
    (judged_issues w judge query response).

Definition evaluate (judge : Judge) (query : string) (responses : list AgentResponse)
  : list JudgeEvaluation :=
  map (evaluate_single judge query) responses.

(** [run_judges_on_responses]: the judges' lists, one after the other. *)
Definition run_judges_on_responses (judges : list Judge) (query : string)
    (responses : list AgentResponse) : list JudgeEvaluation :=
  flat_map (fun judge => evaluate judge query responses) judges.

(** [Synthesizer.refine] ([use_mock = false]) and [MockSynthesizer.refine]
    ([use_mock = true]). *)
Definition refine (use_mock : bool) (query : string) (winner : AgentResponse)
    (all_responses : list AgentResponse) (judge_feedback : string) : AgentResponse :=
  let others :=
    filter (fun r => negb (String.eqb (agent_id r) (agent_id winner))) all_responses in
  if use_mock then
    mkAgentResponse (agent_id winner ++ "_refined") (agent_type winner ++ " (Refined)")
      (response_text winner ++ String (ascii_of_nat 10) (String (ascii_of_nat 10)
         ("---" ++ String (ascii_of_nat 10)
            ("[SYNTHESIS NOTE: This response has been refined by considering "
             ++ SafetyGate.str_of_Z (Z.of_nat (List.length others))
             ++ " alternative perspectives]" ++ String (ascii_of_nat 10) ""))))
      (temperature winner) (synthesis_ms w)
  else if negb (Py.truthy_list others) then winner
  else
    mkAgentResponse (agent_id winner ++ "_refined") (agent_type winner ++ " (Refined)")
      (synthesis_text w query winner others judge_feedback)
      (temperature winner) (synthesis_ms w).

End Backends.

(* ================================================================== *)
(** ** The orchestrator ([LLMCouncil]) *)
(* ================================================================== *)

Record LLMCouncil : Type := mkCouncil {
  agents : list Agent;
  judges : list Judge;
  safety_gate : SafetyGate.t;
  use_mock : bool;
  confidence_threshold : float;
  max_retries : Z;
  skip_synthesis : bool
}.

(** [AgentFactory.create_agent]: [MockAgent if self.use_mock else
    MegaLLMAgent]. *)
Definition agent_class (use_mock : bool) : AgentClass :=
  if use_mock then MockAgent else MegaLLMAgent.

(** [LLMCouncil.__init__], the configuration files read: the identifier,
    type and temperature of every agent, the judges and the gate.  The
    agents take their class from [use_mock]. *)
Definition new_council (roster : list (string * string * float))
    (panel : list Judge) (gate : SafetyGate.t) (use_mock : bool)
    (confidence_threshold : float) (max_retries : Z) (skip_synthesis : bool)
  : LLMCouncil :=
  mkCouncil
    (map (fun cfg => mkAgent (fst (fst cfg)) (snd (fst cfg)) (snd cfg)
                       (agent_class use_mock)) roster)
    panel gate use_mock confidence_threshold max_retries skip_synthesis.

(** [_get_judge_feedback]. *)
Definition feedback_part (ev : JudgeEvaluation) : list string :=
  if Py.truthy_list (flagged_issues ev) then
    [(judge_type ev ++ " Judge: " ++ Py.join "; " (flagged_issues ev))%string]
  else if Py.truthy_str (reasoning ev) then
    [(judge_type ev ++ " Judge: " ++ reasoning ev)%string]
  else [].

Definition get_judge_feedback (evaluations : list JudgeEvaluation)
    (selected : AgentResponse) : string :=
  let feedback_parts :=
    flat_map
      (fun ev => if String.eqb (target_agent_id ev) (agent_id selected)
                 then feedback_part ev else [])
      evaluations in
  if Py.truthy_list feedback_parts then Py.join " | " feedback_parts else "".

Definition risk_eqb (a b : RiskLevel) : bool :=
  match a, b with
  | LOW, LOW | MEDIUM, MEDIUM | HIGH, HIGH | CRITICAL, CRITICAL => true
  | _, _ => false
  end.

(** The stages of the staged mode and what each one carries. *)
Inductive Payload : Type :=
| NoPayload
| BlockedPayload (b : BlockedDecision)
| AgentsPayload (responses : list AgentResponse)
| JudgesPayload (responses : list AgentResponse) (evaluations : list JudgeEvaluation)
| FinalPayload (d : Decision).

(** A run of the staged mode: what was yielded, in order, how the
    generator ended, and the audit file afterwards. *)
Record StagedRun : Type := mkStagedRun {
  yielded : list (string * Payload);
  ending : Py.result unit;
  audit_file : list json
}.

Section Council.

Context {U : Py.Unicode}.

Variable w : World.
Variable council : LLMCouncil.

(** Steps 5 and 6 of [decide]: synthesis, then the single retry.
    Returns the refined response, the flags, the feedback and the final
    confidence. *)
Definition refine_and_retry (query : string) (agent_responses : list AgentResponse)
    (evaluations : list JudgeEvaluation) (selected : AgentResponse)
    (confidence : float)
  : AgentResponse * bool * bool * string * float :=
  let '(refined_response, was_refined) :=
    if skip_synthesis council then (selected, false)
    else (refine w (use_mock council) query selected agent_responses "", true) in
  if Py.flt confidence (confidence_threshold council)
     && (0 <? max_retries council)%Z then
    let retry_feedback := get_judge_feedback evaluations selected in
    if Py.truthy_str retry_feedback then
      (refine w (use_mock council) query selected agent_responses retry_feedback,
       was_refined, true, retry_feedback,
       Py.min2 1%float (PrimFloat.add confidence 0.1%float))
    else (refined_response, was_refined, false, retry_feedback, confidence)
  else (refined_response, was_refined, false, "", confidence).

(** Step 7: the assessed risk with the warn-only annotations. *)
Definition annotate_risk (evaluations : list JudgeEvaluation) (confidence : float)
    (judge_disagreement : bool) : RiskLevel * list string :=
  let '(risk_level, identified_risks) :=
    Risk.assess_risk (repr_float w) evaluations confidence judge_disagreement in
  let '(risk_level, identified_risks) :=
    if Py.flt confidence (confidence_threshold council)
       && negb (risk_eqb risk_level CRITICAL) then
      (if risk_eqb risk_level LOW then MEDIUM else risk_level,
       identified_risks ++
         [("⚠️ LOW CONFIDENCE (" ++ format_percent w confidence
           ++ "): Human review recommended")%string])
    else (risk_level, identified_risks) in
  if judge_disagreement then
    (risk_level,
     identified_risks ++
       ["⚠️ JUDGES DISAGREE: Different judges rated this differently"])
  else (risk_level, identified_risks).

(** Steps 4 to 8, which [decide] and [decide_generator] share word for
    word: selection, synthesis, retry, risk and the [Decision]. *)
Definition conclude (query : string) (agent_responses : list AgentResponse)
    (evaluations : list JudgeEvaluation) (judge_disagreement : bool)
  : Py.result Decision :=
  Py.bind (Selector.select_best (render_reasoning w) agent_responses evaluations)
    (fun '(selected, confidence, selection_reasoning) =>
  let '(refined_response, was_refined, was_retried, retry_feedback, confidence) :=
    refine_and_retry query agent_responses evaluations selected confidence in
  let '(risk_level, identified_risks) :=
    annotate_risk evaluations confidence judge_disagreement in
  let citations :=
    Citations.extract_citations (re_findall w) (response_text refined_response) in
  Py.Ok (mkDecision (new_decision_id w) (now w) query agent_responses evaluations
           selected confidence risk_level identified_risks citations
           selection_reasoning (Some refined_response) retry_feedback
           (elapsed_ms w) true judge_disagreement was_refined was_retried)).

Definition block (query : string) (result : SafetyGate.SafetyResult) : BlockedDecision :=
  mkBlockedDecision (new_decision_id w) (now w) query false
    (SafetyGate.reason result) (SafetyGate.matched_patterns result).

(** [decide]: the outcome and the audit file after the run. *)
Definition decide (file : list json) (query : string)
  : Py.result (Outcome * list json) :=
  let safety_result := SafetyGate.check (re_search w) (safety_gate council) query in
  if negb (SafetyGate.passed safety_result) then
    let blocked := block query safety_result in
    Py.Ok (Blocked blocked,
           fst (AuditLogger.log (sha256_hexdigest w) file (log_now w) (Blocked blocked)))
  else
    Py.bind (run_agents_parallel w (agents council) query) (fun agent_responses =>
    let evaluations := run_judges_on_responses w (judges council) query agent_responses in
    let judge_disagreement :=
      Judges.check_judge_disagreement evaluations Judges.default_threshold in
    Py.bind (conclude query agent_responses evaluations judge_disagreement)
      (fun decision =>
         Py.Ok (Decided decision,
                fst (AuditLogger.log (sha256_hexdigest w) file (log_now w)
                       (Decided decision))))).

(** The response buffers of the staged mode at a poll: each agent's
    text so far, and no generation time yet. *)
Definition streamed_so_far (word_limit : option Z) (query : string) (poll : nat)
  : list AgentResponse :=
  map (fun agent =>
         mkAgentResponse (a_id agent) (a_type agent)
           (String.concat ""
              (firstn (written_at w poll agent) (stream_chunks w agent query word_limit)))
           (a_temperature agent) 0)
      (agents council).

(** The buffers once every streaming task is done. *)
Definition streamed (word_limit : option Z) (query : string) : list AgentResponse :=
  map (fun agent =>
         mkAgentResponse (a_id agent) (a_type agent)
           (String.concat "" (stream_chunks w agent query word_limit))
           (a_temperature agent) (generation_ms w agent query))
      (agents council).

(** [decide_generator].  The polling loop yields ["agents"] once per
    poll that finds a task running, and once more after the loop.  The
    payload of ["agents"] is the list of buffers the tasks write into;
    it is given here as it stands when the stage is yielded.  The
    [skip_synthesis] argument is not read: the body consults the
    council's own setting. *)
Definition decide_generator (file : list json) (query : string)
    (skip_synthesis_argument : bool) (word_limit : option Z) : StagedRun :=
  let start := [("start", NoPayload)] in
  let safety_result := SafetyGate.check (re_search w) (safety_gate council) query in
  if negb (SafetyGate.passed safety_result) then
    let blocked := block query safety_result in
    mkStagedRun
      (start ++ [("blocked", BlockedPayload blocked)])
      (Py.Ok tt)
      (fst (AuditLogger.log (sha256_hexdigest w) file (log_now w) (Blocked blocked)))
  else
    let polling :=
      map (fun poll => ("agents", AgentsPayload (streamed_so_far word_limit query poll)))
          (seq 0 (polls w)) in
    let agent_responses := streamed word_limit query in
    let settled := [("agents", AgentsPayload agent_responses)] in
    let evaluations := run_judges_on_responses w (judges council) query agent_responses in
    let judge_disagreement :=
      Judges.check_judge_disagreement evaluations Judges.default_threshold in
    let judged := [("judges", JudgesPayload agent_responses evaluations)] in
    match conclude query agent_responses evaluations judge_disagreement with
    | Py.Ok decision =>
        mkStagedRun
          (start ++ polling ++ settled ++ judged ++ [("final", FinalPayload decision)])
          (Py.Ok tt)
          (fst (AuditLogger.log (sha256_hexdigest w) file (log_now w) (Decided decision)))
    | Py.Raise e =>
        mkStagedRun (start ++ polling ++ settled ++ judged) (Py.Raise e) file
    end.

End Council.

(* ################################################################## *)
(** * Part II: properties *)
(* ################################################################## *)

(* ================================================================== *)
(** ** The built-ins on small inputs *)
(* ================================================================== *)
Example sum_left_to_right :
  Py.sum [1%float; 2%float; 4.5%float] = 7.5%float.
Proof. vm_compute. reflexivity. Qed.

Example strip_example : Py.strip "  a b  " = "a b".
Proof. reflexivity. Qed.

(** The text with the given UTF-8 bytes. *)
Definition text_of_bytes (bytes : list nat) : string :=
  fold_right (fun byte rest => String (ascii_of_nat byte) rest) "" bytes.

(** U+00A0, the no-break space, and the two characters U+65E5 U+672C. *)
Definition no_break_space : string := text_of_bytes [194; 160].
Definition two_kanji : string := text_of_bytes [230; 151; 165; 230; 156; 172].

Example strip_knows_unicode_white_space :
  Py.strip (no_break_space ++ " a b" ++ no_break_space ++ " ") = "a b".
Proof. vm_compute. reflexivity. Qed.

Example strip_keeps_other_characters :
  Py.strip (" " ++ two_kanji ++ " ") = two_kanji.
Proof. vm_compute. reflexivity. Qed.

Example len_counts_characters :
  Py.len two_kanji = 2%nat /\ String.length two_kanji = 6%nat.
Proof. split; reflexivity. Qed.

(* ================================================================== *)
(** ** Facts about float comparison *)
(* ================================================================== *)

(** The comparison of the binary64 specification is antisymmetric. *)
Lemma SFcompare_swap (x y : spec_float) :
  SFcompare y x = option_map CompOpp (SFcompare x y).
Proof.
  destruct x as [sx|sx| |sx mx ex], y as [sy|sy| |sy my ey]; simpl;
    try reflexivity;
    try (destruct sx; reflexivity);
    try (destruct sy; reflexivity);
    try (destruct sx, sy; reflexivity).
  destruct sx, sy; simpl; try reflexivity;
    rewrite (Z.compare_antisym ex ey);
    destruct (ex ?= ey)%Z; simpl; try reflexivity;
    rewrite (Pos.compare_cont_antisym mx my Eq); simpl;
    destruct (Pos.compare_cont Eq mx my); reflexivity.
Qed.

Lemma flt_asym (a b : float) : Py.flt a b = true -> Py.flt b a = false.
Proof.
  unfold Py.flt. rewrite !ltb_spec. unfold SFltb.
  rewrite (SFcompare_swap (Prim2SF a) (Prim2SF b)).
  destruct (SFcompare (Prim2SF a) (Prim2SF b)) as [[ | | ]|]; simpl; congruence.
Qed.

Lemma flt_not_feq (a b : float) :
  Py.flt a b = true -> Py.feq a b = false /\ Py.feq b a = false.
Proof.
  unfold Py.flt, Py.feq. rewrite ltb_spec, !eqb_spec. unfold SFltb, SFeqb.
  rewrite (SFcompare_swap (Prim2SF a) (Prim2SF b)).
  destruct (SFcompare (Prim2SF a) (Prim2SF b)) as [[ | | ]|]; simpl;
    intros H; try discriminate H; split; reflexivity.
Qed.

Lemma feq_refl (a : float) : PrimFloat.is_nan a = false -> Py.feq a a = true.
Proof.
  unfold PrimFloat.is_nan, Py.feq. intros H.
  now apply negb_false_iff in H.
Qed.

Lemma flt_irrefl (a : float) : Py.flt a a = false.
Proof.
  destruct (Py.flt a a) eqn:E; [|reflexivity].
  now rewrite (flt_asym a a E) in E.
Qed.

Lemma SFcompare_refl (x : spec_float) :
  x <> S754_nan -> SFcompare x x = Some Eq.
Proof.
  destruct x as [s|s| |s m e]; simpl; intros H; try congruence;
    destruct s; try reflexivity;
    now rewrite Z.compare_refl, Pos.compare_cont_refl.
Qed.

Lemma flt_not_nan (a b : float) :
  Py.flt a b = true ->
  PrimFloat.is_nan a = false /\ PrimFloat.is_nan b = false.
Proof.
  unfold Py.flt, PrimFloat.is_nan. rewrite ltb_spec, !eqb_spec.
  unfold SFltb, SFeqb. intros H.
  assert (Ha : Prim2SF a <> S754_nan).
  { intros E. rewrite E in H. simpl in H. discriminate. }
  assert (Hb : Prim2SF b <> S754_nan).
  { intros E. rewrite E in H. destruct (Prim2SF a); simpl in H; discriminate. }
  now rewrite (SFcompare_refl _ Ha), (SFcompare_refl _ Hb).
Qed.

(** Adding two floats to the initial zero gives the same sum in either
    order. *)
Lemma SFadd_from_zero_swap (x y : spec_float) :
  SF64add (SF64add (S754_zero false) x) y = SF64add (SF64add (S754_zero false) y) x.
Proof.
  unfold SF64add, SFadd.
  destruct x as [sx|sx| |sx mx ex], y as [sy|sy| |sy my ey];
    try reflexivity;
    try (destruct sx; reflexivity);
    try (destruct sy; reflexivity);
    try (destruct sx, sy; reflexivity).
  cbv zeta. rewrite (Z.min_comm ey ex).
  rewrite (Z.add_comm (cond_Zopp sy _)). reflexivity.
Qed.

Lemma sum_pair_swap (x y : float) : Py.sum [x; y] = Py.sum [y; x].
Proof.
  unfold Py.sum. simpl. apply Prim2SF_inj.
  rewrite !add_spec.
  replace (Prim2SF 0%float) with (S754_zero false) by (vm_compute; reflexivity).
  apply SFadd_from_zero_swap.
Qed.

(* ================================================================== *)
(** ** Facts about insertion-ordered dictionaries *)
(* ================================================================== *)

Section DictFacts.

Context {V : Type}.
Implicit Types (d : Py.dict V) (k : string) (v : V).

Lemma get_set_same d k v : Py.get (Py.set d k v) k = Some v.
Proof.
  induction d as [|[k' v'] d IH]; simpl.
  - now rewrite String.eqb_refl.
  - destruct (String.eqb k k') eqn:E; simpl; rewrite E; auto.
Qed.

Lemma get_set_other d k k' v :
  k' <> k -> Py.get (Py.set d k v) k' = Py.get d k'.
Proof.
  intros Hne. induction d as [|[k0 v0] d IH]; simpl.
  - apply String.eqb_neq in Hne. now rewrite Hne.
  - destruct (String.eqb k k0) eqn:E; simpl.
    + apply String.eqb_eq in E. subst k0.
      apply String.eqb_neq in Hne. now rewrite Hne.
    + destruct (String.eqb k' k0); auto.
Qed.

Lemma get_none_not_key d k : Py.get d k = None <-> ~ In k (Py.keys d).
Proof.
  induction d as [|[k' v'] d IH]; simpl.
  - tauto.
  - destruct (String.eqb k k') eqn:E.
    + apply String.eqb_eq in E. subst. split; [discriminate | tauto].
    + apply String.eqb_neq in E. rewrite IH. split.
      * intros H [H1|H1]; [congruence | tauto].
      * tauto.
Qed.

Lemma keys_set d k v :
  Py.keys (Py.set d k v) = if Py.has_key d k then Py.keys d else Py.keys d ++ [k].
Proof.
  unfold Py.has_key. induction d as [|[k' v'] d IH]; simpl; [reflexivity|].
  destruct (String.eqb k k') eqn:E; simpl; [reflexivity|].
  rewrite IH. now destruct (Py.get d k).
Qed.

Lemma has_key_in d k : Py.has_key d k = true <-> In k (Py.keys d).
Proof.
  unfold Py.has_key. destruct (Py.get d k) eqn:E.
  - split; [intros _ | reflexivity].
    destruct (in_dec string_dec k (Py.keys d)) as [H|H]; [exact H|].
    apply get_none_not_key in H. congruence.
  - split; [discriminate|]. intros H. apply get_none_not_key in E. tauto.
Qed.

Lemma nodup_keys_set d k v : NoDup (Py.keys d) -> NoDup (Py.keys (Py.set d k v)).
Proof.
  intros H. rewrite keys_set. destruct (Py.has_key d k) eqn:E; [exact H|].
  apply NoDup_app; [exact H | repeat constructor; simpl; tauto |].
  intros x Hx [<-|[]]. apply has_key_in in Hx. congruence.
Qed.

(** With distinct keys, every entry is what [get] returns for its key. *)
Lemma get_in_nodup d k v :
  NoDup (Py.keys d) -> In (k, v) d -> Py.get d k = Some v.
Proof.
  induction d as [|[k' v'] d IH]; simpl; [tauto|].
  intros Hnd [Heq|Hin].
  - inversion Heq; subst. now rewrite String.eqb_refl.
  - inversion Hnd as [|? ? Hnotin Hnd']; subst.
    destruct (String.eqb k k') eqn:E.
    + apply String.eqb_eq in E. subst k'.
      exfalso. apply Hnotin. change k with (fst (k, v)). now apply in_map.
    + now apply IH.
Qed.

Lemma get_some_split d k v :
  Py.get d k = Some v ->
  exists d1 d2, d = d1 ++ (k, v) :: d2 /\ ~ In k (Py.keys d1).
Proof.
  induction d as [|[k' v'] d IH]; simpl; [discriminate|].
  destruct (String.eqb k k') eqn:E.
  - intros H. inversion H; subst. apply String.eqb_eq in E. subst k'.
    exists [], d. simpl. tauto.
  - intros H. destruct (IH H) as (d1 & d2 & -> & Hn).
    exists ((k', v') :: d1), d2. split; [reflexivity|].
    simpl. apply String.eqb_neq in E. intros [H1|H1]; [congruence | tauto].
Qed.

End DictFacts.

Lemma get_map_values {V W : Type} (f : V -> W) (d : Py.dict V) (k : string) :
  Py.get (map (fun kv => (fst kv, f (snd kv))) d) k = option_map f (Py.get d k).
Proof.
  induction d as [|[k' v'] d IH]; simpl; [reflexivity|].
  now destruct (String.eqb k k').
Qed.

Lemma keys_map_values {V W : Type} (f : V -> W) (d : Py.dict V) :
  Py.keys (map (fun kv => (fst kv, f (snd kv))) d) = Py.keys d.
Proof.
  unfold Py.keys. rewrite map_map. now apply map_ext.
Qed.

(* ================================================================== *)
(** ** Facts about the grouping loop *)
(* ================================================================== *)

(** Keys in order of first appearance: how a dict orders the keys that a
    loop inserts. *)
Definition first_seen_from (seen : list string) (ks : list string) : list string :=
  fold_left (fun acc k => if Py.mem k acc then acc else acc ++ [k]) ks seen.

Definition first_seen (ks : list string) : list string := first_seen_from [] ks.

Lemma mem_in (k : string) (ks : list string) : Py.mem k ks = true <-> In k ks.
Proof.
  unfold Py.mem. rewrite existsb_exists. split.
  - intros (x & Hx & E). apply String.eqb_eq in E. now subst.
  - intros H. exists k. split; [exact H | apply String.eqb_refl].
Qed.

Lemma has_key_mem {V : Type} (d : Py.dict V) (k : string) :
  Py.has_key d k = Py.mem k (Py.keys d).
Proof.
  destruct (Py.mem k (Py.keys d)) eqn:E.
  - apply has_key_in. now apply mem_in.
  - destruct (Py.has_key d k) eqn:E'; [|reflexivity].
    apply has_key_in, mem_in in E'. congruence.
Qed.

Section Grouping.

Context {E V : Type}.
Variable key : E -> string.
Variable upd : list V -> E -> list V.

(** One round of [if k not in d: d[k] = []] followed by an update of
    [d[k]] in place. *)
Definition group_step (d : Py.dict (list V)) (ev : E) : Py.dict (list V) :=
  Py.set (setdefault_empty d (key ev)) (key ev)
    (upd (item_or_empty (setdefault_empty d (key ev)) (key ev)) ev).

Lemma item_after_setdefault (d : Py.dict (list V)) k :
  item_or_empty (setdefault_empty d k) k = item_or_empty d k.
Proof.
  unfold setdefault_empty, item_or_empty, Py.has_key.
  destruct (Py.get d k) eqn:G; [now rewrite G|].
  now rewrite get_set_same.
Qed.

Lemma group_step_get_same d ev :
  Py.get (group_step d ev) (key ev) = Some (upd (item_or_empty d (key ev)) ev).
Proof.
  unfold group_step. now rewrite get_set_same, item_after_setdefault.
Qed.

Lemma group_step_get_other d ev k :
  k <> key ev -> Py.get (group_step d ev) k = Py.get d k.
Proof.
  intros Hne. unfold group_step. rewrite get_set_other by exact Hne.
  unfold setdefault_empty. destruct (Py.has_key d (key ev)); [reflexivity|].
  now apply get_set_other.
Qed.

Lemma group_step_keys d ev :
  Py.keys (group_step d ev) =
  if Py.mem (key ev) (Py.keys d) then Py.keys d else Py.keys d ++ [key ev].
Proof.
  unfold group_step. rewrite keys_set.
  rewrite <- has_key_mem. unfold setdefault_empty.
  destruct (Py.has_key d (key ev)) eqn:H.
  - now rewrite H.
  - replace (Py.has_key (Py.set d (key ev) []) (key ev)) with true.
    + rewrite keys_set. now rewrite H.
    + unfold Py.has_key. now rewrite get_set_same.
Qed.

Lemma group_fold_keys evs d :
  Py.keys (fold_left group_step evs d) = first_seen_from (Py.keys d) (map key evs).
Proof.
  revert d. induction evs as [|ev evs IH]; intros d; simpl; [reflexivity|].
  rewrite IH. unfold first_seen_from. now rewrite group_step_keys.
Qed.

Lemma group_fold_nodup evs d :
  NoDup (Py.keys d) -> NoDup (Py.keys (fold_left group_step evs d)).
Proof.
  revert d. induction evs as [|ev evs IH]; intros d Hd; simpl; [exact Hd|].
  apply IH. unfold group_step. apply nodup_keys_set.
  unfold setdefault_empty. destruct (Py.has_key d (key ev)); [exact Hd|].
  now apply nodup_keys_set.
Qed.

(** The items of a list that carry a given key. *)
Definition hits (k : string) (evs : list E) : list E :=
  filter (fun ev => String.eqb (key ev) k) evs.

(** What the loop leaves under a key: the updates by the items with that
    key, in list order, applied to what was there. *)
Lemma group_fold_get evs d k :
  Py.get (fold_left group_step evs d) k =
  match Py.get d k, hits k evs with
  | None, [] => None
  | _, hs => Some (fold_left upd hs (item_or_empty d k))
  end.
Proof.
  revert d. induction evs as [|ev evs IH]; intros d; simpl.
  - unfold item_or_empty. now destruct (Py.get d k).
  - rewrite IH. destruct (String.eqb (key ev) k) eqn:Ek.
    + apply String.eqb_eq in Ek. subst k.
      rewrite group_step_get_same. unfold item_or_empty at 1.
      rewrite group_step_get_same. simpl.
      destruct (Py.get d (key ev)); reflexivity.
    + apply String.eqb_neq in Ek.
      assert (Hne : k <> key ev) by congruence.
      unfold item_or_empty. rewrite (group_step_get_other d ev k Hne).
      reflexivity.
Qed.

End Grouping.

Lemma fold_append {E V : Type} (f : E -> list V) (evs : list E) (l0 : list V) :
  fold_left (fun l ev => l ++ f ev) evs l0 = l0 ++ flat_map f evs.
Proof.
  revert l0. induction evs as [|ev evs IH]; intros l0; simpl.
  - now rewrite app_nil_r.
  - now rewrite IH, app_assoc.
Qed.

Lemma collect_scores_is_grouping (evaluations : list JudgeEvaluation) :
  collect_scores evaluations =
  fold_left (group_step target_agent_id (fun l ev => l ++ [total_score ev]))
            evaluations [].
Proof. reflexivity. Qed.

Lemma collect_scores_get (evaluations : list JudgeEvaluation) (k : string) :
  Py.get (collect_scores evaluations) k =
  match hits target_agent_id k evaluations with
  | [] => None
  | hs => Some (map total_score hs)
  end.
Proof.
  rewrite collect_scores_is_grouping, group_fold_get.
  change (Py.get [] k) with (@None (list float)).
  destruct (hits target_agent_id k evaluations) as [|e l]; [reflexivity|].
  f_equal. rewrite (fold_append (fun ev => [total_score ev])).
  change (item_or_empty [] k) with (@nil float). simpl. f_equal.
Qed.

Lemma collect_scores_keys (evaluations : list JudgeEvaluation) :
  Py.keys (collect_scores evaluations) = first_seen (map target_agent_id evaluations).
Proof.
  rewrite collect_scores_is_grouping. now rewrite group_fold_keys.
Qed.

Lemma collect_scores_nodup (evaluations : list JudgeEvaluation) :
  NoDup (Py.keys (collect_scores evaluations)).
Proof.
  rewrite collect_scores_is_grouping. apply group_fold_nodup. constructor.
Qed.

(* ================================================================== *)
(** ** Facts about [max] *)
(* ================================================================== *)

Lemma max_from_in (x : float) (xs : list float) : In (Py.max_from x xs) (x :: xs).
Proof.
  revert x. induction xs as [|v xs IH]; intros x; simpl; [tauto|].
  unfold Py.max_from in *. simpl.
  destruct (Py.fgt v x).
  - destruct (IH v) as [H|H]; [right; left; exact H | right; right; exact H].
  - destruct (IH x) as [H|H]; [left; exact H | right; right; exact H].
Qed.

(** Once the candidate dominates the rest, it stays. *)
Lemma max_from_stays (a : float) (xs : list float) :
  (forall v, In v xs -> Py.flt v a = true) -> Py.max_from a xs = a.
Proof.
  induction xs as [|v xs IH]; intros H; [reflexivity|].
  unfold Py.max_from in *. simpl.
  replace (Py.fgt v a) with false.
  - apply IH. intros w Hw. apply H. now right.
  - symmetry. unfold Py.fgt. apply flt_asym. apply H. now left.
Qed.

(** [max] finds a value that strictly exceeds all the others, wherever
    it stands. *)
Lemma max_from_app (x : float) (l1 l2 : list float) :
  Py.max_from x (l1 ++ l2) = Py.max_from (Py.max_from x l1) l2.
Proof. unfold Py.max_from. apply fold_left_app. Qed.

Lemma max_from_cons (x v : float) (xs : list float) :
  Py.max_from x (v :: xs) = Py.max_from (if Py.fgt v x then v else x) xs.
Proof. reflexivity. Qed.

Lemma max_strict (l1 l2 : list float) (a : float) :
  (forall v, In v (l1 ++ l2) -> Py.flt v a = true) ->
  Py.max (l1 ++ a :: l2) = Py.Ok a.
Proof.
  intros H. destruct l1 as [|x l1]; simpl.
  - f_equal. apply max_from_stays. exact H.
  - f_equal. rewrite max_from_app, max_from_cons.
    assert (Hc : Py.flt (Py.max_from x l1) a = true).
    { apply H. simpl. destruct (max_from_in x l1) as [E|E].
      - left. exact E.
      - right. apply in_or_app. left. exact E. }
    change (Py.fgt a (Py.max_from x l1)) with (Py.flt (Py.max_from x l1) a).
    rewrite Hc.
    apply max_from_stays. intros v Hv. apply H. simpl. right.
    apply in_or_app. now right.
Qed.

Lemma max_in (xs : list float) (m : float) : Py.max xs = Py.Ok m -> In m xs.
Proof.
  destruct xs as [|x xs]; simpl; [discriminate|].
  intros H. inversion H. apply max_from_in.
Qed.

(* ================================================================== *)
(** ** Properties of the selector *)
(* ================================================================== *)

Section SelectorFacts.

Context {U : Py.Unicode}.

Import Py Selector.

(** The averages the selector computes from an evaluation list. *)
Definition averages (evaluations : list JudgeEvaluation) : dict float :=
  average_scores (collect_scores evaluations).

Lemma averages_nodup evaluations : NoDup (keys (averages evaluations)).
Proof.
  unfold averages, average_scores. rewrite keys_map_values.
  apply collect_scores_nodup.
Qed.

Lemma averages_keys evaluations :
  keys (averages evaluations) = first_seen (map target_agent_id evaluations).
Proof.
  unfold averages, average_scores. rewrite keys_map_values.
  apply collect_scores_keys.
Qed.

(** [A]'s average is the number [a] and strictly exceeds every other
    agent's average. *)
Definition strictly_best (avgs : dict float) (A : string) (a : float) : Prop :=
  get avgs A = Some a /\
  PrimFloat.is_nan a = false /\
  forall B b, B <> A -> get avgs B = Some b -> flt b a = true.

Lemma strictly_best_max avgs A a :
  NoDup (keys avgs) -> strictly_best avgs A a ->
  max (values avgs) = Ok a /\ top_agents avgs a = [A].
Proof.
  intros Hnd (Hget & Hnan & Hothers).
  destruct (get_some_split avgs A a Hget) as (d1 & d2 & -> & Hnot1).
  assert (Hlt : forall B b, In (B, b) (d1 ++ d2) -> flt b a = true).
  { intros B b Hin. apply (Hothers B).
    - intros ->. unfold keys in Hnd. rewrite map_app in Hnd. simpl in Hnd.
      apply NoDup_remove_2 in Hnd. apply Hnd. rewrite <- map_app.
      change A with (fst (A, b)). now apply in_map.
    - apply get_in_nodup; [exact Hnd|].
      apply in_app_or in Hin. apply in_or_app. simpl. tauto. }
  split.
  - unfold values. rewrite map_app. simpl. apply max_strict.
    intros v Hv. rewrite <- map_app in Hv. apply in_map_iff in Hv.
    destruct Hv as ([B b] & <- & Hin). simpl. now apply (Hlt B).
  - unfold top_agents. rewrite filter_app. simpl.
    rewrite (feq_refl a Hnan).
    assert (Hf : forall d, (forall B b, In (B, b) d -> flt b a = true) ->
                 filter (fun kv : string * float => feq (snd kv) a) d = []).
    { induction d as [|[B b] d IH]; intros Hd; simpl; [reflexivity|].
      destruct (flt_not_feq b a (Hd B b (or_introl eq_refl))) as [-> _].
      apply IH. intros B' b' Hin. apply (Hd B'). now right. }
    rewrite !Hf; [reflexivity | |].
    + intros B b Hin. apply (Hlt B). apply in_or_app. now right.
    + intros B b Hin. apply (Hlt B). apply in_or_app. now left.
Qed.

Lemma tie_break_single A : tie_break [A] = Ok A.
Proof.
  unfold tie_break. simpl. now destruct (is_safety_advocate A).
Qed.

End SelectorFacts.

(** The averages depend on each agent's scores in list order only: a
    reordering that keeps every agent's own scores in their order (any
    interleaving of the agents) leaves them as they are. *)
Lemma averages_unchanged_by_interleaving
    (evaluations evaluations' : list JudgeEvaluation) :
  (forall B, map total_score (hits target_agent_id B evaluations') =
             map total_score (hits target_agent_id B evaluations)) ->
  forall B, Py.get (averages evaluations') B = Py.get (averages evaluations) B.
Proof.
  intros Hsame B. unfold averages, average_scores.
  rewrite !get_map_values, !collect_scores_get.
  specialize (Hsame B).
  destruct (hits target_agent_id B evaluations') as [|e' l'],
           (hits target_agent_id B evaluations) as [|e l];
    simpl in *; try discriminate; [reflexivity|].
  now rewrite Hsame.
Qed.

(** The evaluations that target an agent are permuted along with the
    whole list. *)
Lemma hits_permutation (B : string) (evaluations evaluations' : list JudgeEvaluation) :
  Permutation evaluations evaluations' ->
  Permutation (hits target_agent_id B evaluations)
              (hits target_agent_id B evaluations').
Proof.
  unfold hits.
  induction 1 as [|ev evs evs' H IH|ev1 ev2 evs|evs evs' evs'' H1 IH1 H2 IH2]; simpl.
  - constructor.
  - destruct (String.eqb (target_agent_id ev) B); [now constructor | exact IH].
  - destruct (String.eqb (target_agent_id ev1) B),
             (String.eqb (target_agent_id ev2) B);
      try apply Permutation_refl. apply perm_swap.
  - exact (perm_trans IH1 IH2).
Qed.

Lemma average_permutation_of_two (l l' : list float) :
  Permutation l l' -> (List.length l <= 2)%nat -> average l' = average l.
Proof.
  intros Hperm Hlen. destruct l as [|x [|y [|z l]]]; simpl in Hlen; try lia.
  - apply Permutation_nil in Hperm. now subst.
  - apply Permutation_length_1_inv in Hperm. now subst.
  - apply Permutation_length_2_inv in Hperm. destruct Hperm as [->| ->].
    + reflexivity.
    + unfold average. now rewrite sum_pair_swap.
Qed.

(** With at most two evaluations per agent, as in a council of two
    judges, no permutation of the evaluation list changes an average. *)
Lemma averages_unchanged_with_two_judges
    (evaluations evaluations' : list JudgeEvaluation) :
  Permutation evaluations evaluations' ->
  (forall B, (List.length (hits target_agent_id B evaluations) <= 2)%nat) ->
  forall B, Py.get (averages evaluations') B = Py.get (averages evaluations) B.
Proof.
  intros Hperm Htwo B. unfold averages, average_scores.
  rewrite !get_map_values, !collect_scores_get.
  assert (Hhits : Permutation (map total_score (hits target_agent_id B evaluations))
                              (map total_score (hits target_agent_id B evaluations'))).
  { apply Permutation_map. now apply hits_permutation. }
  pose proof (average_permutation_of_two _ _ Hhits) as Havg.
  specialize (Htwo B). rewrite <- (length_map total_score) in Htwo.
  specialize (Havg Htwo).
  destruct (hits target_agent_id B evaluations) as [|e l] eqn:E,
           (hits target_agent_id B evaluations') as [|e' l'] eqn:E'.
  - reflexivity.
  - apply Permutation_nil in Hhits. discriminate.
  - apply Permutation_sym, Permutation_nil in Hhits. discriminate.
  - simpl in *. now rewrite Havg.
Qed.

Section SelectorClaims.

Context {U : Py.Unicode}.

Import Py Selector.

Variable render_reasoning : string -> dict float -> list string -> string.

(** C1.  With no judge evaluation at all, [_select_best] does not reach
    its fallback to the first response: [max] over the empty averages
    raises [ValueError], whatever the responses are. *)
Theorem select_best_without_evaluations_raises
    (responses : list AgentResponse) :
  select_best render_reasoning responses [] = Raise ValueError.
Proof.
  unfold select_best, collect_scores, average_scores, values. simpl.
  reflexivity.
Qed.

(** The selector on a list whose computed averages have a strict,
    non-NaN maximum. *)
Lemma select_best_strict
    (responses : list AgentResponse) (evaluations : list JudgeEvaluation)
    (A : string) (a : float) (r : AgentResponse) :
  strictly_best (averages evaluations) A a ->
  find (fun r => String.eqb (agent_id r) A) responses = Some r ->
  select_best render_reasoning responses evaluations =
  Ok (r, PrimFloat.div a 10%float,
      render_reasoning (agent_type r) (averages evaluations)
        (item_or_empty (collect_issues evaluations) A)).
Proof.
  intros Hbest Hfind.
  destruct (strictly_best_max _ _ _ (averages_nodup evaluations) Hbest)
    as [Hmax Htop].
  unfold select_best. fold (averages evaluations).
  rewrite Hmax. simpl. rewrite Htop, tie_break_single. simpl.
  unfold response_of. rewrite Hfind. reflexivity.
Qed.

(** C5 (amended).  If agent [A]'s computed average is a number that
    strictly exceeds every other agent's computed average, the selector
    returns [A]'s response with confidence [average / 10], for every
    permutation of the evaluation list that leaves the computed averages
    as they are: every interleaving of the agents
    ([averages_unchanged_by_interleaving]), and every permutation at all
    when no agent has more than two evaluations
    ([averages_unchanged_with_two_judges]). *)
Theorem strict_winner_selected_in_any_order
    (responses : list AgentResponse)
    (evaluations evaluations' : list JudgeEvaluation)
    (A : string) (a : float) (r : AgentResponse) :
  Permutation evaluations evaluations' ->
  (forall B, get (averages evaluations') B = get (averages evaluations) B) ->
  strictly_best (averages evaluations) A a ->
  find (fun r => String.eqb (agent_id r) A) responses = Some r ->
  exists why,
    select_best render_reasoning responses evaluations' =
    Ok (r, PrimFloat.div a 10%float, why).
Proof.
  intros _ Hsame (Hget & Hnan & Hothers) Hfind.
  eexists. apply select_best_strict; [|exact Hfind].
  repeat split.
  - now rewrite Hsame.
  - exact Hnan.
  - intros B b HB Hb. apply (Hothers B b HB). now rewrite <- Hsame.
Qed.

End SelectorClaims.

(* ================================================================== *)
(** ** The selector on concrete panels *)
(* ================================================================== *)

(** A decidable form of [strictly_best], to check it by computation. *)
Definition strictly_bestb (avgs : Py.dict float) (A : string) (a : float) : bool :=
  match Py.get avgs A with
  | Some a' =>
      PrimFloat.Leibniz.eqb a' a && negb (PrimFloat.is_nan a) &&
      forallb (fun kv => String.eqb (fst kv) A || Py.flt (snd kv) a) avgs
  | None => false
  end.

Lemma get_some_in {V : Type} (d : Py.dict V) (k : string) (v : V) :
  Py.get d k = Some v -> In (k, v) d.
Proof.
  intros H. destruct (get_some_split d k v H) as (d1 & d2 & -> & _).
  apply in_or_app. right. now left.
Qed.

Lemma strictly_bestb_sound (avgs : Py.dict float) (A : string) (a : float) :
  strictly_bestb avgs A a = true -> strictly_best avgs A a.
Proof.
  unfold strictly_bestb, strictly_best.
  destruct (Py.get avgs A) as [a'|]; [|discriminate].
  intros H. apply andb_true_iff in H. destruct H as [H Hall].
  apply andb_true_iff in H. destruct H as [Heq Hnan].
  apply FloatAxioms.Leibniz.eqb_spec in Heq. subst a'.
  repeat split.
  - now apply negb_true_iff.
  - intros B b HB Hget. apply get_some_in in Hget.
    rewrite forallb_forall in Hall. specialize (Hall _ Hget). simpl in Hall.
    apply orb_true_iff in Hall. destruct Hall as [E|E]; [|exact E].
    apply String.eqb_eq in E. contradiction.
Qed.

Section SelectorExamples.

#[local] Existing Instance Py.ascii_text.

(** Example data: three agents of the default roster and an evaluation
    with a given judge, target, total and issues. *)
Definition resp_analytical : AgentResponse :=
  mkAgentResponse "agent_analytical" "Analytical Agent" "draft A" 0.3 120.
Definition resp_creative : AgentResponse :=
  mkAgentResponse "agent_creative" "Creative Agent" "draft B" 0.9 95.
Definition resp_pragmatist : AgentResponse :=
  mkAgentResponse "agent_pragmatist" "Pragmatist Agent" "draft C" 0.5 101.

Definition eval_of (jtype target : string) (total : float) (issues : list string)
  : JudgeEvaluation :=
  mkJudgeEvaluation ("judge_" ++ Py.ascii_lower jtype) jtype target [] total
    "scored against the rubric" issues.

(** A renderer for the examples: the winner's type and nothing else. *)
Definition plain_rationale (winner_type : string) (avgs : Py.dict float)
    (issues : list string) : string :=
  "Selected " ++ winner_type.

(** Three scores of one agent, summed in two orders, against one score
    of another agent. *)
Definition evals_ascending : list JudgeEvaluation :=
  [ eval_of "Factuality" "agent_analytical" 0.1 [];
    eval_of "Safety" "agent_analytical" 0.2 [];
    eval_of "Style" "agent_analytical" 0.3 [];
    eval_of "Factuality" "agent_creative" 0.2 [] ].

Definition evals_descending : list JudgeEvaluation :=
  [ eval_of "Style" "agent_analytical" 0.3 [];
    eval_of "Safety" "agent_analytical" 0.2 [];
    eval_of "Factuality" "agent_analytical" 0.1 [];
    eval_of "Factuality" "agent_creative" 0.2 [] ].

(** C5, as stated, fails: the analytical agent's average
    [(0.1 + 0.2 + 0.3) / 3] strictly exceeds the creative agent's [0.2],
    yet on a permutation of the same evaluations, where the sum is taken
    as [(0.3 + 0.2 + 0.1) / 3], the creative agent is selected. *)
Lemma strict_winner_order_counterexample :
  Permutation evals_ascending evals_descending /\
  strictly_best (averages evals_ascending) "agent_analytical"
    (average [0.1; 0.2; 0.3]%float) /\
  find (fun r => String.eqb (agent_id r) "agent_analytical")
       [resp_analytical; resp_creative] = Some resp_analytical /\
  Selector.select_best plain_rationale [resp_analytical; resp_creative]
    evals_descending =
  Py.Ok (resp_creative, PrimFloat.div 0.2 10, "Selected Creative Agent") /\
  resp_creative <> resp_analytical.
Proof.
  split; [|split; [|split; [|split]]].
  - unfold evals_ascending, evals_descending.
    apply (Permutation_app_tail
             [eval_of "Factuality" "agent_creative" 0.2 []]
             (Permutation_rev
                [ eval_of "Factuality" "agent_analytical" 0.1 [];
                  eval_of "Safety" "agent_analytical" 0.2 [];
                  eval_of "Style" "agent_analytical" 0.3 [] ])).
  - apply strictly_bestb_sound. vm_compute. reflexivity.
  - reflexivity.
  - vm_compute. reflexivity.
  - discriminate.
Qed.

(** A panel of two judges and two agents, and the same evaluations with
    the judges' blocks exchanged, so that every agent's scores are
    summed in the other order. *)
Definition evals_two_judges : list JudgeEvaluation :=
  [ eval_of "Factuality" "agent_analytical" 9 [];
    eval_of "Factuality" "agent_creative" 7 [];
    eval_of "Safety" "agent_analytical" 9 [];
    eval_of "Safety" "agent_creative" 8 [] ].

Definition evals_two_judges_swapped : list JudgeEvaluation :=
  [ eval_of "Safety" "agent_analytical" 9 [];
    eval_of "Safety" "agent_creative" 8 [];
    eval_of "Factuality" "agent_analytical" 9 [];
    eval_of "Factuality" "agent_creative" 7 [] ].

Lemma hits_by_cases (B : string) (evaluations : list JudgeEvaluation) :
  hits target_agent_id B evaluations =
  filter (fun ev => String.eqb B (target_agent_id ev)) evaluations.
Proof.
  unfold hits. apply filter_ext. intros ev. apply String.eqb_sym.
Qed.

Lemma evals_two_judges_permuted :
  Permutation evals_two_judges evals_two_judges_swapped.
Proof.
  apply (Permutation_app_comm
           [ eval_of "Factuality" "agent_analytical" 9 [];
             eval_of "Factuality" "agent_creative" 7 [] ]
           [ eval_of "Safety" "agent_analytical" 9 [];
             eval_of "Safety" "agent_creative" 8 [] ]).
Qed.

Lemma evals_two_judges_at_most_two (B : string) :
  (List.length (hits target_agent_id B evals_two_judges) <= 2)%nat.
Proof.
  rewrite hits_by_cases. unfold evals_two_judges.
  destruct (String.eqb_spec B "agent_creative") as [->|Hother].
  - vm_compute. lia.
  - apply String.eqb_neq in Hother.
    cbn [filter eval_of target_agent_id]. rewrite Hother.
    destruct (String.eqb B "agent_analytical"); simpl; lia.
Qed.

Lemma strict_winner_selected_witness :
  exists why,
    Selector.select_best plain_rationale [resp_analytical; resp_creative]
      evals_two_judges_swapped =
    Py.Ok (resp_analytical, PrimFloat.div 9 10, why).
Proof.
  apply (strict_winner_selected_in_any_order plain_rationale
           [resp_analytical; resp_creative]
           evals_two_judges evals_two_judges_swapped
           "agent_analytical" 9%float resp_analytical).
  - exact evals_two_judges_permuted.
  - exact (averages_unchanged_with_two_judges _ _ evals_two_judges_permuted
             evals_two_judges_at_most_two).
  - apply strictly_bestb_sound. vm_compute. reflexivity.
  - reflexivity.
Defined.

(** The hypothesis that the best average is a number is needed: a lone
    agent whose average is NaN equals nothing, itself included, and the
    selector finds no tied agent. *)
Example lone_nan_average_raises :
  Selector.select_best plain_rationale [resp_analytical]
    [eval_of "Factuality" "agent_analytical" nan []] =
  Py.Raise Py.IndexError.
Proof. vm_compute. reflexivity. Qed.

(** Order matters under compensated summation too, once a partial sum
    overflows: the same three scores average to infinity in one order
    and to a finite number in the other. *)
Definition evals_overflowing : list JudgeEvaluation :=
  [ eval_of "Factuality" "agent_analytical" 1e308 [];
    eval_of "Safety" "agent_analytical" 1e308 [];
    eval_of "Style" "agent_analytical" (-1e308) [];
    eval_of "Factuality" "agent_creative" 1e308 [] ].

Definition evals_cancelling : list JudgeEvaluation :=
  [ eval_of "Factuality" "agent_analytical" 1e308 [];
    eval_of "Style" "agent_analytical" (-1e308) [];
    eval_of "Safety" "agent_analytical" 1e308 [];
    eval_of "Factuality" "agent_creative" 1e308 [] ].

Example strict_winner_order_overflow :
  Permutation evals_overflowing evals_cancelling /\
  strictly_best (averages evals_overflowing) "agent_analytical" infinity /\
  Selector.select_best plain_rationale [resp_analytical; resp_creative]
    evals_cancelling =
  Py.Ok (resp_creative, PrimFloat.div 1e308 10, "Selected Creative Agent").
Proof.
  split; [|split].
  - unfold evals_overflowing, evals_cancelling.
    apply perm_skip. apply perm_swap.
  - apply strictly_bestb_sound. vm_compute. reflexivity.
  - vm_compute. reflexivity.
Qed.

End SelectorExamples.

(* ================================================================== *)
(** ** The tie-break *)
(* ================================================================== *)

Section TieBreak.

Context {U : Py.Unicode}.

Import Py Selector.

Variable render_reasoning : string -> dict float -> list string -> string.

(** The responses whose agent's average equals the best score, in the
    order of the response list (the panel's declaration order). *)
Definition tied_responses (responses : list AgentResponse) (avgs : dict float)
    (best : float) : list AgentResponse :=
  filter
    (fun r => match get avgs (agent_id r) with
              | Some s => feq s best
              | None => false
              end)
    responses.

Lemma top_agents_of_panel (d0 d : dict float) (rs : list AgentResponse) (best : float) :
  keys d = map agent_id rs ->
  (forall k v, In (k, v) d -> get d0 k = Some v) ->
  map fst (filter (fun kv => feq (snd kv) best) d) =
  map agent_id (tied_responses rs d0 best).
Proof.
  revert rs. induction d as [|[k v] d IH]; intros [|r rs] Hk Hin;
    try discriminate Hk; [reflexivity|].
  inversion Hk as [[Hr Hrest]].
  assert (IH' := IH rs Hrest (fun k0 v0 H => Hin k0 v0 (or_intror H))).
  subst k. unfold tied_responses in *. simpl.
  rewrite (Hin (agent_id r) v (or_introl eq_refl)).
  destruct (feq v best); simpl; rewrite IH'; reflexivity.
Qed.

Lemma find_map {A B : Type} (P : B -> bool) (f : A -> B) (l : list A) :
  find P (map f l) = option_map f (find (fun x => P (f x)) l).
Proof.
  induction l as [|x l IH]; simpl; [reflexivity|].
  now destruct (P (f x)).
Qed.

Lemma find_by_id (rs : list AgentResponse) (r : AgentResponse) :
  NoDup (map agent_id rs) -> In r rs ->
  find (fun x => String.eqb (agent_id x) (agent_id r)) rs = Some r.
Proof.
  induction rs as [|x rs IH]; simpl; [tauto|].
  intros Hnd [->|Hin].
  - now rewrite String.eqb_refl.
  - inversion Hnd as [|? ? Hnot Hnd']; subst.
    destruct (String.eqb (agent_id x) (agent_id r)) eqn:E.
    + apply String.eqb_eq in E. exfalso. apply Hnot. rewrite E.
      now apply in_map.
    + now apply IH.
Qed.

(** C6 (amended).  When two or more agents are tied on the best average,
    the selector returns the first tied agent whose identifier contains
    "safety" or "advocate" (case-insensitively); if no tied identifier
    carries the marker, it returns the first tied agent.  "First" is in
    panel-declaration order, for an evaluation list that first mentions
    the agents in that order, as the judge panel produces it. *)
Theorem tie_break_prefers_marked_identifier
    (responses : list AgentResponse) (evaluations : list JudgeEvaluation)
    (best : float) (r1 r2 : AgentResponse) (rest : list AgentResponse) :
  keys (averages evaluations) = map agent_id responses ->
  max (values (averages evaluations)) = Ok best ->
  tied_responses responses (averages evaluations) best = r1 :: r2 :: rest ->
  exists why,
    select_best render_reasoning responses evaluations =
    Ok (match find (fun r => is_safety_advocate (agent_id r)) (r1 :: r2 :: rest) with
        | Some r => r
        | None => r1
        end,
        PrimFloat.div best 10%float, why).
Proof.
  intros Hkeys Hmax Htied.
  assert (Hnd : NoDup (map agent_id responses)).
  { rewrite <- Hkeys. apply averages_nodup. }
  assert (Htop : top_agents (averages evaluations) best =
                 map agent_id (r1 :: r2 :: rest)).
  { unfold top_agents. rewrite <- Htied.
    apply top_agents_of_panel; [exact Hkeys|].
    intros k v. apply get_in_nodup. apply averages_nodup. }
  assert (Hsub : forall r, In r (r1 :: r2 :: rest) -> In r responses).
  { intros r Hr. rewrite <- Htied in Hr. unfold tied_responses in Hr.
    now apply filter_In in Hr. }
  unfold select_best. fold (averages evaluations).
  rewrite Hmax. simpl bind. rewrite Htop.
  unfold tie_break. rewrite find_map.
  change (map agent_id (r1 :: r2 :: rest))
    with (agent_id r1 :: map agent_id (r2 :: rest)).
  destruct (find (fun r => is_safety_advocate (agent_id r)) (r1 :: r2 :: rest))
    as [r|] eqn:Hfind; simpl option_map; cbv iota; simpl bind.
  - assert (Hr : In r (r1 :: r2 :: rest)) by (apply find_some in Hfind; tauto).
    unfold response_of. rewrite (find_by_id responses r Hnd (Hsub r Hr)).
    simpl. eexists. reflexivity.
  - unfold response_of.
    rewrite (find_by_id responses r1 Hnd (Hsub r1 (or_introl eq_refl))).
    simpl. eexists. reflexivity.
Qed.

End TieBreak.

Section TieBreakExamples.

#[local] Existing Instance Py.ascii_text.

(** Two tied agents; only the second one's type names the safety
    advocate, and neither identifier does. *)
Definition resp_guardian : AgentResponse :=
  mkAgentResponse "agent_guardian" "Safety Advocate" "draft G" 0.2 88.

Definition evals_tied : list JudgeEvaluation :=
  [ eval_of "Factuality" "agent_analytical" 8 [];
    eval_of "Factuality" "agent_guardian" 8 [];
    eval_of "Safety" "agent_analytical" 8 [];
    eval_of "Safety" "agent_guardian" 8 [] ].

(** C6, as stated, fails on the agent type: the tied agent whose type
    contains the marker is not preferred, because the selector looks at
    identifiers only. *)
Lemma tie_break_ignores_agent_type :
  Py.get (averages evals_tied) "agent_analytical" = Some 8%float /\
  Py.get (averages evals_tied) "agent_guardian" = Some 8%float /\
  Py.max (Py.values (averages evals_tied)) = Py.Ok 8%float /\
  Selector.is_safety_advocate (agent_type resp_guardian) = true /\
  Selector.is_safety_advocate (agent_id resp_analytical) = false /\
  Selector.is_safety_advocate (agent_type resp_analytical) = false /\
  Selector.select_best plain_rationale [resp_analytical; resp_guardian] evals_tied =
  Py.Ok (resp_analytical, PrimFloat.div 8 10, "Selected Analytical Agent").
Proof.
  repeat split; vm_compute; reflexivity.
Qed.

(** A tie in which the second agent's identifier carries the marker. *)
Definition resp_safety : AgentResponse :=
  mkAgentResponse "agent_safety_advocate" "Safety Advocate" "draft S" 0.2 90.

Definition evals_tied_marked : list JudgeEvaluation :=
  [ eval_of "Factuality" "agent_analytical" 8 [];
    eval_of "Factuality" "agent_safety_advocate" 7 [];
    eval_of "Factuality" "agent_creative" 6 [];
    eval_of "Safety" "agent_analytical" 8 [];
    eval_of "Safety" "agent_safety_advocate" 9 [];
    eval_of "Safety" "agent_creative" 6 [] ].

Lemma tie_break_prefers_marked_identifier_witness :
  exists why,
    Selector.select_best plain_rationale
      [resp_analytical; resp_safety; resp_creative] evals_tied_marked =
    Py.Ok (resp_safety, PrimFloat.div 8 10, why).
Proof.
  refine (tie_break_prefers_marked_identifier plain_rationale
            [resp_analytical; resp_safety; resp_creative] evals_tied_marked
            8%float resp_analytical resp_safety [] _ _ _);
    vm_compute; reflexivity.
Defined.

End TieBreakExamples.

(* ================================================================== *)
(** ** The safety gate: blocklist before allowlist *)
(* ================================================================== *)

Section GateClaims.

Context {U : Py.Unicode}.

Import Py SafetyGate.

Variable re_search : string -> string -> bool.

(** C3 (amended).  A query is rejected, whatever the allowlist matches,
    when the lower-cased text of a blocked keyword occurs in the
    lower-cased text of the query, leading and trailing white space
    stripped: the test the keyword loop makes, with [str.lower] and
    [str.strip] as they are. *)
Theorem blocked_keyword_beats_allowlist
    (gate : SafetyGate.t) (query keyword : string) :
  In keyword (blocked_keywords gate) ->
  contains (lower keyword) (lower (strip query)) = true ->
  passed (check re_search gate query) = false.
Proof.
  intros Hin Hsub. unfold check.
  destruct (negb (truthy_str query) || negb (truthy_str (strip query)));
    [reflexivity|].
  destruct (Z.of_nat (len (strip query)) <? min_query_length gate)%Z;
    [reflexivity|].
  destruct (max_query_length gate <? Z.of_nat (len (strip query)))%Z;
    [reflexivity|].
  destruct (find (fun keyword0 => contains (lower keyword0) (lower (strip query)))
                 (blocked_keywords gate)) as [kw|] eqn:Hfind;
    [reflexivity|].
  exfalso. apply (find_none _ _ Hfind) in Hin. simpl in Hin. congruence.
Qed.

End GateClaims.

(** A pattern made of ASCII letters and spaces only, searched with
    [re.IGNORECASE] in ASCII text, matches exactly where it occurs as a
    substring up to case. *)
Definition literal_search (pattern text : string) : bool :=
  Py.contains (Py.ascii_lower pattern) (Py.ascii_lower text).

Section GateExamples.

#[local] Existing Instance Py.ascii_text.

(** A gate whose keyword starts with a space, so that "shack" is not
    taken for "hack", and an allowlist for questions about a film. *)
Definition gate_hack : SafetyGate.t :=
  SafetyGate.mkSafetyGate [" hack"] [] ["planet"] 1000 3.

(** C3, as stated, fails: the query contains the blocked keyword and
    matches the allowlist, but the keyword is matched against the
    stripped query, which has lost the leading space. *)
Lemma keyword_at_stripped_edge_passes :
  In " hack" (SafetyGate.blocked_keywords gate_hack) /\
  Py.contains (Py.lower " hack") (Py.lower " hack the planet") = true /\
  existsb (fun p => literal_search p " hack the planet")
          (SafetyGate.allowlist_patterns gate_hack) = true /\
  SafetyGate.check literal_search gate_hack " hack the planet" =
  SafetyGate.mkSafetyResult true "Allowlisted query" [].
Proof.
  repeat split; try reflexivity. simpl. now left.
Qed.

Definition gate_default : SafetyGate.t :=
  SafetyGate.mkSafetyGate ["how to make a bomb"; "hack into"] ["jailbreak"]
    ["history of"] 1000 3.

Lemma blocked_keyword_beats_allowlist_witness :
  SafetyGate.passed
    (SafetyGate.check literal_search gate_default
       "  History of HOW TO MAKE A BOMB  ") = false.
Proof.
  apply (blocked_keyword_beats_allowlist literal_search gate_default
           "  History of HOW TO MAKE A BOMB  " "how to make a bomb").
  - simpl. now left.
  - reflexivity.
Defined.

(** The length bounds count characters: two characters in six bytes
    are fewer than the three the gate asks for. *)
Example two_characters_are_too_short :
  SafetyGate.check literal_search gate_default two_kanji =
  SafetyGate.mkSafetyResult false "Query too short (min 3 chars)" [].
Proof. vm_compute. reflexivity. Qed.

End GateExamples.

(** The two examples are made of ASCII text, so they do not depend on
    how [str.lower] treats other characters. *)
Lemma gate_examples_whatever_lower {U : Py.Unicode} :
  SafetyGate.check literal_search gate_hack " hack the planet" =
    SafetyGate.mkSafetyResult true "Allowlisted query" [] /\
  SafetyGate.passed
    (SafetyGate.check literal_search gate_default
       "  History of HOW TO MAKE A BOMB  ") = false.
Proof.
  unfold SafetyGate.check, gate_hack, gate_default.
  cbn [SafetyGate.blocked_keywords SafetyGate.blocked_patterns
       SafetyGate.allowlist_patterns SafetyGate.max_query_length
       SafetyGate.min_query_length find].
  rewrite !Py.lower_ascii by (vm_compute; reflexivity).
  split; vm_compute; reflexivity.
Qed.

(* ================================================================== *)
(** ** Judge disagreement, agent by agent *)
(* ================================================================== *)

(** *** What the judges said about one agent, without dictionaries *)

(** The judges (by type) that scored an agent, in order of appearance. *)
Definition judges_of (evaluations : list JudgeEvaluation) (agent : string)
  : list string :=
  first_seen (map judge_type (hits target_agent_id agent evaluations)).

(** A judge's total for an agent: the one of its last evaluation. *)
Definition latest_total (evaluations : list JudgeEvaluation)
    (agent judge : string) : float :=
  last (map total_score
          (hits judge_type judge (hits target_agent_id agent evaluations)))
       0%float.

(** One total per judge that scored the agent. *)
Definition judge_totals (evaluations : list JudgeEvaluation) (agent : string)
  : list float :=
  map (latest_total evaluations agent) (judges_of evaluations agent).

(** [max(totals) - min(totals) > threshold]. *)
Definition spread_exceeds (threshold : float) (totals : list float) : Prop :=
  exists hi lo,
    Py.max totals = Py.Ok hi /\ Py.min totals = Py.Ok lo /\
    Py.fgt (PrimFloat.sub hi lo) threshold = true.

(** [max(totals) - min(totals) == threshold]. *)
Definition spread_equals (threshold : float) (totals : list float) : Prop :=
  exists hi lo,
    Py.max totals = Py.Ok hi /\ Py.min totals = Py.Ok lo /\
    Py.feq (PrimFloat.sub hi lo) threshold = true.

Section LatestByKey.

(** A loop of [d[key(ev)] = value(ev)] over a list. *)
Context {E V : Type}.
Variable key : E -> string.
Variable value : E -> V.

Definition assign (d : Py.dict V) (ev : E) : Py.dict V :=
  Py.set d (key ev) (value ev).

Lemma assign_fold_keys evs d :
  Py.keys (fold_left assign evs d) = first_seen_from (Py.keys d) (map key evs).
Proof.
  revert d. induction evs as [|ev evs IH]; intros d; simpl; [reflexivity|].
  rewrite IH. unfold assign. rewrite keys_set, has_key_mem.
  reflexivity.
Qed.

Lemma assign_fold_nodup evs d :
  NoDup (Py.keys d) -> NoDup (Py.keys (fold_left assign evs d)).
Proof.
  revert d. induction evs as [|ev evs IH]; intros d Hd; simpl; [exact Hd|].
  apply IH. now apply nodup_keys_set.
Qed.

Lemma assign_fold_get evs d k (dflt : V) :
  Py.get (fold_left assign evs d) k =
  match hits key k evs with
  | [] => Py.get d k
  | hs => Some (last (map value hs) dflt)
  end.
Proof.
  revert d. induction evs as [|ev evs IH]; intros d; simpl; [reflexivity|].
  rewrite IH. destruct (String.eqb (key ev) k) eqn:Ek.
  - apply String.eqb_eq in Ek. subst k.
    destruct (hits key (key ev) evs) as [|h hs] eqn:Hh.
    + unfold assign. now rewrite get_set_same.
    + reflexivity.
  - apply String.eqb_neq in Ek.
    destruct (hits key k evs) as [|h hs]; [|reflexivity].
    unfold assign. apply get_set_other. congruence.
Qed.

End LatestByKey.

Lemma first_seen_from_incl (seen ks : list string) (k : string) :
  In k (first_seen_from seen ks) -> In k seen \/ In k ks.
Proof.
  revert seen. induction ks as [|x ks IH]; intros seen; simpl; [tauto|].
  intros H. apply IH in H. destruct H as [H|H]; [|tauto].
  destruct (Py.mem x seen); [tauto|].
  apply in_app_or in H. simpl in H. tauto.
Qed.

Lemma values_by_keys {V : Type} (d : Py.dict V) (dflt : V) :
  NoDup (Py.keys d) ->
  Py.values d =
  map (fun k => match Py.get d k with Some v => v | None => dflt end) (Py.keys d).
Proof.
  intros Hnd. unfold Py.values, Py.keys. rewrite map_map.
  apply map_ext_in. intros [k v] Hin. simpl.
  now rewrite (get_in_nodup d k v Hnd Hin).
Qed.

Lemma hits_nonempty {E : Type} (key : E -> string) (k : string) (evs : list E) :
  In k (map key evs) -> hits key k evs <> [].
Proof.
  intros H. apply in_map_iff in H. destruct H as (ev & <- & Hin).
  intros Hnil.
  assert (Hf : In ev (hits key (key ev) evs)).
  { apply filter_In. split; [exact Hin | apply String.eqb_refl]. }
  rewrite Hnil in Hf. contradiction.
Qed.

(** The inner dictionary the loop builds for an agent holds exactly the
    agent's judge totals, in the same order. *)
Lemma judge_scores_get (evaluations : list JudgeEvaluation) (agent : string) :
  Py.get (Judges.judge_scores evaluations) agent =
  match hits target_agent_id agent evaluations with
  | [] => None
  | hs => Some (fold_left (assign judge_type total_score) hs [])
  end.
Proof.
  change (Py.get (Judges.judge_scores evaluations) agent)
    with (@Py.get (list (string * float))
            (fold_left (group_step (V := string * float) target_agent_id
                          (assign judge_type total_score)) evaluations [])
            agent).
  rewrite group_fold_get.
  change (Py.get [] agent) with (@None (list (string * float))).
  now destruct (hits target_agent_id agent evaluations).
Qed.

Lemma judge_scores_values (evaluations : list JudgeEvaluation) (agent : string) :
  Py.values (fold_left (assign judge_type total_score)
               (hits target_agent_id agent evaluations) []) =
  judge_totals evaluations agent.
Proof.
  set (hs := hits target_agent_id agent evaluations).
  rewrite (values_by_keys _ 0%float) by (apply assign_fold_nodup; constructor).
  rewrite assign_fold_keys. unfold judge_totals, judges_of. fold hs.
  change (first_seen_from (Py.keys []) (map judge_type hs))
    with (first_seen (map judge_type hs)).
  apply map_ext_in. intros j Hj.
  rewrite (assign_fold_get judge_type total_score hs [] j 0%float).
  unfold latest_total. fold hs.
  apply first_seen_from_incl in Hj. destruct Hj as [[]|Hj].
  apply hits_nonempty in Hj.
  now destruct (hits judge_type j hs).
Qed.

Lemma feq_not_fgt (a b : float) : Py.feq a b = true -> Py.fgt a b = false.
Proof.
  unfold Py.feq, Py.fgt. rewrite ltb_spec, eqb_spec. unfold SFltb, SFeqb.
  rewrite (SFcompare_swap (Prim2SF a) (Prim2SF b)).
  destruct (SFcompare (Prim2SF a) (Prim2SF b)) as [[ | | ]|]; simpl; congruence.
Qed.

Lemma judge_scores_nodup (evaluations : list JudgeEvaluation) :
  NoDup (Py.keys (Judges.judge_scores evaluations)).
Proof.
  change (Judges.judge_scores evaluations)
    with (fold_left (group_step (V := string * float) target_agent_id
                       (assign judge_type total_score)) evaluations []).
  apply group_fold_nodup. constructor.
Qed.

Lemma significant_spec (threshold : float) (scores : Py.dict float) :
  Judges.significant threshold scores = true <->
  (2 <= List.length (Py.values scores))%nat /\
  spread_exceeds threshold (Py.values scores).
Proof.
  unfold Judges.significant, spread_exceeds, Py.values.
  rewrite length_map.
  destruct (2 <=? List.length scores)%nat eqn:Hlen.
  - apply Nat.leb_le in Hlen. split.
    + destruct (Py.max (map snd scores)) as [hi|]; [|discriminate].
      destruct (Py.min (map snd scores)) as [lo|]; [|discriminate].
      intros H. split; [exact Hlen|]. exists hi, lo. auto.
    + intros (_ & hi & lo & -> & -> & H). exact H.
  - apply Nat.leb_gt in Hlen. split; [discriminate|]. intros (H & _). lia.
Qed.

(** The entry of an agent in the loop's dictionary, when some evaluation
    targets the agent. *)
Lemma judge_scores_entry (evaluations : list JudgeEvaluation) (agent : string)
    (scores : Py.dict float) :
  In (agent, scores) (Judges.judge_scores evaluations) ->
  Py.values scores = judge_totals evaluations agent.
Proof.
  intros Hin. apply (get_in_nodup _ _ _ (judge_scores_nodup evaluations)) in Hin.
  rewrite judge_scores_get in Hin.
  rewrite <- judge_scores_values.
  destruct (hits target_agent_id agent evaluations); [discriminate|].
  now inversion Hin.
Qed.

Lemma judge_totals_entry (evaluations : list JudgeEvaluation) (agent : string) :
  judge_totals evaluations agent <> [] ->
  exists scores,
    In (agent, scores) (Judges.judge_scores evaluations) /\
    Py.values scores = judge_totals evaluations agent.
Proof.
  intros Hne.
  destruct (hits target_agent_id agent evaluations) as [|h hs] eqn:Hh.
  - exfalso. apply Hne. unfold judge_totals, judges_of. now rewrite Hh.
  - exists (fold_left (assign judge_type total_score) (h :: hs) []).
    split.
    + apply get_some_in. rewrite judge_scores_get. now rewrite Hh.
    + rewrite <- Hh. apply judge_scores_values.
Qed.

(** C7 (amended).  The totals of an agent are kept by judge type, the
    last total of a type replacing the earlier ones.  The disagreement
    flag is true exactly when some agent has totals of at least two
    judge types whose [max - min] strictly exceeds the threshold; when
    that difference equals the threshold for every such agent, the flag
    is false. *)
Theorem disagreement_iff_spread_exceeds
    (evaluations : list JudgeEvaluation) (threshold : float) :
  (Judges.check_judge_disagreement evaluations threshold = true <->
   exists agent,
     (2 <= List.length (judge_totals evaluations agent))%nat /\
     spread_exceeds threshold (judge_totals evaluations agent)) /\
  ((forall agent,
      (2 <= List.length (judge_totals evaluations agent))%nat ->
      spread_equals threshold (judge_totals evaluations agent)) ->
   Judges.check_judge_disagreement evaluations threshold = false).
Proof.
  assert (Hiff :
    Judges.check_judge_disagreement evaluations threshold = true <->
    exists agent,
      (2 <= List.length (judge_totals evaluations agent))%nat /\
      spread_exceeds threshold (judge_totals evaluations agent)).
  { unfold Judges.check_judge_disagreement. rewrite existsb_exists. split.
    - intros ([agent scores] & Hin & Hsig). simpl in Hsig.
      apply significant_spec in Hsig.
      rewrite (judge_scores_entry _ _ _ Hin) in Hsig.
      exists agent. exact Hsig.
    - intros (agent & Hlen & Hspread).
      destruct (judge_totals_entry evaluations agent) as (scores & Hin & Hvals).
      { intros E. rewrite E in Hlen. simpl in Hlen. lia. }
      exists (agent, scores). split; [exact Hin|]. simpl.
      apply significant_spec. rewrite Hvals. auto. }
  split; [exact Hiff|].
  intros Hequal.
  apply not_true_is_false. intros Hflag. apply Hiff in Hflag.
  destruct Hflag as (agent & Hlen & hi & lo & Hmax & Hmin & Hgt).
  destruct (Hequal agent Hlen) as (hi' & lo' & Hmax' & Hmin' & Heq).
  rewrite Hmax in Hmax'. rewrite Hmin in Hmin'.
  inversion Hmax'; inversion Hmin'; subst.
  apply feq_not_fgt in Heq. congruence.
Qed.

Lemma judge_totals_untargeted (evaluations : list JudgeEvaluation) (agent : string) :
  ~ In agent (map target_agent_id evaluations) ->
  judge_totals evaluations agent = [].
Proof.
  intros Hnot. unfold judge_totals, judges_of.
  replace (hits target_agent_id agent evaluations) with (@nil JudgeEvaluation);
    [reflexivity|].
  symmetry. unfold hits. induction evaluations as [|ev evs IH]; [reflexivity|].
  simpl in *. destruct (String.eqb (target_agent_id ev) agent) eqn:E.
  - apply String.eqb_eq in E. tauto.
  - apply IH. tauto.
Qed.

(** Two judges three points apart, and three and a half points apart. *)
Definition evals_apart_3 : list JudgeEvaluation :=
  [ eval_of "Factuality" "agent_analytical" 8 [];
    eval_of "Safety" "agent_analytical" 5 [] ].

Definition evals_apart_3_5 : list JudgeEvaluation :=
  [ eval_of "Factuality" "agent_analytical" 8.5 [];
    eval_of "Safety" "agent_analytical" 5 [];
    eval_of "Factuality" "agent_creative" 7 [];
    eval_of "Safety" "agent_creative" 7 [] ].

Lemma disagreement_boundary_witness :
  Judges.check_judge_disagreement evals_apart_3 Judges.default_threshold = false /\
  Judges.check_judge_disagreement evals_apart_3_5 Judges.default_threshold = true.
Proof.
  split.
  - apply (proj2 (disagreement_iff_spread_exceeds evals_apart_3
                    Judges.default_threshold)).
    intros agent Hlen.
    destruct (in_dec string_dec agent (map target_agent_id evals_apart_3))
      as [Hin|Hout].
    + simpl in Hin. destruct Hin as [<-|[<-|[]]];
        exists 8%float, 5%float; repeat split; vm_compute; reflexivity.
    + rewrite (judge_totals_untargeted _ _ Hout) in Hlen. simpl in Hlen. lia.
  - apply (proj1 (disagreement_iff_spread_exceeds evals_apart_3_5
                    Judges.default_threshold)).
    exists "agent_analytical". split.
    + vm_compute. lia.
    + exists 8.5%float, 5%float. repeat split; vm_compute; reflexivity.
Defined.

(** Two judges of one type, nine and one on the same agent. *)
Definition evals_of_one_type : list JudgeEvaluation :=
  [ mkJudgeEvaluation "judge_a" "Safety" "agent_analytical" [] 9
      "scored against the rubric" [];
    mkJudgeEvaluation "judge_b" "Safety" "agent_analytical" [] 1
      "scored against the rubric" [] ].

(** C7, as stated, fails: two judges gave the same agent the totals 9
    and 1, eight points apart and more than the threshold 3.0, and the
    flag is false, because both judges are of the type "Safety" and the
    second total replaced the first. *)
Lemma judges_of_one_type_count_once :
  map judge_id evals_of_one_type = ["judge_a"; "judge_b"] /\
  map target_agent_id evals_of_one_type = ["agent_analytical"; "agent_analytical"] /\
  map total_score evals_of_one_type = [9%float; 1%float] /\
  Py.fgt (PrimFloat.sub 9 1) Judges.default_threshold = true /\
  judge_totals evals_of_one_type "agent_analytical" = [1%float] /\
  Judges.check_judge_disagreement evals_of_one_type Judges.default_threshold = false.
Proof. repeat split; vm_compute; reflexivity. Qed.

(* ================================================================== *)
(** ** The risk classification *)
(* ================================================================== *)

Section RiskClaims.

Context {U : Py.Unicode}.

Import Py Risk.

Variable repr_float : float -> string.

(** Some collected risk contains a harm or danger marker. *)
Definition alarming (risks : list string) : Prop :=
  exists r, In r risks /\ is_alarming r = true.

(** C8.  The level returned with the collected risks is CRITICAL when a
    risk string contains a marker term; otherwise HIGH when there are at
    least four risks or the confidence is below 0.4; otherwise MEDIUM
    when there are at least two risks, the confidence is below 0.6 or
    the judges disagree; otherwise LOW. *)
Theorem assess_risk_classification
    (evaluations : list JudgeEvaluation) (confidence : float)
    (judge_disagreement : bool) :
  let level := fst (assess_risk repr_float evaluations confidence judge_disagreement) in
  let risks := snd (assess_risk repr_float evaluations confidence judge_disagreement) in
  let high := (4 <= List.length risks)%nat \/ flt confidence 0.4%float = true in
  let medium := (2 <= List.length risks)%nat \/ flt confidence 0.6%float = true
                \/ judge_disagreement = true in
  risks = collect_risks repr_float evaluations /\
  (alarming risks -> level = CRITICAL) /\
  (~ alarming risks -> high -> level = HIGH) /\
  (~ alarming risks -> ~ high -> medium -> level = MEDIUM) /\
  (~ alarming risks -> ~ high -> ~ medium -> level = LOW).
Proof.
  unfold assess_risk, alarming.
  set (risks := collect_risks repr_float evaluations).
  assert (Halarm : existsb is_alarming risks = true <->
                   exists r, In r risks /\ is_alarming r = true)
    by apply existsb_exists.
  assert (Hhigh : (4 <=? List.length risks)%nat || flt confidence 0.4%float = true <->
                  (4 <= List.length risks)%nat \/ flt confidence 0.4%float = true).
  { rewrite orb_true_iff, Nat.leb_le. tauto. }
  assert (Hmed : (2 <=? List.length risks)%nat || flt confidence 0.6%float
                 || judge_disagreement = true <->
                 (2 <= List.length risks)%nat \/ flt confidence 0.6%float = true
                 \/ judge_disagreement = true).
  { rewrite !orb_true_iff, Nat.leb_le. tauto. }
  destruct (existsb is_alarming risks);
    destruct ((4 <=? List.length risks)%nat || flt confidence 0.4%float);
    destruct ((2 <=? List.length risks)%nat || flt confidence 0.6%float
              || judge_disagreement);
    simpl; intuition (try reflexivity; try discriminate; try congruence).
Qed.

End RiskClaims.

Section RiskExamples.

#[local] Existing Instance Py.ascii_text.

(** Four distinct issues, none alarming, at confidence 0.9: HIGH.  One
    alarming issue: CRITICAL, whatever else holds. *)
Definition evals_four_issues : list JudgeEvaluation :=
  [ eval_of "Factuality" "agent_analytical" 9 ["vague"; "no sources"];
    eval_of "Safety" "agent_analytical" 9 ["vague"; "outdated"];
    eval_of "Factuality" "agent_creative" 9 ["speculative"] ].

Definition evals_alarming : list JudgeEvaluation :=
  [ eval_of "Safety" "agent_creative" 9 ["Potentially HARMFUL advice"] ].

Lemma assess_risk_classification_witness :
  fst (Risk.assess_risk (fun _ => "4.0") evals_four_issues 0.9 false) = HIGH /\
  fst (Risk.assess_risk (fun _ => "4.0") evals_alarming 0.9 false) = CRITICAL.
Proof.
  split.
  - pose proof (assess_risk_classification (fun _ => "4.0")
                  evals_four_issues 0.9%float false) as H.
    cbv zeta in H. destruct H as (_ & _ & Hhigh & _). apply Hhigh.
    + intros (r & Hin & Halarm). vm_compute in Hin.
      destruct Hin as [<-|[<-|[<-|[<-|[]]]]]; vm_compute in Halarm; discriminate.
    + left. vm_compute. lia.
  - pose proof (assess_risk_classification (fun _ => "4.0")
                  evals_alarming 0.9%float false) as H.
    cbv zeta in H. destruct H as (_ & Hcritical & _). apply Hcritical.
    exists "Potentially HARMFUL advice". split; [|reflexivity].
    vm_compute. now left.
Defined.

(** A low score in a safety dimension becomes a risk line. *)
Example low_safety_score_is_a_risk :
  snd (Risk.assess_risk (fun _ => "4.0")
         [ mkJudgeEvaluation "judge_safety" "Safety" "agent_creative"
             [("harm_avoidance", 4%float); ("privacy", 8%float)] 5 "" ["vague"] ]
         0.9 false) =
  ["Low harm_avoidance score: 4.0"; "vague"].
Proof. vm_compute. reflexivity. Qed.

End RiskExamples.

(* ================================================================== *)
(** ** The de-duplication loop *)
(* ================================================================== *)

(** [l1] is [l2] with some items left out, in the same order. *)
Inductive subsequence {A : Type} : list A -> list A -> Prop :=
| subsequence_nil : subsequence [] []
| subsequence_skip l1 l2 x : subsequence l1 l2 -> subsequence l1 (x :: l2)
| subsequence_keep l1 l2 x : subsequence l1 l2 -> subsequence (x :: l1) (x :: l2).

Lemma subsequence_snoc_skip {A : Type} (l1 l2 : list A) (x : A) :
  subsequence l1 l2 -> subsequence l1 (l2 ++ [x]).
Proof.
  induction 1; simpl.
  - apply subsequence_skip, subsequence_nil.
  - now apply subsequence_skip.
  - now apply subsequence_keep.
Qed.

Lemma subsequence_snoc_keep {A : Type} (l1 l2 : list A) (x : A) :
  subsequence l1 l2 -> subsequence (l1 ++ [x]) (l2 ++ [x]).
Proof.
  induction 1; simpl.
  - apply subsequence_keep, subsequence_nil.
  - now apply subsequence_skip.
  - now apply subsequence_keep.
Qed.

Lemma subsequence_nil_l {A : Type} (l : list A) : subsequence [] l.
Proof. induction l; constructor; assumption. Qed.

Lemma subsequence_firstn {A : Type} (n : nat) (l : list A) :
  subsequence (firstn n l) l.
Proof.
  revert n. induction l as [|x l IH]; intros [|n]; simpl.
  - constructor.
  - constructor.
  - apply subsequence_nil_l.
  - apply subsequence_keep, IH.
Qed.

Lemma subsequence_trans {A : Type} (l1 l2 l3 : list A) :
  subsequence l1 l2 -> subsequence l2 l3 -> subsequence l1 l3.
Proof.
  intros H12 H23. revert l1 H12.
  induction H23 as [|l2 l3 x H IH|l2 l3 x H IH]; intros l1 H12.
  - exact H12.
  - apply subsequence_skip. now apply IH.
  - inversion H12; subst.
    + apply subsequence_skip. now apply IH.
    + apply subsequence_keep. now apply IH.
Qed.

Lemma find_app {A : Type} (P : A -> bool) (l1 l2 : list A) :
  find P (l1 ++ l2) = match find P l1 with Some x => Some x | None => find P l2 end.
Proof.
  induction l1 as [|x l1 IH]; simpl; [reflexivity|].
  now destruct (P x).
Qed.

Lemma in_firstn {A : Type} (n : nat) (l : list A) (x : A) :
  In x (firstn n l) -> In x l.
Proof.
  revert n. induction l as [|y l IH]; intros [|n]; simpl; try tauto.
  intros [H|H]; [now left | right; now apply (IH n)].
Qed.

Lemma NoDup_firstn {A : Type} (n : nat) (l : list A) :
  NoDup l -> NoDup (firstn n l).
Proof.
  revert n. induction l as [|x l IH]; intros [|n] H; simpl; try constructor.
  - inversion H; subst. intros Hin. apply in_firstn in Hin. contradiction.
  - inversion H; subst. now apply IH.
Qed.

Section DedupeFacts.

Context {U : Py.Unicode}.

Import Py Citations.

(** The first citation of a list that equals [c] up to case. *)
Definition first_like (c : string) (citations : list string) : option string :=
  find (fun x => String.eqb (lower x) (lower c)) citations.

(** What the loop maintains after reading the citations [read]. *)
Record dedupe_inv (read seen unique : list string) : Prop := {
  inv_seen : forall s, In s seen <-> In s (map lower unique);
  inv_read : forall x, In x read -> In (lower x) seen;
  inv_nodup : NoDup (map lower unique);
  inv_first : forall c, In c unique -> first_like c read = Some c;
  inv_order : subsequence unique read
}.

Lemma dedupe_inv_init : dedupe_inv [] [] [].
Proof.
  constructor; simpl; try tauto; constructor.
Qed.

Lemma dedupe_inv_step read seen unique c :
  dedupe_inv read seen unique ->
  dedupe_inv (read ++ [c]) (fst (keep_new (seen, unique) c))
             (snd (keep_new (seen, unique) c)).
Proof.
  intros [Hseen Hread Hnd Hfirst Horder]. unfold keep_new.
  destruct (mem (lower c) seen) eqn:Hmem; simpl.
  - apply mem_in in Hmem. constructor; auto.
    + intros x Hx. apply in_app_or in Hx. destruct Hx as [Hx|[<-|[]]]; auto.
    + intros c' Hc'. unfold first_like in *. rewrite find_app.
      now rewrite (Hfirst c' Hc').
    + now apply subsequence_snoc_skip.
  - assert (Hnew : ~ In (lower c) seen).
    { intros H. apply mem_in in H. congruence. }
    constructor.
    + intros s. rewrite map_app, in_app_iff. simpl. rewrite <- Hseen. tauto.
    + intros x Hx. apply in_app_or in Hx. destruct Hx as [Hx|[<-|[]]].
      * right. auto.
      * now left.
    + rewrite map_app. simpl. apply NoDup_app; [exact Hnd | repeat constructor; simpl; tauto|].
      intros x Hx [<-|[]]. apply Hnew. now apply Hseen.
    + intros c' Hc'. unfold first_like in *. rewrite find_app.
      apply in_app_or in Hc'. destruct Hc' as [Hc'|[<-|[]]].
      * now rewrite (Hfirst c' Hc').
      * destruct (find (fun x => String.eqb (lower x) (lower c)) read)
          as [x|] eqn:Hfind.
        -- apply find_some in Hfind. destruct Hfind as [Hx Heq].
           apply String.eqb_eq in Heq. exfalso. apply Hnew.
           rewrite <- Heq. now apply Hread.
        -- simpl. now rewrite String.eqb_refl.
    + now apply subsequence_snoc_keep.
Qed.

Lemma dedupe_inv_fold citations read seen unique :
  dedupe_inv read seen unique ->
  dedupe_inv (read ++ citations)
             (fst (fold_left keep_new citations (seen, unique)))
             (snd (fold_left keep_new citations (seen, unique))).
Proof.
  revert read seen unique.
  induction citations as [|c cs IH]; intros read seen unique Hinv.
  - simpl. now rewrite app_nil_r.
  - replace (read ++ c :: cs) with ((read ++ [c]) ++ cs)
      by (rewrite <- app_assoc; reflexivity).
    change (fold_left keep_new (c :: cs) (seen, unique))
      with (fold_left keep_new cs (keep_new (seen, unique) c)).
    pose proof (dedupe_inv_step read seen unique c Hinv) as Hs.
    destruct (keep_new (seen, unique) c) as [seen' unique'].
    now apply IH.
Qed.

Lemma dedupe_spec citations :
  exists seen, dedupe_inv citations seen (dedupe citations).
Proof.
  exists (fst (fold_left keep_new citations ([], []))).
  apply (dedupe_inv_fold citations [] [] [] dedupe_inv_init).
Qed.

End DedupeFacts.

Section CitationClaims.

Context {U : Py.Unicode}.

Import Py Citations.

Variable re_findall : string -> bool -> string -> list string.

(** C10.  The extracted citations are at most ten, pairwise different
    even when compared without case, each one the first of its kind in
    extraction order, and in extraction order. *)
Theorem extract_citations_bounded_distinct (text : string) :
  let found := raw_citations re_findall text in
  let kept := extract_citations re_findall text in
  (List.length kept <= 10)%nat /\
  NoDup (map lower kept) /\
  (forall c, In c kept -> first_like c found = Some c) /\
  subsequence kept found.
Proof.
  cbv zeta. unfold extract_citations.
  destruct (dedupe_spec (raw_citations re_findall text))
    as (seen & [_ _ Hnd Hfirst Horder]).
  repeat split.
  - apply firstn_le_length.
  - rewrite <- firstn_map. now apply NoDup_firstn.
  - intros c Hc. apply Hfirst. now apply in_firstn in Hc.
  - apply (subsequence_trans _ (dedupe (raw_citations re_findall text)));
      [apply subsequence_firstn | exact Horder].
Qed.

End CitationClaims.

(* ================================================================== *)
(** ** What the audit entry holds *)
(* ================================================================== *)

Lemma prefix_refl (s : string) : String.prefix s s = true.
Proof.
  induction s as [|c s IH]; simpl; [reflexivity|].
  destruct (ascii_dec c c); [exact IH | contradiction].
Qed.

Lemma contains_refl (s : string) : Py.contains s s = true.
Proof.
  destruct s; simpl; [reflexivity|].
  destruct (ascii_dec a a); [|contradiction].
  now rewrite prefix_refl.
Qed.

Lemma mentions_field (needle key : string) (fields : list (string * json))
    (v : json) :
  field key (JObj fields) = Some v ->
  mentions needle v = true ->
  mentions needle (JObj fields) = true.
Proof.
  simpl. intros Hget Hv. apply get_some_in in Hget.
  apply existsb_exists. exists (key, v). auto.
Qed.

Section AuditClaims.

Import AuditLogger.

Variable sha256_hexdigest : string -> string.

(** The hash depends on the query text only, and is 16 characters long
    for a digest of at least that length. *)
Lemma query_hash_deterministic (now1 now2 : string) (o1 o2 : Outcome) :
  outcome_query o1 = outcome_query o2 ->
  field "query_hash" (log_entry sha256_hexdigest now1 o1) =
  field "query_hash" (log_entry sha256_hexdigest now2 o2).
Proof.
  intros Hq. destruct o1, o2; simpl in *; now rewrite Hq.
Qed.

Lemma substring_length (n : nat) (s : string) :
  (n <= String.length s)%nat -> String.length (String.substring 0 n s) = n.
Proof.
  revert s. induction n as [|n IH]; intros s Hlen.
  - now destruct s.
  - destruct s as [|c s]; simpl in *; [lia|].
    rewrite IH; [reflexivity | lia].
Qed.

Lemma hash_query_length (query : string) :
  (16 <= String.length (sha256_hexdigest query))%nat ->
  String.length (hash_query sha256_hexdigest query) = 16%nat.
Proof. apply substring_length. Qed.

(** The entry of a blocked query has no [query] field and no serialised
    decision. *)
Lemma blocked_entry_has_no_query_field (now : string) (b : BlockedDecision) :
  field "query" (log_entry sha256_hexdigest now (Blocked b)) = None /\
  field "full_decision" (log_entry sha256_hexdigest now (Blocked b)) = None.
Proof. split; reflexivity. Qed.

(** C2.  The entry logged for a [Decision] carries the raw query: its
    [full_decision] field is [Decision.to_dict()], whose [query] field is
    the query text itself, next to the [query_hash]. *)
Theorem audit_entry_keeps_raw_query (now : string) (d : Decision) :
  field "query_hash" (log_entry sha256_hexdigest now (Decided d)) =
    Some (JStr (hash_query sha256_hexdigest (query d))) /\
  (exists full,
     field "full_decision" (log_entry sha256_hexdigest now (Decided d)) = Some full /\
     field "query" full = Some (JStr (query d))) /\
  mentions (query d) (log_entry sha256_hexdigest now (Decided d)) = true.
Proof.
  split; [reflexivity|]. split.
  - exists (Serialise.decision_to_dict d). split; reflexivity.
  - apply (mentions_field _ "full_decision" _ (Serialise.decision_to_dict d)).
    + reflexivity.
    + apply (mentions_field _ "query" _ (JStr (query d))).
      * reflexivity.
      * apply contains_refl.
Qed.

End AuditClaims.

(* ================================================================== *)
(** ** The order in which the judge panel mentions the agents *)
(* ================================================================== *)

Lemma first_seen_from_known (seen ks : list string) :
  (forall k, In k ks -> In k seen) -> first_seen_from seen ks = seen.
Proof.
  induction ks as [|k ks IH]; intros Hall; [reflexivity|].
  unfold first_seen_from in *. simpl.
  replace (Py.mem k seen) with true.
  - apply IH. intros k' Hk'. apply Hall. now right.
  - symmetry. apply mem_in. apply Hall. now left.
Qed.

Lemma first_seen_from_fresh (seen ks : list string) :
  NoDup (seen ++ ks) -> first_seen_from seen ks = seen ++ ks.
Proof.
  revert seen. induction ks as [|k ks IH]; intros seen Hnd.
  - now rewrite app_nil_r.
  - unfold first_seen_from in *. simpl.
    replace (Py.mem k seen) with false.
    + rewrite IH; rewrite <- app_assoc; [reflexivity | exact Hnd].
    + symmetry. apply not_true_iff_false. intros Hmem. apply mem_in in Hmem.
      apply NoDup_remove_2 in Hnd. apply Hnd. apply in_or_app. now left.
Qed.

Lemma first_seen_from_app (seen ks1 ks2 : list string) :
  first_seen_from seen (ks1 ++ ks2) = first_seen_from (first_seen_from seen ks1) ks2.
Proof. unfold first_seen_from. apply fold_left_app. Qed.

Lemma evaluate_targets (w : World) (judge : Judge) (query : string)
    (responses : list AgentResponse) :
  map target_agent_id (evaluate w judge query responses) = map agent_id responses.
Proof.
  unfold evaluate. rewrite map_map. reflexivity.
Qed.

(** The evaluations of a panel with at least one judge first mention the
    agents in the order of the responses, when the agents' identifiers
    differ: the hypothesis of the tie-break theorem holds in the
    pipeline. *)
Lemma panel_mentions_agents_in_order (w : World) (js : list Judge)
    (query : string) (responses : list AgentResponse) :
  js <> [] -> NoDup (map agent_id responses) ->
  Py.keys (averages (run_judges_on_responses w js query responses)) =
  map agent_id responses.
Proof.
  intros Hjs Hnd. rewrite averages_keys. unfold run_judges_on_responses.
  destruct js as [|j js]; [congruence|]. clear Hjs. simpl.
  unfold first_seen. rewrite map_app, first_seen_from_app, evaluate_targets.
  rewrite (first_seen_from_fresh [] (map agent_id responses) Hnd). simpl.
  apply first_seen_from_known. intros k Hk.
  induction js as [|j' js IH]; simpl in Hk; [contradiction|].
  rewrite map_app, evaluate_targets in Hk. apply in_app_or in Hk.
  destruct Hk as [Hk|Hk]; [exact Hk | now apply IH].
Qed.

(* ================================================================== *)
(** ** When selection succeeds *)
(* ================================================================== *)

(** Every computed average is a number. *)
Definition scorable (evaluations : list JudgeEvaluation) : Prop :=
  Forall (fun kv => PrimFloat.is_nan (snd kv) = false) (averages evaluations).

Lemma averages_nonempty (evaluations : list JudgeEvaluation) :
  evaluations <> [] -> averages evaluations <> [].
Proof.
  destruct evaluations as [|ev evs]; [congruence|]. intros _ Hnil.
  assert (Hget : Py.get (averages (ev :: evs)) (target_agent_id ev) <> None).
  { unfold averages, average_scores. rewrite get_map_values, collect_scores_get.
    unfold hits. simpl. rewrite String.eqb_refl. discriminate. }
  rewrite Hnil in Hget. now apply Hget.
Qed.

(** With a response, an evaluation and averages that are numbers, the
    selector returns. *)
Lemma select_best_total {U : Py.Unicode}
    (render : string -> Py.dict float -> list string -> string)
    (responses : list AgentResponse) (evaluations : list JudgeEvaluation) :
  responses <> [] -> evaluations <> [] -> scorable evaluations ->
  exists selected confidence why,
    Selector.select_best render responses evaluations =
    Py.Ok (selected, confidence, why).
Proof.
  intros Hresp Hevals Hnum.
  pose proof (averages_nonempty evaluations Hevals) as Hne.
  unfold Selector.select_best. fold (averages evaluations).
  destruct (Py.max (Py.values (averages evaluations))) as [best|e] eqn:Hmax.
  2:{ exfalso. destruct (averages evaluations); [congruence | discriminate]. }
  simpl Py.bind.
  assert (Htop : Selector.top_agents (averages evaluations) best <> []).
  { apply max_in in Hmax. apply in_map_iff in Hmax.
    destruct Hmax as ([k v] & Hv & Hin). simpl in Hv. subst v.
    unfold scorable in Hnum. rewrite Forall_forall in Hnum.
    pose proof (Hnum _ Hin) as Hnan. simpl in Hnan.
    intros Hnil.
    assert (Hk : In k (Selector.top_agents (averages evaluations) best)).
    { unfold Selector.top_agents. change k with (fst (k, best)).
      apply in_map. apply filter_In. split; [exact Hin|].
      simpl. now apply feq_refl. }
    rewrite Hnil in Hk. contradiction. }
  destruct (Selector.top_agents (averages evaluations) best) as [|a top] eqn:Ht;
    [congruence|].
  unfold Selector.tie_break.
  destruct (find Selector.is_safety_advocate (a :: top)) as [aid|];
    simpl Py.bind; unfold Selector.response_of;
    match goal with
    | |- context [find ?P responses] => destruct (find P responses) as [r|]
    end;
    destruct responses as [|r0 rs]; try congruence; simpl; eauto.
Qed.

Lemma panel_evaluations_nonempty (w : World) (js : list Judge) (query : string)
    (responses : list AgentResponse) :
  js <> [] -> responses <> [] ->
  run_judges_on_responses w js query responses <> [].
Proof.
  destruct js as [|j js]; [congruence|].
  destruct responses as [|r rs]; [congruence|].
  intros _ _. simpl. discriminate.
Qed.

Lemma truthy_str_iff (s : string) : Py.truthy_str s = true <-> s <> "".
Proof.
  destruct s; simpl; split; congruence.
Qed.

(* ================================================================== *)
(** ** The agents of a run *)
(* ================================================================== *)

Lemma gather_ok {A B : Type} (f : A -> Py.result B) (l : list A) (results : list B) :
  gather (map f l) = Py.Ok results <-> map f l = map Py.Ok results.
Proof.
  revert results. induction l as [|a l IH]; intros results; simpl.
  - split; intros H.
    + inversion H. reflexivity.
    + destruct results; [reflexivity | discriminate].
  - destruct (f a) as [b|e]; simpl.
    + destruct (gather (map f l)) as [bs|e] eqn:Hrest; simpl.
      * split; intros H.
        -- inversion H; subst. simpl. f_equal. now apply IH.
        -- destruct results as [|b' bs']; [discriminate|]. simpl in H.
           inversion H; subst. f_equal. f_equal.
           assert (Hbs : Py.Ok bs = Py.Ok bs') by now apply IH.
           now inversion Hbs.
      * split; [discriminate|]. intros H.
        destruct results as [|b' bs']; [discriminate|]. simpl in H.
        inversion H; subst.
        assert (Hbs : @Py.Raise (list B) e = Py.Ok bs') by now apply IH.
        discriminate.
    + split; [discriminate|]. intros H.
      destruct results; simpl in H; [discriminate | inversion H].
Qed.

(** [run_agents_parallel] returns exactly when no agent of the roster is
    a [MockAgent], and then with one response per agent, in the order
    of the roster; otherwise it raises [TypeError]. *)
Lemma run_agents_parallel_ends (w : World) (roster : list Agent) (query : string) :
  (forallb (fun agent => match a_class agent with
                         | MegaLLMAgent => true
                         | MockAgent => false
                         end) roster = true /\
   run_agents_parallel w roster query =
   Py.Ok (map (fun agent =>
                 mkAgentResponse (a_id agent) (a_type agent)
                   (generated_text w agent query)
                   (a_temperature agent) (generation_ms w agent query))
              roster)) \/
  (forallb (fun agent => match a_class agent with
                         | MegaLLMAgent => true
                         | MockAgent => false
                         end) roster = false /\
   run_agents_parallel w roster query = Py.Raise Py.TypeError).
Proof.
  unfold run_agents_parallel.
  induction roster as [|agent roster IH]; [now left|].
  simpl. unfold generate at 1 3.
  destruct (a_class agent); simpl; [|now right].
  destruct IH as [(Hlive & ->)|(Hmock & ->)]; [left | right]; now split.
Qed.

Lemma run_agents_ids (w : World) (roster : list Agent) (query : string)
    (responses : list AgentResponse) :
  run_agents_parallel w roster query = Py.Ok responses ->
  map agent_id responses = map a_id roster.
Proof.
  intros Hrun.
  destruct (run_agents_parallel_ends w roster query) as [(_ & Hok)|(_ & Hraise)];
    [|congruence].
  rewrite Hok in Hrun. inversion Hrun. rewrite map_map. reflexivity.
Qed.

(** The agents of a council as [LLMCouncil] builds it: with
    [use_mock=False] the generation returns; with [use_mock=True] and at
    least one agent it raises [TypeError]. *)
Lemma new_council_generation (w : World) (roster : list (string * string * float))
    (panel : list Judge) (gate : SafetyGate.t) (mock : bool)
    (threshold : float) (retries : Z) (skip : bool) (query : string) :
  let council := new_council roster panel gate mock threshold retries skip in
  if mock then
    run_agents_parallel w (agents council) query =
    match roster with
    | [] => Py.Ok []
    | _ :: _ => Py.Raise Py.TypeError
    end
  else
    exists agent_responses,
      run_agents_parallel w (agents council) query = Py.Ok agent_responses.
Proof.
  cbv zeta. destruct mock.
  - destruct roster as [|cfg roster]; reflexivity.
  - destruct (run_agents_parallel_ends w
                (agents (new_council roster panel gate false threshold retries skip))
                query) as [(_ & Hok)|(Hmock & _)]; [eauto|].
    exfalso. simpl in Hmock.
    induction roster as [|cfg roster IH]; simpl in Hmock; [discriminate | auto].
Qed.

(* ================================================================== *)
(** ** How a run comes by its decision *)
(* ================================================================== *)

Section Runs.

Context {U : Py.Unicode}.

Variable w : World.
Variable council : LLMCouncil.

(** What [conclude] puts into the decision it builds. *)
Lemma conclude_fields (query : string) (agent_responses : list AgentResponse)
    (evaluations : list JudgeEvaluation) (disagreement : bool) (d : Decision) :
  conclude w council query agent_responses evaluations disagreement = Py.Ok d ->
  exists selected confidence why refined refined_flag retried feedback final
         level risks,
    Selector.select_best (render_reasoning w) agent_responses evaluations =
      Py.Ok (selected, confidence, why) /\
    refine_and_retry w council query agent_responses evaluations selected confidence =
      (refined, refined_flag, retried, feedback, final) /\
    annotate_risk w council evaluations final disagreement = (level, risks) /\
    d = mkDecision (new_decision_id w) (now w) query agent_responses evaluations
          selected final level risks
          (Citations.extract_citations (re_findall w) (response_text refined))
          why (Some refined) feedback (elapsed_ms w) true disagreement
          refined_flag retried.
Proof.
  unfold conclude.
  destruct (Selector.select_best (render_reasoning w) agent_responses evaluations)
    as [[[selected confidence] why]|e]; simpl Py.bind; [|discriminate].
  destruct (refine_and_retry w council query agent_responses evaluations
              selected confidence)
    as [[[[refined refined_flag] retried] feedback] final] eqn:Hrefine.
  destruct (annotate_risk w council evaluations final disagreement)
    as [level risks] eqn:Hrisk.
  intros H. inversion H; subst; clear H.
  exists selected, confidence, why, refined, refined_flag, retried, feedback, final,
         level, risks.
  repeat split; try reflexivity; assumption.
Qed.

(** [conclude] ends as the selector does. *)
Lemma conclude_ends_as_selection (query : string)
    (agent_responses : list AgentResponse) (evaluations : list JudgeEvaluation)
    (disagreement : bool) :
  match Selector.select_best (render_reasoning w) agent_responses evaluations with
  | Py.Ok _ =>
      exists d,
        conclude w council query agent_responses evaluations disagreement = Py.Ok d
  | Py.Raise e =>
      conclude w council query agent_responses evaluations disagreement = Py.Raise e
  end.
Proof.
  unfold conclude.
  destruct (Selector.select_best (render_reasoning w) agent_responses evaluations)
    as [[[selected confidence] why]|e]; simpl Py.bind; [|reflexivity].
  destruct (refine_and_retry w council query agent_responses evaluations
              selected confidence)
    as [[[[refined refined_flag] retried] feedback] final].
  destruct (annotate_risk w council evaluations final disagreement) as [level risks].
  eexists. reflexivity.
Qed.

(** How [decide] ends, by the verdict of the gate, the end of the
    generation and the end of [conclude]. *)
Lemma decide_cases (file : list json) (query : string) :
  let verdict := SafetyGate.check (re_search w) (safety_gate council) query in
  if SafetyGate.passed verdict then
    match run_agents_parallel w (agents council) query with
    | Py.Ok agent_responses =>
        let evaluations :=
          run_judges_on_responses w (judges council) query agent_responses in
        match conclude w council query agent_responses evaluations
                (Judges.check_judge_disagreement evaluations
                   Judges.default_threshold) with
        | Py.Ok d =>
            decide w council file query =
            Py.Ok (Decided d,
                   file ++ [AuditLogger.log_entry (sha256_hexdigest w) (log_now w)
                              (Decided d)])
        | Py.Raise e => decide w council file query = Py.Raise e
        end
    | Py.Raise e => decide w council file query = Py.Raise e
    end
  else
    decide w council file query =
    Py.Ok (Blocked (block w query verdict),
           file ++ [AuditLogger.log_entry (sha256_hexdigest w) (log_now w)
                      (Blocked (block w query verdict))]).
Proof.
  cbv zeta. unfold decide.
  destruct (SafetyGate.passed
              (SafetyGate.check (re_search w) (safety_gate council) query));
    simpl negb; cbv iota; [|reflexivity].
  destruct (run_agents_parallel w (agents council) query) as [agent_responses|e];
    simpl Py.bind; [|reflexivity].
  match goal with
  | |- match ?c with _ => _ end => destruct c
  end; reflexivity.
Qed.

(** A decision [decide] returns is one [conclude] built from the
    responses of the agents and the evaluations of the panel. *)
Lemma decide_decided (file file' : list json) (query : string) (d : Decision) :
  decide w council file query = Py.Ok (Decided d, file') ->
  SafetyGate.passed (SafetyGate.check (re_search w) (safety_gate council) query) = true /\
  exists agent_responses,
    run_agents_parallel w (agents council) query = Py.Ok agent_responses /\
    conclude w council query agent_responses
      (run_judges_on_responses w (judges council) query agent_responses)
      (Judges.check_judge_disagreement
         (run_judges_on_responses w (judges council) query agent_responses)
         Judges.default_threshold) = Py.Ok d.
Proof.
  intros Hrun. pose proof (decide_cases file query) as Hcases. cbv zeta in Hcases.
  destruct (SafetyGate.passed
              (SafetyGate.check (re_search w) (safety_gate council) query)).
  - split; [reflexivity|].
    destruct (run_agents_parallel w (agents council) query) as [agent_responses|e];
      [|rewrite Hcases in Hrun; discriminate].
    exists agent_responses. split; [reflexivity|].
    match type of Hcases with
    | match ?c with _ => _ end => destruct c
    end; rewrite Hcases in Hrun; [|discriminate].
    now inversion Hrun.
  - rewrite Hcases in Hrun. discriminate.
Qed.

(** A decision the staged mode yields as its final payload is one
    [conclude] built from the streamed responses. *)
Lemma staged_decided (file : list json) (query : string) (skip : bool)
    (word_limit : option Z) (d : Decision) :
  In ("final", FinalPayload d)
     (yielded (decide_generator w council file query skip word_limit)) ->
  SafetyGate.passed (SafetyGate.check (re_search w) (safety_gate council) query) = true /\
  conclude w council query (streamed w council word_limit query)
    (run_judges_on_responses w (judges council) query
       (streamed w council word_limit query))
    (Judges.check_judge_disagreement
       (run_judges_on_responses w (judges council) query
          (streamed w council word_limit query))
       Judges.default_threshold) = Py.Ok d.
Proof.
  unfold decide_generator.
  destruct (SafetyGate.passed
              (SafetyGate.check (re_search w) (safety_gate council) query));
    simpl negb; cbv iota.
  - intros Hin. split; [reflexivity|].
    match goal with
    | |- ?c = _ => destruct c as [d0|e0] eqn:Hconclude
    end; simpl yielded in Hin;
      (destruct Hin as [Hin|Hin]; [discriminate|]);
      (apply in_app_or in Hin; destruct Hin as [Hin|Hin];
       [apply in_map_iff in Hin; destruct Hin as (poll & Hpoll & _); discriminate|]);
      simpl in Hin; intuition (try discriminate).
    match goal with
    | H : (_, FinalPayload _) = (_, FinalPayload _) |- _ => now inversion H
    end.
  - simpl. intros [Hin|[Hin|[]]]; discriminate.
Qed.

End Runs.

(** [decide] of a council built with [use_mock=True] never returns a
    decision: on a query the gate accepts it raises [TypeError], leaving
    the audit file alone, as soon as there is an agent. *)
Lemma decide_of_mock_council {U : Py.Unicode} (w : World)
    (roster : list (string * string * float)) (panel : list Judge)
    (gate : SafetyGate.t) (threshold : float) (retries : Z) (skip : bool)
    (file : list json) (query : string) :
  roster <> [] ->
  SafetyGate.passed (SafetyGate.check (re_search w) gate query) = true ->
  decide w (new_council roster panel gate true threshold retries skip) file query =
  Py.Raise Py.TypeError.
Proof.
  intros Hroster Hpass.
  pose proof (decide_cases w (new_council roster panel gate true threshold retries skip)
                file query) as Hcases.
  cbv zeta in Hcases. simpl safety_gate in Hcases. rewrite Hpass in Hcases.
  pose proof (new_council_generation w roster panel gate true threshold retries skip
                query) as Hgen.
  cbv zeta in Hgen. cbv iota in Hgen. rewrite Hgen in Hcases.
  destruct roster as [|cfg roster]; [congruence | exact Hcases].
Qed.

(* ================================================================== *)
(** ** The retry branch *)
(* ================================================================== *)

Section Retry.

Context {U : Py.Unicode}.

Variable w : World.
Variable council : LLMCouncil.

(** The retry condition of step 6. *)
Definition retry_due (evaluations : list JudgeEvaluation)
    (selected : AgentResponse) (confidence : float) : Prop :=
  Py.flt confidence (confidence_threshold council) = true /\
  (0 < max_retries council)%Z /\
  get_judge_feedback evaluations selected <> "".

Lemma refine_and_retry_spec (query : string) (agent_responses : list AgentResponse)
    (evaluations : list JudgeEvaluation) (selected : AgentResponse)
    (confidence : float) :
  let '(refined, was_refined, was_retried, feedback, final) :=
    refine_and_retry w council query agent_responses evaluations selected confidence in
  (was_retried = true <-> retry_due evaluations selected confidence) /\
  (was_retried = true ->
     final = Py.min2 1%float (PrimFloat.add confidence 0.1%float) /\
     feedback = get_judge_feedback evaluations selected /\
     refined = refine w (use_mock council) query selected agent_responses feedback) /\
  (was_retried = false -> final = confidence).
Proof.
  unfold refine_and_retry, retry_due.
  destruct (skip_synthesis council);
    destruct (Py.flt confidence (confidence_threshold council));
    destruct (0 <? max_retries council)%Z eqn:Hmax; simpl;
    try (apply Z.ltb_lt in Hmax); try (apply Z.ltb_ge in Hmax);
    try (destruct (Py.truthy_str (get_judge_feedback evaluations selected)) eqn:Hfb;
         [apply truthy_str_iff in Hfb | apply not_true_iff_false in Hfb;
          rewrite truthy_str_iff in Hfb]);
    repeat split; try tauto; try congruence; try discriminate;
    try (intros (? & ? & ?); first [discriminate | lia | tauto]).
Qed.

(** The pipeline came by the decision [d] for the query, having
    generated [agent_responses]: [decide] returned it, or the staged
    mode yielded it as its final payload. *)
Definition produces (file : list json) (query : string)
    (agent_responses : list AgentResponse) (d : Decision) : Prop :=
  (run_agents_parallel w (agents council) query = Py.Ok agent_responses /\
   exists file', decide w council file query = Py.Ok (Decided d, file')) \/
  (exists skip word_limit,
     agent_responses = streamed w council word_limit query /\
     In ("final", FinalPayload d)
        (yielded (decide_generator w council file query skip word_limit))).

(** C4.  In every run of the pipeline that comes by a decision, in
    either mode, the query was accepted and the retry flag of the
    decision is set exactly when the selected confidence is below the
    threshold, a retry is allowed and the feedback of the judges on the
    selected response is not empty; then the final confidence is
    [min(1.0, confidence + 0.1)]; otherwise it is the selected
    confidence. *)
Theorem retry_fires_iff_low_confidence_and_feedback
    (file : list json) (query : string)
    (agent_responses : list AgentResponse) (d : Decision) :
  produces file query agent_responses d ->
  let evaluations :=
    run_judges_on_responses w (judges council) query agent_responses in
  SafetyGate.passed (SafetyGate.check (re_search w) (safety_gate council) query) = true /\
  exists selected confidence why,
    Selector.select_best (render_reasoning w) agent_responses evaluations =
      Py.Ok (selected, confidence, why) /\
    selected_response d = selected /\
    (was_retried d = true <-> retry_due evaluations selected confidence) /\
    (was_retried d = true ->
       confidence_score d = Py.min2 1%float (PrimFloat.add confidence 0.1%float) /\
       retry_feedback d = get_judge_feedback evaluations selected /\
       refined_response d =
         Some (refine w (use_mock council) query selected agent_responses
                 (retry_feedback d))) /\
    (was_retried d = false -> confidence_score d = confidence).
Proof.
  intros Hrun evaluations.
  assert (Hconclude :
    SafetyGate.passed
      (SafetyGate.check (re_search w) (safety_gate council) query) = true /\
    conclude w council query agent_responses evaluations
      (Judges.check_judge_disagreement evaluations Judges.default_threshold) =
    Py.Ok d).
  { destruct Hrun as [(Hagents & file' & Hdecide)|(skip & word_limit & -> & Hfinal)].
    - apply decide_decided in Hdecide.
      destruct Hdecide as (Hpass & agent_responses' & Hagents' & Hconclude).
      rewrite Hagents in Hagents'. inversion Hagents'; subst agent_responses'.
      now split.
    - now apply staged_decided in Hfinal. }
  destruct Hconclude as (Hpass & Hconclude). split; [exact Hpass|].
  destruct (conclude_fields w council _ _ _ _ _ Hconclude)
    as (selected & confidence & why & refined & refined_flag & retried & feedback
        & final & level & risks & Hsel & Hrefine & _ & ->).
  pose proof (refine_and_retry_spec query agent_responses evaluations
                selected confidence) as Hspec.
  rewrite Hrefine in Hspec. destruct Hspec as (Hiff & Hyes & Hno).
  exists selected, confidence, why. simpl.
  split; [exact Hsel|]. split; [reflexivity|]. split; [exact Hiff|].
  split; [|exact Hno].
  intros H. destruct (Hyes H) as (Hfinal & Hfeedback & Hrefined).
  split; [exact Hfinal|]. split; [exact Hfeedback|]. now rewrite Hrefined.
Qed.

(** An accepted run comes by a decision whenever the selector returns:
    the staged mode always, [decide] when the generation returns. *)
Lemma accepted_run_produces (file : list json) (query : string)
    (agent_responses : list AgentResponse) (selection : AgentResponse * float * string) :
  SafetyGate.passed (SafetyGate.check (re_search w) (safety_gate council) query) = true ->
  Selector.select_best (render_reasoning w) agent_responses
    (run_judges_on_responses w (judges council) query agent_responses) =
    Py.Ok selection ->
  (run_agents_parallel w (agents council) query = Py.Ok agent_responses ->
   exists d file', decide w council file query = Py.Ok (Decided d, file')) /\
  (forall skip word_limit,
     agent_responses = streamed w council word_limit query ->
     exists d,
       In ("final", FinalPayload d)
          (yielded (decide_generator w council file query skip word_limit))).
Proof.
  intros Hpass Hsel.
  pose proof (conclude_ends_as_selection w council query agent_responses
                (run_judges_on_responses w (judges council) query agent_responses)
                (Judges.check_judge_disagreement
                   (run_judges_on_responses w (judges council) query agent_responses)
                   Judges.default_threshold)) as Hends.
  rewrite Hsel in Hends. destruct Hends as (d & Hd). split.
  - intros Hgenerated. pose proof (decide_cases w council file query) as Hcases.
    cbv zeta in Hcases. rewrite Hpass, Hgenerated, Hd in Hcases. eauto.
  - intros skip word_limit ->. exists d.
    unfold decide_generator. rewrite Hpass. simpl negb. cbv iota. rewrite Hd.
    simpl yielded. right. apply in_or_app. right. simpl. auto.
Qed.

End Retry.

(* ================================================================== *)
(** ** The staged mode *)
(* ================================================================== *)

Definition stage_labels (run : StagedRun) : list string :=
  map fst (yielded run).

Section Staged.

Context {U : Py.Unicode}.

Variable w : World.
Variable council : LLMCouncil.




(** [conclude] returns whenever the selector does. *)
Lemma conclude_total (query : string) (agent_responses : list AgentResponse)
    (evaluations : list JudgeEvaluation) (disagreement : bool) :
  agent_responses <> [] -> evaluations <> [] -> scorable evaluations ->
  exists d, conclude w council query agent_responses evaluations disagreement = Py.Ok d.
Proof.
  intros Hresp Hevals Hnum.
  destruct (select_best_total (render_reasoning w) agent_responses evaluations
              Hresp Hevals Hnum) as (selected & confidence & why & Hsel).
  pose proof (conclude_ends_as_selection w council query agent_responses evaluations
                disagreement) as Hends.
  now rewrite Hsel in Hends.
Qed.


(** Both modes log exactly one entry when they end normally. *)
Lemma staged_run_logs_once (file : list json) (query : string)
    (skip : bool) (word_limit : option Z) :
  ending (decide_generator w council file query skip word_limit) = Py.Ok tt ->
  List.length (audit_file (decide_generator w council file query skip word_limit)) =
  S (List.length file).
Proof.
  unfold decide_generator.
  destruct (negb (SafetyGate.passed
                    (SafetyGate.check (re_search w) (safety_gate council) query))).
  - intros _. simpl. rewrite length_app. simpl. lia.
  - match goal with
    | |- context [conclude ?a ?b ?c ?d ?e ?f] => destruct (conclude a b c d e f)
    end; simpl.
    + intros _. rewrite length_app. simpl. lia.
    + discriminate.
Qed.

(** The citations of every decision [conclude] builds obey the bound
    and the case-insensitive distinctness of C10. *)
Lemma decision_citations_bounded (query : string)
    (agent_responses : list AgentResponse) (evaluations : list JudgeEvaluation)
    (disagreement : bool) (d : Decision) :
  conclude w council query agent_responses evaluations disagreement = Py.Ok d ->
  (List.length (citations d) <= 10)%nat /\ NoDup (map Py.lower (citations d)).
Proof.
  unfold conclude.
  destruct (Selector.select_best (render_reasoning w) agent_responses evaluations)
    as [[[selected confidence] why]|e]; simpl Py.bind; [|discriminate].
  destruct (refine_and_retry w council query agent_responses evaluations
              selected confidence)
    as [[[[refined was_refined] retried] feedback] final].
  destruct (annotate_risk w council evaluations final disagreement) as [level risks].
  intros H. inversion H; subst; clear H. simpl citations.
  unfold Citations.extract_citations.
  destruct (dedupe_spec (Citations.raw_citations (re_findall w) (response_text refined)))
    as (seen & [_ _ Hnd _ _]).
  split.
  - apply firstn_le_length.
  - rewrite <- firstn_map. now apply NoDup_firstn.
Qed.

End Staged.

(* ================================================================== *)
(** ** A council to run the model on *)
(* ================================================================== *)

Section Demonstration.

#[local] Existing Instance Py.ascii_text.

Definition demo_agents : list Agent :=
  [ mkAgent "agent_analytical" "Analytical Agent" 0.3 MegaLLMAgent;
    mkAgent "agent_creative" "Creative Agent" 0.9 MegaLLMAgent;
    mkAgent "agent_pragmatist" "Pragmatist Agent" 0.5 MegaLLMAgent ].

Definition demo_judges : list Judge :=
  [ mkJudge "judge_factuality" "Factuality"
      [ ("accuracy", mkDimension (Some 0.5%float) "Are the claims correct?");
        ("evidence", mkDimension (Some 0.5%float) "Are the claims supported?") ];
    mkJudge "judge_safety" "Safety"
      [ ("harm_avoidance", mkDimension (Some 0.75%float) "Could the answer hurt?");
        ("privacy", mkDimension None "Does the answer respect privacy?") ] ].

Definition demo_council : LLMCouncil :=
  mkCouncil demo_agents demo_judges gate_default false 0.6 1 false.

(** The same council as [use_mock=True] builds it: mock agents, and the
    mock synthesizer. *)
Definition demo_roster : list (string * string * float) :=
  map (fun agent => (a_id agent, a_type agent, a_temperature agent)) demo_agents.

Definition mock_council : LLMCouncil :=
  new_council demo_roster demo_judges gate_default true 0.6 1 false.

Example demo_council_as_built :
  demo_council = new_council demo_roster demo_judges gate_default false 0.6 1 false.
Proof. reflexivity. Qed.

(** A world in which every judge gives every dimension the same score
    and flags the analytical agent's draft as vague.  One fixed digest
    stands for SHA-256, and no citation is found. *)
Definition demo_world (score : float) (n_polls : nat) : World :=
  {| re_search := literal_search;
     re_findall := fun _ _ _ => [];
     sha256_hexdigest := fun _ =>
       "9f86d081884c7d659a2feaa0c55ad015a3bf4f1b2b0b822cd15d6c15b0f00a08";
     generated_text := fun agent _ => ("[Mock " ++ a_type agent ++ " response]")%string;
     generation_ms := fun _ _ => 40%Z;
     stream_chunks := fun agent _ _ => ["[Mock "; a_type agent; " stream]"];
     written_at := fun poll _ => poll;
     polls := n_polls;
     judged_scores := fun judge _ _ =>
       map (fun dim => (fst dim, score)) (dimensions judge);
     judged_reasoning := fun judge _ _ => ("Mock " ++ j_type judge ++ " evaluation")%string;
     judged_issues := fun _ _ response =>
       if String.eqb (agent_id response) "agent_analytical" then ["vague"] else [];
     synthesis_text := fun _ winner _ _ => ("[REFINED] " ++ response_text winner)%string;
     synthesis_ms := 55%Z;
     render_reasoning := plain_rationale;
     repr_float := fun _ => "5.0";
     format_percent := fun _ => "50%";
     new_decision_id := "1a2b3c4d";
     now := "2025-01-01T12:00:00";
     log_now := "2025-01-01T12:00:01";
     elapsed_ms := 321%Z |}.

(** The staged mode of the demonstration council comes by a decision,
    and the theorem applies to it. *)
Lemma retry_fires_witness :
  exists agent_responses d,
    produces (demo_world 5 3) demo_council [] "What is a hash table?"
      agent_responses d /\
    SafetyGate.passed
      (SafetyGate.check literal_search gate_default "What is a hash table?") = true /\
    exists selected confidence why,
      Selector.select_best plain_rationale agent_responses
        (run_judges_on_responses (demo_world 5 3) demo_judges
           "What is a hash table?" agent_responses) =
        Py.Ok (selected, confidence, why) /\
      selected_response d = selected /\
      (was_retried d = true <->
       retry_due demo_council
         (run_judges_on_responses (demo_world 5 3) demo_judges
            "What is a hash table?" agent_responses) selected confidence) /\
      (was_retried d = true ->
         confidence_score d = Py.min2 1%float (PrimFloat.add confidence 0.1%float) /\
         retry_feedback d =
           get_judge_feedback
             (run_judges_on_responses (demo_world 5 3) demo_judges
                "What is a hash table?" agent_responses) selected /\
         refined_response d =
           Some (refine (demo_world 5 3) false "What is a hash table?" selected
                   agent_responses (retry_feedback d))) /\
      (was_retried d = false -> confidence_score d = confidence).
Proof.
  eexists. eexists.
  match goal with
  | |- produces ?w ?c ?f ?q ?rs ?d /\ _ =>
      assert (Hrun : produces w c f q rs d)
  end.
  { left. split; [vm_compute; reflexivity|].
    eexists. vm_compute. reflexivity. }
  split; [exact Hrun|].
  exact (retry_fires_iff_low_confidence_and_feedback (demo_world 5 3) demo_council
           [] "What is a hash table?" _ _ Hrun).
Defined.

(** Scenario C of the specification: identical judge totals, confidence
    0.5 below the threshold 0.6, and feedback: one retry, final
    confidence 0.6. *)
Example scenario_low_confidence_retry :
  exists d file',
    decide (demo_world 5 3) demo_council [] "What is a hash table?" =
      Py.Ok (Decided d, file') /\
    agent_id (selected_response d) = "agent_analytical" /\
    was_retried d = true /\
    retry_feedback d = "Factuality Judge: vague | Safety Judge: vague" /\
    confidence_score d = 0.6%float /\
    judge_disagreement d = false /\
    List.length file' = 1%nat.
Proof.
  eexists. eexists. split; [vm_compute; reflexivity|].
  repeat split; vm_compute; reflexivity.
Qed.

(** With confidence 0.9 there is no retry and the confidence stays. *)
Example scenario_high_confidence :
  exists d file',
    decide (demo_world 9 3) demo_council [] "What is a hash table?" =
      Py.Ok (Decided d, file') /\
    was_retried d = false /\ retry_feedback d = "" /\
    confidence_score d = 0.9%float /\ risk_level d = LOW.
Proof.
  eexists. eexists. split; [vm_compute; reflexivity|].
  repeat split; vm_compute; reflexivity.
Qed.

(** Scenario B: a query shorter than the minimum is blocked. *)
Example scenario_too_short :
  exists b file',
    decide (demo_world 9 3) demo_council [] "hi" = Py.Ok (Blocked b, file') /\
    block_reason b = "Query too short (min 3 chars)" /\
    matched_patterns b = [].
Proof.
  eexists. eexists. split; [vm_compute; reflexivity|].
  split; reflexivity.
Qed.

(** A council built with [use_mock=True]: [decide] raises in the first
    [MockAgent.generate] and writes no audit line, while the staged
    mode, which streams, comes by a decision; a query the gate rejects
    is blocked in both. *)
Example mock_council_decide_raises :
  decide (demo_world 9 3) mock_council [] "What is a hash table?" =
    Py.Raise Py.TypeError /\
  stage_labels
    (decide_generator (demo_world 9 3) mock_council [] "What is a hash table?"
       false None) =
    ["start"; "agents"; "agents"; "agents"; "agents"; "judges"; "final"] /\
  exists b file',
    decide (demo_world 9 3) mock_council [] "how to make a bomb" =
    Py.Ok (Blocked b, file').
Proof.
  split; [vm_compute; reflexivity|]. split; [vm_compute; reflexivity|].
  eexists. eexists. vm_compute. reflexivity.
Qed.


Example staged_run_accepted :
  stage_labels
    (decide_generator (demo_world 5 3) demo_council [] "What is a hash table?"
       false None) =
  ["start"; "agents"; "agents"; "agents"; "agents"; "judges"; "final"].
Proof. vm_compute. reflexivity. Qed.

Example staged_run_blocked :
  stage_labels
    (decide_generator (demo_world 5 3) demo_council [] "how to make a bomb"
       false None) =
  ["start"; "blocked"].
Proof. vm_compute. reflexivity. Qed.


(** The same happens with the full roster when the first agent's
    average is not a number: the selector raises [IndexError]. *)
Example staged_run_with_nan_scores :
  let run :=
    decide_generator (demo_world nan 1) demo_council [] "What is a hash table?"
      false None in
  stage_labels run = ["start"; "agents"; "agents"; "judges"] /\
  ending run = Py.Raise Py.IndexError.
Proof. split; vm_compute; reflexivity. Qed.

End Demonstration.

(* ================================================================== *)
(** ** The safety gate: what passes, and what a block reports *)
(* ================================================================== *)

(** The text after a leading white-space character. *)
Definition after_space (s : string) : option string :=
  match s with
  | EmptyString => None
  | String b1 rest1 =>
      if Py.is_space b1 then Some rest1
      else
        match rest1 with
        | EmptyString => None
        | String b2 rest2 =>
            if Py.is_space2 b1 b2 then Some rest2
            else
              match rest2 with
              | EmptyString => None
              | String b3 rest3 =>
                  if Py.is_space3 b1 b2 b3 then Some rest3 else None
              end
        end
  end.

Lemma lstrip_step (s : string) :
  Py.lstrip s =
  match after_space s with
  | Some rest => Py.lstrip rest
  | None => s
  end.
Proof.
  destruct s as [|b1 [|b2 [|b3 rest3]]]; simpl; try reflexivity.
  - now destruct (Py.is_space b1).
  - destruct (Py.is_space b1); [reflexivity|]. now destruct (Py.is_space2 b1 b2).
  - destruct (Py.is_space b1); [reflexivity|].
    destruct (Py.is_space2 b1 b2); [reflexivity|].
    now destruct (Py.is_space3 b1 b2 b3).
Qed.

Lemma after_space_shorter (s rest : string) :
  after_space s = Some rest -> (String.length rest < String.length s)%nat.
Proof.
  destruct s as [|b1 [|b2 [|b3 rest3]]]; simpl; try discriminate.
  - destruct (Py.is_space b1); intros H; inversion H; subst; simpl; lia.
  - destruct (Py.is_space b1); [intros H; inversion H; subst; simpl; lia|].
    destruct (Py.is_space2 b1 b2); intros H; inversion H; subst; simpl; lia.
  - destruct (Py.is_space b1); [intros H; inversion H; subst; simpl; lia|].
    destruct (Py.is_space2 b1 b2); [intros H; inversion H; subst; simpl; lia|].
    destruct (Py.is_space3 b1 b2 b3); intros H; inversion H; subst; simpl; lia.
Qed.

(** Appending text does not change how a leading white-space character
    is read. *)
Lemma after_space_append (s rest tail : string) :
  after_space s = Some rest -> after_space (s ++ tail)%string = Some (rest ++ tail)%string.
Proof.
  destruct s as [|b1 [|b2 [|b3 rest3]]]; simpl; try discriminate.
  - destruct (Py.is_space b1); intros H; inversion H; subst. reflexivity.
  - destruct (Py.is_space b1); [intros H; inversion H; subst; reflexivity|].
    destruct (Py.is_space2 b1 b2); intros H; inversion H; subst. reflexivity.
  - destruct (Py.is_space b1); [intros H; inversion H; subst; reflexivity|].
    destruct (Py.is_space2 b1 b2); [intros H; inversion H; subst; reflexivity|].
    destruct (Py.is_space3 b1 b2 b3); intros H; inversion H; subst. reflexivity.
Qed.

(** Induction on the length of a string. *)
Lemma string_length_ind (P : string -> Prop) :
  (forall s, (forall t, (String.length t < String.length s)%nat -> P t) -> P s) ->
  forall s, P s.
Proof.
  intros Hstep s.
  assert (H : forall n t, (String.length t < n)%nat -> P t).
  { induction n as [|n IH]; intros t Ht; [lia|].
    apply Hstep. intros t' Ht'. apply IH. lia. }
  apply (H (S (String.length s))). lia.
Qed.

Lemma lstrip_starts (s : string) : after_space (Py.lstrip s) = None.
Proof.
  induction s as [s IH] using string_length_ind.
  rewrite lstrip_step. destruct (after_space s) as [rest|] eqn:Hs; [|exact Hs].
  apply IH. now apply after_space_shorter.
Qed.

Lemma lstrip_fixed (s : string) : after_space s = None -> Py.lstrip s = s.
Proof. intros H. now rewrite lstrip_step, H. Qed.

(** White space followed by [tail] strips to what [tail] strips to. *)
Lemma lstrip_blank_append (s tail : string) :
  Py.lstrip s = "" -> Py.lstrip (s ++ tail)%string = Py.lstrip tail.
Proof.
  induction s as [s IH] using string_length_ind. intros Hblank.
  rewrite lstrip_step in Hblank.
  destruct (after_space s) as [rest|] eqn:Hs.
  - rewrite (lstrip_step (s ++ tail)%string), (after_space_append _ _ tail Hs).
    apply IH; [now apply after_space_shorter | exact Hblank].
  - subst s. reflexivity.
Qed.

Lemma rstrip_step (c : ascii) (s : string) :
  Py.rstrip (String c s) =
  match Py.lstrip (String c s) with
  | EmptyString => EmptyString
  | String _ _ => String c (Py.rstrip s)
  end.
Proof. reflexivity. Qed.

(** [rstrip] cuts white space off the end. *)
Lemma rstrip_cut (s : string) :
  exists blank, s = (Py.rstrip s ++ blank)%string /\ Py.lstrip blank = "".
Proof.
  induction s as [|c s IH]; [now exists ""|].
  rewrite rstrip_step.
  destruct (Py.lstrip (String c s)) as [|c' t] eqn:Hs.
  - exists (String c s). split; [reflexivity | exact Hs].
  - destruct IH as (blank & Heq & Hblank). exists blank.
    split; [|exact Hblank]. simpl. now rewrite <- Heq.
Qed.

Lemma after_space_prefix (s tail : string) :
  after_space (s ++ tail)%string = None -> after_space s = None.
Proof.
  destruct (after_space s) as [rest|] eqn:Hs; [|reflexivity].
  rewrite (after_space_append _ _ tail Hs). discriminate.
Qed.

Lemma rstrip_idempotent (s : string) : Py.rstrip (Py.rstrip s) = Py.rstrip s.
Proof.
  induction s as [|c s IH]; [reflexivity|].
  rewrite (rstrip_step c s).
  destruct (Py.lstrip (String c s)) as [|c' t] eqn:Hs; [reflexivity|].
  rewrite rstrip_step.
  destruct (Py.lstrip (String c (Py.rstrip s))) as [|c'' t'] eqn:Hr.
  - exfalso. destruct (rstrip_cut s) as (blank & Heq & Hblank).
    assert (Hall : Py.lstrip (String c s) = "").
    { rewrite Heq at 1.
      change (String c (Py.rstrip s ++ blank)%string)
        with (String c (Py.rstrip s) ++ blank)%string.
      rewrite (lstrip_blank_append _ _ Hr). exact Hblank. }
    congruence.
  - now rewrite IH.
Qed.

Lemma strip_idempotent (s : string) : Py.strip (Py.strip s) = Py.strip s.
Proof.
  unfold Py.strip.
  pose proof (lstrip_starts s) as Hstart.
  destruct (rstrip_cut (Py.lstrip s)) as (blank & Heq & _).
  rewrite Heq in Hstart. apply after_space_prefix in Hstart.
  rewrite (lstrip_fixed _ Hstart). apply rstrip_idempotent.
Qed.

Lemma filter_nil_iff {A : Type} (f : A -> bool) (l : list A) :
  filter f l = [] <-> forall x, In x l -> f x = false.
Proof.
  induction l as [|a l IH]; simpl.
  - split; [intros _ x [] | reflexivity].
  - destruct (f a) eqn:Ha; split.
    + discriminate.
    + intros Hall. specialize (Hall a (or_introl eq_refl)). congruence.
    + intros Hnil x [<-|Hx]; [exact Ha | now apply IH].
    + intros Hall. apply IH. intros x Hx. apply Hall. now right.
Qed.

Lemma find_none_iff {A : Type} (f : A -> bool) (l : list A) :
  find f l = None <-> forall x, In x l -> f x = false.
Proof.
  split; [apply find_none|].
  intros Hall. destruct (find f l) as [x|] eqn:Hfind; [|reflexivity].
  apply find_some in Hfind. destruct Hfind as (Hin & Hx).
  rewrite (Hall x Hin) in Hx. discriminate.
Qed.

(** The same gate with another allowlist. *)
Definition with_allowlist (gate : SafetyGate.t) (allowlist : list string)
  : SafetyGate.t :=
  SafetyGate.mkSafetyGate
    (SafetyGate.blocked_keywords gate) (SafetyGate.blocked_patterns gate)
    allowlist
    (SafetyGate.max_query_length gate) (SafetyGate.min_query_length gate).

Section GateFacts.

Context {U : Py.Unicode}.

Import Py SafetyGate.

Variable re_search : string -> string -> bool.

(** X1.  [check] lets a query pass exactly when, after stripping, it is
    not empty, its length in characters is within the two bounds, the
    lower-cased text of no blocked keyword occurs in its lower-cased
    text, and no blocked pattern matches it. *)
Theorem check_passes_iff (gate : SafetyGate.t) (query : string) :
  passed (check re_search gate query) = true <->
  strip query <> "" /\
  (min_query_length gate <= Z.of_nat (len (strip query))
   <= max_query_length gate)%Z /\
  (forall keyword, In keyword (blocked_keywords gate) ->
     contains (lower keyword) (lower (strip query)) = false) /\
  (forall pattern, In pattern (blocked_patterns gate) ->
     re_search pattern (strip query) = false).
Proof.
  unfold check.
  destruct (truthy_str query) eqn:Hq.
  2:{ destruct query; [|discriminate]. simpl. split; [discriminate|].
      intros (Hne & _). now contradiction Hne. }
  destruct (truthy_str (strip query)) eqn:Hs; simpl negb; simpl orb; cbv iota.
  2:{ simpl. split; [discriminate|]. intros (Hne & _).
      apply truthy_str_iff in Hne. congruence. }
  apply truthy_str_iff in Hs.
  destruct (Z.of_nat (len (strip query)) <? min_query_length gate)%Z eqn:Hmin.
  { apply Z.ltb_lt in Hmin. simpl. split; [discriminate|]. intros (_ & Hb & _). lia. }
  apply Z.ltb_ge in Hmin.
  destruct (max_query_length gate <? Z.of_nat (len (strip query)))%Z eqn:Hmax.
  { apply Z.ltb_lt in Hmax. simpl. split; [discriminate|]. intros (_ & Hb & _). lia. }
  apply Z.ltb_ge in Hmax.
  destruct (find (fun keyword => contains (lower keyword) (lower (strip query)))
              (blocked_keywords gate)) as [keyword|] eqn:Hkw.
  { simpl. split; [discriminate|]. intros (_ & _ & Hnone & _).
    apply find_some in Hkw. destruct Hkw as (Hin & Hhit).
    rewrite (Hnone keyword Hin) in Hhit. discriminate. }
  rewrite find_none_iff in Hkw.
  destruct (filter (fun pattern => re_search pattern (strip query))
              (blocked_patterns gate)) as [|p ps] eqn:Hpat.
  - rewrite filter_nil_iff in Hpat. simpl truthy_list. cbv iota.
    split.
    + intros _. repeat split; try assumption; lia.
    + intros _. now destruct (existsb _ (allowlist_patterns gate)).
  - simpl. split; [discriminate|]. intros (_ & _ & _ & Hnone).
    assert (Hp : In p (filter (fun pattern => re_search pattern (strip query))
                         (blocked_patterns gate))) by (rewrite Hpat; now left).
    apply filter_In in Hp. destruct Hp as (Hin & Hhit).
    rewrite (Hnone p Hin) in Hhit. discriminate.
Qed.

(** X2.  White space around a query does not change the result of
    [check]. *)
Theorem check_ignores_outer_whitespace (gate : SafetyGate.t) (query : string) :
  check re_search gate (strip query) = check re_search gate query.
Proof.
  unfold check. rewrite strip_idempotent.
  destruct query as [|c q]; [reflexivity|].
  simpl (truthy_str (String c q)). simpl negb at 3.
  now destruct (truthy_str (strip (String c q))).
Qed.

(** X3.  Every entry of [matched_patterns] names a rule that fired: a
    blocked keyword the stripped query contains, or a blocked pattern
    that matches it; and a result with such an entry is a block. *)
Theorem block_names_rules_that_fired (gate : SafetyGate.t) (query rule : string) :
  In rule (matched_patterns (check re_search gate query)) ->
  passed (check re_search gate query) = false /\
  ((In rule (blocked_keywords gate) /\
    contains (lower rule) (lower (strip query)) = true) \/
   (In rule (blocked_patterns gate) /\ re_search rule (strip query) = true)).
Proof.
  unfold check.
  destruct (negb (truthy_str query) || negb (truthy_str (strip query)));
    [intros []|].
  destruct (Z.of_nat (len (strip query)) <? min_query_length gate)%Z;
    [intros []|].
  destruct (max_query_length gate <? Z.of_nat (len (strip query)))%Z;
    [intros []|].
  destruct (find (fun keyword => contains (lower keyword) (lower (strip query)))
              (blocked_keywords gate)) as [keyword|] eqn:Hkw.
  - simpl. intros [<-|[]]. apply find_some in Hkw. split; [reflexivity|]. now left.
  - destruct (filter (fun pattern => re_search pattern (strip query))
                (blocked_patterns gate)) as [|p ps] eqn:Hpat.
    + simpl truthy_list. cbv iota.
      destruct (existsb _ (allowlist_patterns gate)); intros [].
    + simpl truthy_list. cbv iota. simpl passed. simpl matched_patterns.
      rewrite <- Hpat. intros Hin. apply filter_In in Hin.
      split; [reflexivity|]. now right.
Qed.

(** X4.  The allowlist has no say in the verdict: with any other
    allowlist, [check] passes the same queries and reports the same
    matched rules. *)
Theorem allowlist_never_changes_verdict
    (gate : SafetyGate.t) (allowlist : list string) (query : string) :
  passed (check re_search (with_allowlist gate allowlist) query) =
    passed (check re_search gate query) /\
  matched_patterns (check re_search (with_allowlist gate allowlist) query) =
    matched_patterns (check re_search gate query).
Proof.
  unfold check, with_allowlist. simpl.
  destruct (negb (truthy_str query) || negb (truthy_str (strip query)));
    [split; reflexivity|].
  destruct (Z.of_nat (len (strip query)) <? min_query_length gate)%Z;
    [split; reflexivity|].
  destruct (max_query_length gate <? Z.of_nat (len (strip query)))%Z;
    [split; reflexivity|].
  destruct (find _ (blocked_keywords gate)); [split; reflexivity|].
  destruct (truthy_list _); [split; reflexivity|].
  destruct (existsb _ allowlist); destruct (existsb _ (allowlist_patterns gate));
    split; reflexivity.
Qed.

End GateFacts.

Section GateFactsExamples.

#[local] Existing Instance Py.ascii_text.

Lemma block_names_rules_that_fired_witness :
  SafetyGate.passed
    (SafetyGate.check literal_search gate_default "Tell me HOW TO MAKE A BOMB") = false /\
  ((In "how to make a bomb" (SafetyGate.blocked_keywords gate_default) /\
    Py.contains (Py.lower "how to make a bomb")
      (Py.lower (Py.strip "Tell me HOW TO MAKE A BOMB")) = true) \/
   (In "how to make a bomb" (SafetyGate.blocked_patterns gate_default) /\
    literal_search "how to make a bomb" (Py.strip "Tell me HOW TO MAKE A BOMB") = true)).
Proof.
  apply (block_names_rules_that_fired literal_search gate_default
           "Tell me HOW TO MAKE A BOMB" "how to make a bomb").
  vm_compute. now left.
Defined.

End GateFactsExamples.

(* ================================================================== *)
(** ** The selector: how it ends *)
(* ================================================================== *)

Lemma feq_nan_r (a b : float) : PrimFloat.is_nan b = true -> Py.feq a b = false.
Proof.
  unfold PrimFloat.is_nan, Py.feq. rewrite !eqb_spec. unfold SFeqb. intros Hb.
  assert (Hnan : Prim2SF b = S754_nan).
  { destruct (Prim2SF b) as [s|s| |s m e] eqn:E; try reflexivity; exfalso;
      rewrite SFcompare_refl in Hb by discriminate; discriminate. }
  rewrite Hnan. now destruct (Prim2SF a).
Qed.

Section SelectorOutcomes.

Context {U : Py.Unicode}.

Import Py Selector.

Variable render_reasoning : string -> dict float -> list string -> string.

(** The ways [_select_best] can end once there is an evaluation. *)
Lemma select_best_cases (responses : list AgentResponse)
    (evaluations : list JudgeEvaluation) :
  evaluations <> [] ->
  exists best,
    max (values (averages evaluations)) = Ok best /\
    ((PrimFloat.is_nan best = true /\
      select_best render_reasoning responses evaluations = Raise IndexError) \/
     (PrimFloat.is_nan best = false /\
      exists aid, In aid (top_agents (averages evaluations) best) /\
        match find (fun r => String.eqb (agent_id r) aid) responses with
        | Some r =>
            select_best render_reasoning responses evaluations =
            Ok (r, PrimFloat.div best 10%float,
                render_reasoning (agent_type r) (averages evaluations)
                  (item_or_empty (collect_issues evaluations) aid))
        | None =>
            match responses with
            | [] => select_best render_reasoning responses evaluations = Raise IndexError
            | r0 :: _ =>
                select_best render_reasoning responses evaluations =
                Ok (r0, PrimFloat.div best 10%float,
                    render_reasoning (agent_type r0) (averages evaluations)
                      (item_or_empty (collect_issues evaluations) aid))
            end
        end)).
Proof.
  intros Hevals.
  pose proof (averages_nonempty evaluations Hevals) as Hne.
  unfold select_best. fold (averages evaluations).
  destruct (max (values (averages evaluations))) as [best|e] eqn:Hmax.
  2:{ exfalso. destruct (averages evaluations); [congruence | discriminate]. }
  exists best. split; [reflexivity|]. simpl bind.
  destruct (PrimFloat.is_nan best) eqn:Hnan.
  - left. split; [reflexivity|].
    replace (top_agents (averages evaluations) best) with (@nil string); [reflexivity|].
    symmetry. unfold top_agents.
    replace (filter (fun kv => feq (snd kv) best) (averages evaluations))
      with (@nil (string * float)); [reflexivity|].
    symmetry. apply filter_nil_iff. intros kv _. now apply feq_nan_r.
  - right. split; [reflexivity|].
    assert (Htop : top_agents (averages evaluations) best <> []).
    { apply max_in in Hmax. apply in_map_iff in Hmax.
      destruct Hmax as ([k v] & Hv & Hin). simpl in Hv. subst v.
      intros Hnil.
      assert (Hk : In k (top_agents (averages evaluations) best)).
      { unfold top_agents. change k with (fst (k, best)).
        apply in_map. apply filter_In. split; [exact Hin|].
        simpl. now apply feq_refl. }
      rewrite Hnil in Hk. contradiction. }
    destruct (top_agents (averages evaluations) best) as [|a top] eqn:Ht;
      [congruence|].
    unfold tie_break.
    destruct (find is_safety_advocate (a :: top)) as [aid|] eqn:Hfind; simpl bind.
    + exists aid. split; [now apply find_some in Hfind|].
      unfold response_of.
      destruct (find (fun r => String.eqb (agent_id r) aid) responses) as [r|];
        [reflexivity|]. now destruct responses.
    + exists a. split; [now left|].
      unfold response_of.
      destruct (find (fun r => String.eqb (agent_id r) a) responses) as [r|];
        [reflexivity|]. now destruct responses.
Qed.

Lemma select_best_nil (responses : list AgentResponse) :
  select_best render_reasoning responses [] = Raise ValueError.
Proof. reflexivity. Qed.

(** The selector returns one of the responses it was given. *)
Lemma select_best_member (responses : list AgentResponse)
    (evaluations : list JudgeEvaluation)
    (selected : AgentResponse) (confidence : float) (why : string) :
  select_best render_reasoning responses evaluations = Ok (selected, confidence, why) ->
  In selected responses.
Proof.
  intros Hsel.
  destruct evaluations as [|ev evs]; [rewrite select_best_nil in Hsel; discriminate|].
  destruct (select_best_cases responses (ev :: evs)) as (best & _ & Hcases);
    [discriminate|].
  destruct Hcases as [(_ & Hraise)|(_ & aid & _ & Hcase)]; [congruence|].
  destruct (find (fun r => String.eqb (agent_id r) aid) responses) as [r|] eqn:Hfind.
  - rewrite Hcase in Hsel. inversion Hsel; subst. now apply find_some in Hfind.
  - destruct responses as [|r0 rs]; rewrite Hcase in Hsel; [discriminate|].
    inversion Hsel; subst. now left.
Qed.

(** X5.  [_select_best] raises [ValueError] exactly when there is no
    evaluation, and [IndexError] exactly when there are evaluations and
    either there is no response or [max] of the averages is not a
    number. *)
Theorem select_best_raises_iff (responses : list AgentResponse)
    (evaluations : list JudgeEvaluation) :
  (select_best render_reasoning responses evaluations = Raise ValueError <->
   evaluations = []) /\
  (select_best render_reasoning responses evaluations = Raise IndexError <->
   evaluations <> [] /\
   (responses = [] \/
    exists best, max (values (averages evaluations)) = Ok best /\
                 PrimFloat.is_nan best = true)).
Proof.
  destruct evaluations as [|ev evs].
  { rewrite select_best_nil. split; split; try congruence.
    intros (H & _). congruence. }
  destruct (select_best_cases responses (ev :: evs)) as (best & Hmax & Hcases);
    [discriminate|].
  destruct Hcases as [(Hnan & Hsel)|(Hnan & aid & _ & Hsel)].
  - rewrite Hsel. split; split; try congruence.
    intros _. split; [discriminate|]. right. now exists best.
  - destruct (find (fun r => String.eqb (agent_id r) aid) responses) as [r|] eqn:Hfind.
    + rewrite Hsel. split; split; try congruence.
      intros (_ & [Hnil|(best' & Hmax' & Hnan')]).
      * subst responses. discriminate.
      * congruence.
    + destruct responses as [|r0 rs]; rewrite Hsel.
      * split; split; try congruence. intros _. split; [discriminate|]. now left.
      * split; split; try congruence.
        intros (_ & [Hnil|(best' & Hmax' & Hnan')]); congruence.
Qed.

(** X6.  What [_select_best] returns is one of the responses it was
    given, with a tenth of the highest average as its confidence.  The
    response is that of an agent whose average equals the highest one,
    or, when the chosen agent has no response, the first response. *)
Theorem select_best_returns_listed_response (responses : list AgentResponse)
    (evaluations : list JudgeEvaluation)
    (selected : AgentResponse) (confidence : float) (why : string) :
  select_best render_reasoning responses evaluations = Ok (selected, confidence, why) ->
  In selected responses /\
  exists best,
    max (values (averages evaluations)) = Ok best /\
    confidence = PrimFloat.div best 10%float /\
    ((exists a, get (averages evaluations) (agent_id selected) = Some a /\
                feq a best = true) \/
     (exists aid rest,
        In aid (top_agents (averages evaluations) best) /\
        (forall r, In r responses -> agent_id r <> aid) /\
        responses = selected :: rest)).
Proof.
  intros Hsel.
  destruct evaluations as [|ev evs]; [rewrite select_best_nil in Hsel; discriminate|].
  destruct (select_best_cases responses (ev :: evs)) as (best & Hmax & Hcases);
    [discriminate|].
  destruct Hcases as [(Hnan & Hraise)|(Hnan & aid & Htop & Hcase)]; [congruence|].
  destruct (find (fun r => String.eqb (agent_id r) aid) responses) as [r|] eqn:Hfind.
  - pose proof (select_best_member _ _ _ _ _ Hsel) as Hin.
    rewrite Hcase in Hsel. inversion Hsel; subst; clear Hsel.
    apply find_some in Hfind. destruct Hfind as (_ & Hid).
    apply String.eqb_eq in Hid.
    split; [exact Hin|]. exists best. split; [exact Hmax|]. split; [reflexivity|].
    left. unfold top_agents in Htop. apply in_map_iff in Htop.
    destruct Htop as ([k a] & Hk & Hkv). simpl in Hk. subst k.
    apply filter_In in Hkv. destruct Hkv as (Hkv & Heq). simpl in Heq.
    exists a. split; [|exact Heq]. rewrite Hid.
    apply get_in_nodup; [apply averages_nodup | exact Hkv].
  - destruct responses as [|r0 rs]; rewrite Hcase in Hsel; [discriminate|].
    inversion Hsel; subst; clear Hsel.
    split; [now left|]. exists best. split; [exact Hmax|]. split; [reflexivity|].
    right. exists aid, rs. split; [exact Htop|]. split; [|reflexivity].
    intros r Hr Hid.
    pose proof (find_none _ _ Hfind r Hr) as Hno. simpl in Hno.
    rewrite Hid, String.eqb_refl in Hno. discriminate.
Qed.

(** X7.  The fallback of the selector: when none of the responses
    belongs to an evaluated agent, the first response is returned, with
    a tenth of the highest average as its confidence. *)
Theorem select_best_falls_back_to_first_response
    (r0 : AgentResponse) (rest : list AgentResponse)
    (evaluations : list JudgeEvaluation) :
  evaluations <> [] -> scorable evaluations ->
  (forall r, In r (r0 :: rest) -> get (averages evaluations) (agent_id r) = None) ->
  exists best why,
    max (values (averages evaluations)) = Ok best /\
    select_best render_reasoning (r0 :: rest) evaluations =
    Ok (r0, PrimFloat.div best 10%float, why).
Proof.
  intros Hevals Hnum Hnone.
  destruct (select_best_cases (r0 :: rest) evaluations Hevals)
    as (best & Hmax & Hcases).
  exists best.
  assert (Hnan : PrimFloat.is_nan best = false).
  { apply max_in in Hmax. apply in_map_iff in Hmax.
    destruct Hmax as (kv & <- & Hin).
    unfold scorable in Hnum. rewrite Forall_forall in Hnum. now apply Hnum. }
  destruct Hcases as [(Hnan' & _)|(_ & aid & Htop & Hcase)]; [congruence|].
  destruct (find (fun r => String.eqb (agent_id r) aid) (r0 :: rest)) as [r|] eqn:Hfind.
  - exfalso. apply find_some in Hfind. destruct Hfind as (Hin & Hid).
    apply String.eqb_eq in Hid. specialize (Hnone r Hin). rewrite Hid in Hnone.
    apply get_none_not_key in Hnone. apply Hnone.
    unfold top_agents in Htop. apply in_map_iff in Htop.
    destruct Htop as (kv & <- & Hkv). apply filter_In in Hkv.
    unfold keys. apply in_map. apply Hkv.
  - eexists. split; [exact Hmax | exact Hcase].
Qed.

End SelectorOutcomes.

Section SelectorOutcomesExamples.

#[local] Existing Instance Py.ascii_text.

Lemma select_best_returns_listed_response_witness :
  In resp_analytical [resp_analytical; resp_creative; resp_pragmatist] /\
  exists best,
    Py.max (Py.values (averages evals_two_judges)) = Py.Ok best /\
    PrimFloat.div 9 10 = PrimFloat.div best 10%float /\
    ((exists a, Py.get (averages evals_two_judges) (agent_id resp_analytical) = Some a /\
                Py.feq a best = true) \/
     (exists aid rest,
        In aid (Selector.top_agents (averages evals_two_judges) best) /\
        (forall r, In r [resp_analytical; resp_creative; resp_pragmatist] ->
                   agent_id r <> aid) /\
        [resp_analytical; resp_creative; resp_pragmatist] = resp_analytical :: rest)).
Proof.
  apply (select_best_returns_listed_response plain_rationale
           [resp_analytical; resp_creative; resp_pragmatist] evals_two_judges
           resp_analytical (PrimFloat.div 9 10) "Selected Analytical Agent").
  vm_compute. reflexivity.
Defined.

(** The evaluations are about two agents, the only response is a third
    agent's. *)
Lemma select_best_falls_back_witness :
  exists best why,
    Py.max (Py.values (averages evals_two_judges)) = Py.Ok best /\
    Selector.select_best plain_rationale [resp_pragmatist] evals_two_judges =
    Py.Ok (resp_pragmatist, PrimFloat.div best 10%float, why).
Proof.
  apply (select_best_falls_back_to_first_response plain_rationale
           resp_pragmatist [] evals_two_judges).
  - discriminate.
  - unfold scorable. vm_compute. repeat constructor.
  - intros r [<-|[]]. vm_compute. reflexivity.
Defined.

End SelectorOutcomesExamples.

(* ================================================================== *)
(** ** The feedback of the judges on the selected response *)
(* ================================================================== *)

Lemma concat_nonempty (sep x : string) (xs : list string) :
  x <> "" -> String.concat sep (x :: xs) <> "".
Proof.
  intros Hx. destruct x as [|c x]; [congruence|].
  destruct xs; simpl; discriminate.
Qed.

Lemma flat_map_nil_iff {A B : Type} (f : A -> list B) (l : list A) :
  flat_map f l = [] <-> forall x, In x l -> f x = [].
Proof.
  induction l as [|a l IH]; simpl.
  - split; [intros _ x [] | reflexivity].
  - split.
    + intros H. apply app_eq_nil in H. destruct H as (Ha & Hl).
      intros x [<-|Hx]; [exact Ha | now apply IH].
    + intros Hall. rewrite (Hall a (or_introl eq_refl)). simpl.
      apply IH. intros x Hx. apply Hall. now right.
Qed.

Lemma feedback_part_nil_iff (ev : JudgeEvaluation) :
  feedback_part ev = [] <-> flagged_issues ev = [] /\ reasoning ev = "".
Proof.
  unfold feedback_part.
  destruct (flagged_issues ev) as [|issue issues]; simpl.
  - destruct (reasoning ev); simpl; split; try tauto; try discriminate.
    intros (_ & H). discriminate.
  - split; [discriminate|]. intros (H & _). discriminate.
Qed.

Lemma feedback_part_nonempty (ev : JudgeEvaluation) (part : string) :
  In part (feedback_part ev) -> part <> "".
Proof.
  unfold feedback_part.
  destruct (Py.truthy_list (flagged_issues ev));
    [|destruct (Py.truthy_str (reasoning ev))];
    simpl; intros H; try contradiction;
    destruct H as [<-|[]]; destruct (judge_type ev); discriminate.
Qed.

(** X8.  The feedback on the selected response is empty exactly when no
    evaluation of that response has a flagged issue or a reasoning
    text. *)
Theorem feedback_empty_iff (evaluations : list JudgeEvaluation)
    (selected : AgentResponse) :
  get_judge_feedback evaluations selected = "" <->
  forall ev, In ev evaluations -> target_agent_id ev = agent_id selected ->
             flagged_issues ev = [] /\ reasoning ev = "".
Proof.
  unfold get_judge_feedback.
  set (part := fun ev => if String.eqb (target_agent_id ev) (agent_id selected)
                         then feedback_part ev else []).
  destruct (flat_map part evaluations) as [|p ps] eqn:Hparts.
  - simpl. split; [|reflexivity]. intros _ ev Hin Htarget.
    rewrite flat_map_nil_iff in Hparts. specialize (Hparts ev Hin).
    unfold part in Hparts. apply String.eqb_eq in Htarget. rewrite Htarget in Hparts.
    now apply feedback_part_nil_iff.
  - simpl Py.truthy_list. cbv iota.
    assert (Hp : In p (flat_map part evaluations)) by (rewrite Hparts; now left).
    apply in_flat_map in Hp. destruct Hp as (ev & Hin & Hpart). unfold part in Hpart.
    destruct (String.eqb (target_agent_id ev) (agent_id selected)) eqn:Htarget;
      [|contradiction].
    apply String.eqb_eq in Htarget.
    split.
    + intros Hempty. exfalso.
      apply (concat_nonempty " | " p ps); [|exact Hempty].
      now apply (feedback_part_nonempty ev).
    + intros Hall. exfalso. apply (Hall ev Hin) in Htarget.
      apply feedback_part_nil_iff in Htarget. rewrite Htarget in Hpart.
      contradiction.
Qed.

(* ================================================================== *)
(** ** The risks collected from the evaluations *)
(* ================================================================== *)

(** What the first-seen loop appends to [seen]: the new keys, each once. *)
Lemma first_seen_from_spec (seen ks : list string) :
  exists fresh,
    first_seen_from seen ks = seen ++ fresh /\
    NoDup fresh /\
    forall k, In k fresh <-> In k ks /\ ~ In k seen.
Proof.
  revert seen. induction ks as [|x ks IH]; intros seen.
  - exists []. rewrite app_nil_r. split; [reflexivity|]. split; [constructor|].
    simpl. tauto.
  - unfold first_seen_from. simpl.
    destruct (Py.mem x seen) eqn:Hmem.
    + apply mem_in in Hmem. destruct (IH seen) as (fresh & Heq & Hnd & Hin).
      exists fresh. split; [exact Heq|]. split; [exact Hnd|].
      intros k. rewrite Hin. simpl. split; [tauto|].
      intros ([<-|Hk] & Hnot); tauto.
    + assert (Hx : ~ In x seen) by (rewrite <- mem_in; congruence).
      destruct (IH (seen ++ [x])) as (fresh & Heq & Hnd & Hin).
      exists (x :: fresh). split.
      * unfold first_seen_from in Heq. rewrite Heq, <- app_assoc. reflexivity.
      * split.
        -- constructor; [|exact Hnd]. intros Hfresh. apply Hin in Hfresh.
           apply (proj2 Hfresh). apply in_or_app. right. now left.
        -- intros k. simpl. rewrite Hin, in_app_iff. simpl.
           destruct (string_dec x k) as [<-|Hne]; tauto.
Qed.

Section RiskFacts.

Context {U : Py.Unicode}.

Import Py Risk.

Variable repr_float : float -> string.

Lemma collect_flagged_first_seen (risks : list string)
    (evaluations : list JudgeEvaluation) :
  collect_flagged risks evaluations =
  first_seen_from risks (flat_map flagged_issues evaluations).
Proof.
  revert risks. induction evaluations as [|ev evs IH]; intros risks; [reflexivity|].
  simpl flat_map. rewrite first_seen_from_app. unfold collect_flagged in *. simpl.
  rewrite IH. reflexivity.
Qed.

(** X9.  The risks [_assess_risk] collects are the safety concerns,
    followed by every flagged issue that is not already among them,
    each such issue once. *)
Theorem collected_risks_hold_each_issue_once (evaluations : list JudgeEvaluation) :
  exists flagged,
    collect_risks repr_float evaluations =
      safety_concerns repr_float evaluations ++ flagged /\
    NoDup flagged /\
    forall issue,
      In issue flagged <->
      (exists ev, In ev evaluations /\ In issue (flagged_issues ev)) /\
      ~ In issue (safety_concerns repr_float evaluations).
Proof.
  unfold collect_risks. simpl app. rewrite collect_flagged_first_seen.
  destruct (first_seen_from_spec (safety_concerns repr_float evaluations)
              (flat_map flagged_issues evaluations)) as (fresh & Heq & Hnd & Hin).
  exists fresh. split; [exact Heq|]. split; [exact Hnd|].
  intros issue. rewrite Hin, in_flat_map. reflexivity.
Qed.

End RiskFacts.

(* ================================================================== *)
(** ** The two readings of judge disagreement *)
(* ================================================================== *)

Lemma set_fresh {V : Type} (d : Py.dict V) (k : string) (v : V) :
  ~ In k (Py.keys d) -> Py.set d k v = d ++ [(k, v)].
Proof.
  induction d as [|[k' v'] d IH]; simpl; intros Hk; [reflexivity|].
  destruct (String.eqb_spec k k') as [->|Hne]; [tauto|].
  rewrite IH; tauto.
Qed.

Section DisagreementDetails.

Import Py Judges.

Variable threshold : float.

(** The entry the second loop of [get_disagreement_details] writes for
    one agent, if any. *)
Definition detail_of (item : string * dict float)
  : list (string * AgentDisagreement) :=
  if (2 <=? List.length (snd item))%nat then
    match max (values (snd item)), min (values (snd item)) with
    | Ok hi, Ok lo =>
        [(fst item,
          mkAgentDisagreement (snd item) (PrimFloat.sub hi lo)
            (fgt (PrimFloat.sub hi lo) threshold))]
    | _, _ => []
    end
  else [].

Lemma detail_of_key (item : string * dict float) :
  keys (detail_of item) =
  if (2 <=? List.length (snd item))%nat then [fst item] else [].
Proof.
  unfold detail_of. destruct (2 <=? List.length (snd item))%nat eqn:Hlen;
    [|reflexivity].
  destruct item as [k [|[j1 s1] [|[j2 s2] rest]]]; simpl in Hlen;
    try discriminate. reflexivity.
Qed.

Lemma detail_of_significant (item : string * dict float) :
  existsb entry_significant (values (detail_of item)) =
  significant threshold (snd item).
Proof.
  unfold detail_of, significant.
  destruct (2 <=? List.length (snd item))%nat; [|reflexivity].
  destruct (max (values (snd item))); [|reflexivity].
  destruct (min (values (snd item))); [|reflexivity].
  simpl. apply orb_false_r.
Qed.

Lemma detail_fold (items : dict (dict float))
    (disagreements : dict AgentDisagreement) (has_any : bool) :
  NoDup (keys disagreements ++ keys items) ->
  fold_left (detail_step threshold) items (disagreements, has_any) =
  (disagreements ++ flat_map detail_of items,
   has_any || existsb (fun kv => significant threshold (snd kv)) items).
Proof.
  revert disagreements has_any.
  induction items as [|[k scores] items IH]; intros disagreements has_any Hnd.
  - simpl. now rewrite app_nil_r, orb_false_r.
  - assert (Hk : ~ In k (keys disagreements)).
    { simpl in Hnd. apply NoDup_remove_2 in Hnd. intros H. apply Hnd.
      apply in_or_app. now left. }
    change (fold_left (detail_step threshold) items
              (detail_step threshold (disagreements, has_any) (k, scores)) =
            (disagreements ++ detail_of (k, scores) ++ flat_map detail_of items,
             has_any || (significant threshold scores
                         || existsb (fun kv => significant threshold (snd kv)) items))).
    assert (Hrest : NoDup (keys disagreements ++ keys items)).
    { simpl in Hnd. now apply NoDup_remove_1 in Hnd. }
    unfold detail_step, detail_of, significant. simpl fst. simpl snd.
    destruct (2 <=? List.length scores)%nat; [|now rewrite IH].
    destruct (max (values scores)) as [hi|]; [|now rewrite IH].
    destruct (min (values scores)) as [lo|]; [|now rewrite IH].
    rewrite (set_fresh _ _ _ Hk). rewrite IH.
    + rewrite <- app_assoc. simpl.
      destruct (fgt (PrimFloat.sub hi lo) threshold); simpl;
        [now rewrite orb_true_r | reflexivity].
    + unfold keys in *. rewrite map_app. simpl. rewrite <- app_assoc. exact Hnd.
Qed.

(** X10.  The summary flag of [get_disagreement_details] is the result
    of [check_judge_disagreement] for the same threshold; it is set
    exactly when an entry of ["by_agent"] is marked significant; and
    ["by_agent"] lists the agents that two or more judge types scored,
    in the order of their first evaluation. *)
Theorem details_agree_with_check (evaluations : list JudgeEvaluation) :
  let details := get_disagreement_details evaluations threshold in
  has_significant_disagreement details =
    check_judge_disagreement evaluations threshold /\
  has_significant_disagreement details =
    existsb entry_significant (values (by_agent details)) /\
  keys (by_agent details) =
    keys (filter (fun kv => (2 <=? List.length (snd kv))%nat)
                 (judge_scores evaluations)).
Proof.
  cbv zeta. unfold get_disagreement_details.
  rewrite detail_fold by (simpl; apply judge_scores_nodup).
  simpl. unfold check_judge_disagreement.
  split; [reflexivity|].
  generalize (judge_scores evaluations). intros items.
  split.
  - induction items as [|item items IH]; [reflexivity|].
    simpl. unfold values in *. rewrite map_app, existsb_app.
    rewrite <- IH. f_equal. symmetry. apply detail_of_significant.
  - induction items as [|item items IH]; [reflexivity|].
    cbn [flat_map filter]. unfold keys in *. rewrite map_app.
    change (map fst (detail_of item)) with (keys (detail_of item)).
    rewrite detail_of_key, IH.
    now destruct item as [k [|s1 [|s2 rest]]].
Qed.

End DisagreementDetails.

Lemma first_seen_nodup (ks : list string) : NoDup (first_seen ks).
Proof.
  unfold first_seen. destruct (first_seen_from_spec [] ks) as (fresh & -> & Hnd & _).
  exact Hnd.
Qed.

(** X11.  Evaluations that never give one agent scores of two different
    judge types do not count as disagreement, whatever the threshold: a
    later score of the same judge type replaces the earlier one. *)
Theorem one_judge_type_never_disagrees
    (evaluations : list JudgeEvaluation) (threshold : float) :
  (forall ev ev', In ev evaluations -> In ev' evaluations ->
     target_agent_id ev = target_agent_id ev' -> judge_type ev = judge_type ev') ->
  Judges.check_judge_disagreement evaluations threshold = false.
Proof.
  intros Hsame. apply not_true_is_false. intros Hflag.
  unfold Judges.check_judge_disagreement in Hflag. rewrite existsb_exists in Hflag.
  destruct Hflag as ([agent scores] & Hin & Hsig). simpl in Hsig.
  apply significant_spec in Hsig. destruct Hsig as (Hlen & _).
  rewrite (judge_scores_entry _ _ _ Hin) in Hlen.
  unfold judge_totals in Hlen. rewrite length_map in Hlen.
  pose proof (first_seen_nodup
                (map judge_type (hits target_agent_id agent evaluations))) as Hnd.
  fold (judges_of evaluations agent) in Hnd.
  assert (Hjudges : forall j, In j (judges_of evaluations agent) ->
            exists ev, In ev evaluations /\ target_agent_id ev = agent /\
                       judge_type ev = j).
  { intros j Hj. unfold judges_of, first_seen in Hj.
    apply first_seen_from_incl in Hj. destruct Hj as [[]|Hj].
    apply in_map_iff in Hj. destruct Hj as (ev & Hjt & Hev).
    unfold hits in Hev. apply filter_In in Hev. destruct Hev as (Hev & Ht).
    apply String.eqb_eq in Ht. now exists ev. }
  destruct (judges_of evaluations agent) as [|j1 [|j2 js]];
    simpl in Hlen; try lia.
  destruct (Hjudges j1 (or_introl eq_refl)) as (ev1 & Hin1 & Ht1 & Hj1).
  destruct (Hjudges j2 (or_intror (or_introl eq_refl))) as (ev2 & Hin2 & Ht2 & Hj2).
  assert (Heq : j1 = j2).
  { rewrite <- Hj1, <- Hj2. apply Hsame; congruence. }
  inversion Hnd as [|? ? Hnot _]; subst. apply Hnot. now left.
Qed.

(** One judge type, scores far apart, two agents. *)
Lemma one_judge_type_never_disagrees_witness :
  Judges.check_judge_disagreement
    [ eval_of "Safety" "agent_analytical" 9 [];
      eval_of "Safety" "agent_creative" 2 [];
      eval_of "Safety" "agent_analytical" 1 [] ] 3 = false.
Proof.
  apply (one_judge_type_never_disagrees
           [ eval_of "Safety" "agent_analytical" 9 [];
             eval_of "Safety" "agent_creative" 2 [];
             eval_of "Safety" "agent_analytical" 1 [] ] 3).
  intros ev ev' Hev Hev' _. simpl in Hev, Hev'.
  destruct Hev as [<-|[<-|[<-|[]]]]; destruct Hev' as [<-|[<-|[<-|[]]]]; reflexivity.
Defined.

(* ================================================================== *)
(** ** Citations: nothing found is lost, and extraction is stable *)
(* ================================================================== *)

Section CitationFacts.

Context {U : Py.Unicode}.

Import Py Citations.

Lemma firstn_short {A : Type} (n : nat) (l : list A) :
  (List.length (firstn n l) < n)%nat -> firstn n l = l.
Proof.
  intros Hlen. apply firstn_all2.
  rewrite length_firstn in Hlen. lia.
Qed.

(** A list that is already free of case-insensitive duplicates passes
    the loop unchanged. *)
Lemma keep_new_fold_distinct (citations seen unique : list string) :
  (forall s, In s seen <-> In s (map lower unique)) ->
  NoDup (map lower (unique ++ citations)) ->
  snd (fold_left keep_new citations (seen, unique)) = unique ++ citations.
Proof.
  revert seen unique. induction citations as [|c cs IH]; intros seen unique Hseen Hnd.
  - simpl. now rewrite app_nil_r.
  - change (fold_left keep_new (c :: cs) (seen, unique))
      with (fold_left keep_new cs (keep_new (seen, unique) c)).
    unfold keep_new.
    assert (Hnew : mem (lower c) seen = false).
    { apply not_true_is_false. intros Hmem. apply mem_in in Hmem. apply Hseen in Hmem.
      rewrite map_app in Hnd. simpl in Hnd. apply NoDup_remove_2 in Hnd.
      apply Hnd. apply in_or_app. now left. }
    rewrite Hnew.
    replace (unique ++ c :: cs) with ((unique ++ [c]) ++ cs)
      by (rewrite <- app_assoc; reflexivity).
    apply IH.
    + intros s. rewrite map_app, in_app_iff. simpl. rewrite <- Hseen. tauto.
    + rewrite <- app_assoc. exact Hnd.
Qed.

Lemma dedupe_distinct (citations : list string) :
  NoDup (map lower citations) -> dedupe citations = citations.
Proof.
  intros Hnd. unfold dedupe.
  apply (keep_new_fold_distinct citations [] []); simpl; tauto.
Qed.

Variable re_findall : string -> bool -> string -> list string.

(** X12.  No kind of citation is lost before the cut at ten: when
    fewer than ten citations are returned, every citation found in the
    text equals a returned one up to case. *)
Theorem every_found_citation_is_represented (text c : string) :
  (List.length (extract_citations re_findall text) < 10)%nat ->
  In c (raw_citations re_findall text) ->
  exists kept, In kept (extract_citations re_findall text) /\ lower kept = lower c.
Proof.
  unfold extract_citations. intros Hlen Hc.
  rewrite (firstn_short _ _ Hlen).
  destruct (dedupe_spec (raw_citations re_findall text))
    as (seen & [Hseen Hread _ _ _]).
  apply Hread in Hc. apply Hseen in Hc. apply in_map_iff in Hc.
  destruct Hc as (kept & Heq & Hin). now exists kept.
Qed.

(** X13.  Extraction is stable: de-duplicating and cutting its result
    again gives the same list. *)
Theorem extracted_citations_are_stable (text : string) :
  firstn 10 (dedupe (extract_citations re_findall text)) =
  extract_citations re_findall text.
Proof.
  unfold extract_citations.
  destruct (dedupe_spec (raw_citations re_findall text))
    as (seen & [_ _ Hnd _ _]).
  rewrite dedupe_distinct.
  - apply firstn_all2. rewrite length_firstn. lia.
  - rewrite <- firstn_map. now apply NoDup_firstn.
Qed.

End CitationFacts.

(** A text in which the URL pattern finds one address twice, in two
    spellings, and the phrase patterns find nothing. *)
Definition findall_twice (pattern : string) (ignore_case : bool) (text : string)
  : list string :=
  if String.eqb pattern Citations.url_pattern
  then ["https://example.org/a"; "https://EXAMPLE.org/a"] else [].

Section CitationFactsExamples.

#[local] Existing Instance Py.ascii_text.

Lemma every_found_citation_is_represented_witness :
  exists kept,
    In kept (Citations.extract_citations findall_twice "see the links") /\
    Py.lower kept = Py.lower "https://EXAMPLE.org/a".
Proof.
  apply (every_found_citation_is_represented findall_twice "see the links"
           "https://EXAMPLE.org/a").
  - vm_compute. lia.
  - vm_compute. right. now left.
Defined.

End CitationFactsExamples.

(* ================================================================== *)
(** ** The score table of a decision *)
(* ================================================================== *)

(** X14.  [get_agent_scores] has one row for every agent that was
    evaluated, in the order of the agents' first evaluations, and the
    row of an agent is the mean of the totals of its evaluations, summed
    in evaluation order. *)
Theorem agent_scores_are_per_agent_means (d : Decision) :
  Py.keys (get_agent_scores d) =
    first_seen (map target_agent_id (judge_evaluations d)) /\
  forall agent,
    Py.get (get_agent_scores d) agent =
    match hits target_agent_id agent (judge_evaluations d) with
    | [] => None
    | evaluations => Some (average (map total_score evaluations))
    end.
Proof.
  split; [apply averages_keys|].
  intros agent. unfold get_agent_scores, average_scores.
  rewrite get_map_values, collect_scores_get.
  now destruct (hits target_agent_id agent (judge_evaluations d)).
Qed.

(* ================================================================== *)
(** ** The weighted total of a judge *)
(* ================================================================== *)

Lemma fold_left_ext_in {A B : Type} (f g : A -> B -> A) (l : list B) (a : A) :
  (forall acc x, In x l -> f acc x = g acc x) ->
  fold_left f l a = fold_left g l a.
Proof.
  revert a. induction l as [|x l IH]; intros a Hext; [reflexivity|].
  simpl. rewrite (Hext a x (or_introl eq_refl)).
  apply IH. intros acc y Hy. apply Hext. now right.
Qed.

(** X15.  The weighted total depends on the scores of the judge's own
    rubric dimensions only: two score tables that agree on them give
    the same total. *)
Theorem weighted_score_reads_rubric_dimensions_only
    (judge : Judge) (scores scores' : Py.dict float) :
  (forall dim, In dim (Py.keys (dimensions judge)) ->
     Py.get scores dim = Py.get scores' dim) ->
  calculate_weighted_score judge scores = calculate_weighted_score judge scores'.
Proof.
  intros Hsame. unfold calculate_weighted_score.
  rewrite (fold_left_ext_in _
             (fun acc dim =>
                let '(total, total_weight) := acc in
                match Py.get scores' (fst dim) with
                | Some score =>
                    let w := match weight (snd dim) with
                             | Some w => w
                             | None => 0.25%float
                             end in
                    (PrimFloat.add total (PrimFloat.mul score w),
                     PrimFloat.add total_weight w)
                | None => acc
                end)); [reflexivity|].
  intros [total total_weight] dim Hdim.
  rewrite (Hsame (fst dim)); [reflexivity|].
  unfold Py.keys. now apply in_map.
Qed.

(** X16.  A score table without any of the judge's dimensions gives the
    total 0.0. *)
Theorem weighted_score_zero_without_rubric_scores
    (judge : Judge) (scores : Py.dict float) :
  (forall dim, In dim (Py.keys (dimensions judge)) -> Py.get scores dim = None) ->
  calculate_weighted_score judge scores = 0%float.
Proof.
  intros Hnone. unfold calculate_weighted_score.
  rewrite (fold_left_ext_in _ (fun acc _ => acc)).
  - replace (fold_left (fun (acc : float * float) (_ : string * Dimension) => acc)
               (dimensions judge) (0%float, 0%float))
      with (0%float, 0%float); [reflexivity|].
    clear Hnone. induction (dimensions judge) as [|dim dims IH];
      [reflexivity | exact IH].
  - intros [total total_weight] dim Hdim.
    rewrite (Hnone (fst dim)); [reflexivity|].
    unfold Py.keys. now apply in_map.
Qed.

Lemma weighted_score_reads_rubric_dimensions_only_witness :
  calculate_weighted_score
    (mkJudge "judge_factuality" "Factuality"
       [ ("accuracy", mkDimension (Some 0.5%float) "Are the claims correct?");
         ("evidence", mkDimension (Some 0.5%float) "Are the claims supported?") ])
    [ ("accuracy", 8%float); ("evidence", 6%float) ] =
  calculate_weighted_score
    (mkJudge "judge_factuality" "Factuality"
       [ ("accuracy", mkDimension (Some 0.5%float) "Are the claims correct?");
         ("evidence", mkDimension (Some 0.5%float) "Are the claims supported?") ])
    [ ("style", 1%float); ("evidence", 6%float); ("accuracy", 8%float) ].
Proof.
  apply (weighted_score_reads_rubric_dimensions_only
           (mkJudge "judge_factuality" "Factuality"
              [ ("accuracy", mkDimension (Some 0.5%float) "Are the claims correct?");
                ("evidence", mkDimension (Some 0.5%float) "Are the claims supported?") ])
           [ ("accuracy", 8%float); ("evidence", 6%float) ]
           [ ("style", 1%float); ("evidence", 6%float); ("accuracy", 8%float) ]).
  intros dim [<-|[<-|[]]]; reflexivity.
Defined.

Lemma weighted_score_zero_without_rubric_scores_witness :
  calculate_weighted_score
    (mkJudge "judge_safety" "Safety"
       [ ("harm_avoidance", mkDimension (Some 0.75%float) "Could the answer hurt?");
         ("privacy", mkDimension None "Does the answer respect privacy?") ])
    [ ("accuracy", 8%float) ] = 0%float.
Proof.
  apply (weighted_score_zero_without_rubric_scores
           (mkJudge "judge_safety" "Safety"
              [ ("harm_avoidance", mkDimension (Some 0.75%float) "Could the answer hurt?");
                ("privacy", mkDimension None "Does the answer respect privacy?") ])
           [ ("accuracy", 8%float) ]).
  intros dim [<-|[<-|[]]]; reflexivity.
Defined.

(* ================================================================== *)
(** ** The synthesizer *)
(* ================================================================== *)

Lemma length_append (s1 s2 : string) :
  String.length (s1 ++ s2) = (String.length s1 + String.length s2)%nat.
Proof.
  induction s1 as [|c s1 IH]; simpl; [reflexivity | now rewrite IH].
Qed.

Lemma append_suffix_differs (s suffix : string) :
  suffix <> "" -> (s ++ suffix)%string <> s.
Proof.
  intros Hne Heq. apply (f_equal String.length) in Heq.
  rewrite length_append in Heq. destruct suffix; [congruence|]. simpl in Heq. lia.
Qed.

(** X17.  [refine] keeps the winner's temperature.  The live
    synthesizer returns the winner itself exactly when no response has
    another agent's identifier; the mock never does.  Whenever the
    result is not the winner itself, its identifier and type are the
    winner's with the marks "_refined" and " (Refined)". *)
Theorem refine_keeps_or_marks_the_winner (w : World) (use_mock : bool)
    (query : string) (winner : AgentResponse) (all_responses : list AgentResponse)
    (judge_feedback : string) :
  let refined := refine w use_mock query winner all_responses judge_feedback in
  temperature refined = temperature winner /\
  (refined = winner <->
   use_mock = false /\
   forall r, In r all_responses -> agent_id r = agent_id winner) /\
  (refined <> winner ->
   agent_id refined = (agent_id winner ++ "_refined")%string /\
   agent_type refined = (agent_type winner ++ " (Refined)")%string).
Proof.
  cbv zeta. unfold refine.
  set (others := filter (fun r => negb (String.eqb (agent_id r) (agent_id winner)))
                        all_responses).
  assert (Hothers : others = [] <->
                    forall r, In r all_responses -> agent_id r = agent_id winner).
  { unfold others. rewrite filter_nil_iff. split; intros H r Hr.
    - specialize (H r Hr). apply negb_false_iff in H. now apply String.eqb_eq.
    - apply negb_false_iff. apply String.eqb_eq. now apply H. }
  assert (Hmarked : forall text ms,
            mkAgentResponse (agent_id winner ++ "_refined")
              (agent_type winner ++ " (Refined)") text (temperature winner) ms
            <> winner).
  { intros text ms Heq. apply (f_equal agent_id) in Heq. simpl in Heq.
    revert Heq. now apply append_suffix_differs. }
  destruct use_mock.
  - split; [reflexivity|]. split; [|intros _; split; reflexivity].
    split; [intros Heq; now apply Hmarked in Heq | intros (Hmock & _); discriminate].
  - destruct others as [|other others'] eqn:Ho; simpl Py.truthy_list; simpl negb;
      cbv iota.
    + split; [reflexivity|]. split; [|intros Hne; now contradiction Hne].
      split; [intros _; split; [reflexivity | now apply Hothers] | reflexivity].
    + split; [reflexivity|]. split; [|intros _; split; reflexivity].
      split; [intros Heq; now apply Hmarked in Heq|].
      intros (_ & Hall). apply Hothers in Hall. discriminate.
Qed.

(* ================================================================== *)
(** ** Reading the audit log back *)
(* ================================================================== *)

Section ReadingTheLog.

Import AuditLogger.

Variable sha256_hexdigest : string -> string.

(** The file after logging the outcomes of [history], oldest first; each
    outcome comes with the time of its log line. *)
Definition logged (history : list (string * Outcome)) : list json :=
  fold_left (fun file h => fst (log sha256_hexdigest file (fst h) (snd h)))
            history [].

Lemma logged_from (history : list (string * Outcome)) (file : list json) :
  fold_left (fun file h => fst (log sha256_hexdigest file (fst h) (snd h)))
            history file =
  file ++ map (fun h => log_entry sha256_hexdigest (fst h) (snd h)) history.
Proof.
  revert file. induction history as [|h history IH]; intros file; simpl.
  - now rewrite app_nil_r.
  - rewrite IH, <- app_assoc. reflexivity.
Qed.

Lemma log_entry_decision_id (now : string) (o : Outcome) :
  exists fields,
    log_entry sha256_hexdigest now o = JObj fields /\
    Py.get fields "decision_id" = Some (JStr (outcome_id o)).
Proof.
  destruct o; eexists; split; reflexivity.
Qed.

Lemma parsed_lines_of (file : list json) : parsed (lines_of file) = file.
Proof.
  unfold parsed, lines_of. induction file as [|e file IH]; [reflexivity|].
  simpl. now rewrite IH.
Qed.

(** X18.  On a file written by [log], [get_by_id] never fails: it
    returns the entry of the oldest logged outcome with the identifier
    asked for, and [None] when no logged outcome has it. *)
Theorem get_by_id_finds_oldest_logged
    (history : list (string * Outcome)) (decision_id : string) :
  get_by_id (lines_of (logged history)) decision_id =
  Returned
    (option_map (fun h => log_entry sha256_hexdigest (fst h) (snd h))
       (find (fun h => String.eqb (outcome_id (snd h)) decision_id) history)).
Proof.
  unfold logged. rewrite logged_from. simpl app.
  induction history as [|[now o] history IH]; [reflexivity|].
  simpl map. simpl find. unfold lines_of in *. simpl map.
  destruct (log_entry_decision_id now o) as (fields & Hentry & Hid).
  rewrite Hentry. simpl get_by_id. rewrite Hid.
  destruct (String.eqb (outcome_id o) decision_id);
    [simpl; now rewrite Hentry | exact IH].
Qed.

(** X19.  On a file written by [log], [get_recent] with a positive
    limit returns the newest entries first, at most [limit] of them.
    With the limit 0 it returns every entry, and with a negative limit
    every entry but the oldest [-limit]. *)
Theorem get_recent_newest_first (file : list json) (limit : Z) :
  get_recent (lines_of file) limit =
  if (0 <? limit)%Z then firstn (Z.to_nat limit) (rev file)
  else rev (skipn (Z.to_nat (- limit)) file).
Proof.
  unfold get_recent, last_lines, lines_of.
  rewrite length_map, skipn_map. fold (lines_of (skipn
    (Z.to_nat (if (- limit <? 0)%Z
               then Z.max 0 (- limit + Z.of_nat (List.length file))
               else Z.min (- limit) (Z.of_nat (List.length file)))) file)).
  rewrite parsed_lines_of.
  destruct (0 <? limit)%Z eqn:Hpos.
  - apply Z.ltb_lt in Hpos.
    replace (- limit <? 0)%Z with true by (symmetry; apply Z.ltb_lt; lia).
    rewrite firstn_rev. f_equal. f_equal. lia.
  - apply Z.ltb_ge in Hpos.
    replace (- limit <? 0)%Z with false by (symmetry; apply Z.ltb_ge; lia).
    f_equal.
    destruct (Z.leb_spec (- limit) (Z.of_nat (List.length file))) as [Hle|Hgt].
    + f_equal. lia.
    + rewrite !skipn_all2; [reflexivity | lia | lia].
Qed.

End ReadingTheLog.

(* ================================================================== *)
(** ** What a run of the pipeline leaves behind *)
(* ================================================================== *)

(** What the staged mode yields last for an outcome. *)
Definition payload_of (o : Outcome) : Payload :=
  match o with
  | Decided d => FinalPayload d
  | Blocked b => BlockedPayload b
  end.

Lemma min2_capped (x : float) :
  PrimFloat.is_nan (Py.min2 1%float x) = false /\
  Py.flt 1%float (Py.min2 1%float x) = false.
Proof.
  unfold Py.min2, Py.min_from. simpl.
  destruct (Py.flt x 1%float) eqn:Hlt.
  - split; [now apply flt_not_nan in Hlt | now apply flt_asym].
  - split; reflexivity.
Qed.




(** The panel's evaluations pair every judge with every response, judge
    by judge. *)
Lemma panel_pairs (w : World) (js : list Judge) (query : string)
    (responses : list AgentResponse) :
  map (fun ev => (judge_id ev, target_agent_id ev))
      (run_judges_on_responses w js query responses) =
  list_prod (map j_id js) (map agent_id responses).
Proof.
  unfold run_judges_on_responses.
  induction js as [|j js IH]; [reflexivity|].
  simpl. rewrite map_app, IH. f_equal.
  unfold evaluate. rewrite !map_map. reflexivity.
Qed.

Section Pipeline.

Context {U : Py.Unicode}.

Variable w : World.
Variable council : LLMCouncil.

(** The two warnings of the kill switch. *)
Definition low_confidence_warning (confidence : float) : string :=
  "⚠️ LOW CONFIDENCE (" ++ format_percent w confidence
  ++ "): Human review recommended".

Definition disagreement_warning : string :=
  "⚠️ JUDGES DISAGREE: Different judges rated this differently".

(** The kill switch, spelled out. *)
Lemma annotate_risk_spec (evaluations : list JudgeEvaluation) (confidence : float)
    (disagreement : bool) :
  let assessed :=
    Risk.assess_risk (repr_float w) evaluations confidence disagreement in
  let low :=
    Py.flt confidence (confidence_threshold council)
    && negb (risk_eqb (fst assessed) CRITICAL) in
  annotate_risk w council evaluations confidence disagreement =
  (if low && risk_eqb (fst assessed) LOW then MEDIUM else fst assessed,
   snd assessed
   ++ (if low then [low_confidence_warning confidence] else [])
   ++ (if disagreement then [disagreement_warning] else [])).
Proof.
  cbv zeta. unfold annotate_risk.
  destruct (Risk.assess_risk (repr_float w) evaluations confidence disagreement)
    as [level risks]. simpl fst. simpl snd.
  destruct (Py.flt confidence (confidence_threshold council));
    destruct level; destruct disagreement; simpl;
    rewrite <- ?app_assoc, ?app_nil_r; reflexivity.
Qed.

Lemma assess_risk_risks (evaluations : list JudgeEvaluation) (confidence : float)
    (disagreement : bool) :
  snd (Risk.assess_risk (repr_float w) evaluations confidence disagreement) =
  Risk.collect_risks (repr_float w) evaluations.
Proof.
  unfold Risk.assess_risk.
  destruct (existsb _ _); [reflexivity|].
  destruct (_ || _); [reflexivity|].
  destruct (_ || _); reflexivity.
Qed.

Lemma assess_risk_low (evaluations : list JudgeEvaluation) (confidence : float)
    (disagreement : bool) :
  fst (Risk.assess_risk (repr_float w) evaluations confidence disagreement) = LOW ->
  existsb Risk.is_alarming (Risk.collect_risks (repr_float w) evaluations) = false /\
  (List.length (Risk.collect_risks (repr_float w) evaluations) <= 1)%nat /\
  Py.flt confidence 0.6%float = false /\
  disagreement = false.
Proof.
  unfold Risk.assess_risk.
  destruct (existsb _ _); [discriminate|].
  destruct (_ || _); [discriminate|].
  destruct (2 <=? _)%nat eqn:Hlen; [discriminate|].
  destruct (Py.flt confidence 0.6%float); [discriminate|].
  destruct disagreement; [discriminate|].
  intros _. apply Nat.leb_gt in Hlen. repeat split. lia.
Qed.

(** X20.  When [decide] returns, the audit file is the old file with
    one more line, the entry of the outcome that is returned; the
    outcome carries the query and the identifier of the run, and it is
    a block exactly when the gate rejected the query. *)
Theorem decide_logs_the_returned_outcome
    (file file' : list json) (query : string) (o : Outcome) :
  decide w council file query = Py.Ok (o, file') ->
  file' = file ++ [AuditLogger.log_entry (sha256_hexdigest w) (log_now w) o] /\
  outcome_query o = query /\
  outcome_id o = new_decision_id w /\
  outcome_safety_passed o =
    SafetyGate.passed (SafetyGate.check (re_search w) (safety_gate council) query) /\
  (SafetyGate.passed (SafetyGate.check (re_search w) (safety_gate council) query) = false
   <-> exists b, o = Blocked b).
Proof.
  intros Hrun. pose proof (decide_cases w council file query) as Hcases. cbv zeta in Hcases.
  destruct (SafetyGate.passed
              (SafetyGate.check (re_search w) (safety_gate council) query)).
  - destruct (run_agents_parallel w (agents council) query) as [generated|e];
      [|rewrite Hcases in Hrun; discriminate].
    match type of Hcases with
    | match ?c with _ => _ end => destruct c as [d|e] eqn:Hconclude
    end; rewrite Hcases in Hrun; [|discriminate].
    inversion Hrun; subst; clear Hrun.
    destruct (conclude_fields _ _ _ _ _ _ _ Hconclude)
      as (selected & confidence & why & refined & refined_flag & retried & feedback
          & final & level & risks & _ & _ & _ & ->).
    repeat split; try reflexivity; try discriminate.
    intros (b & Hb). discriminate.
  - rewrite Hcases in Hrun. inversion Hrun; subst; clear Hrun.
    repeat split; try reflexivity. intros _. eexists. reflexivity.
Qed.

(** X21.  A staged run that ends normally has added one line to the
    audit file, the entry of the outcome it yielded last; a staged run
    that ends in an exception has left the file as it was. *)
Theorem staged_run_logs_its_last_payload (file : list json) (query : string)
    (skip : bool) (word_limit : option Z) :
  let run := decide_generator w council file query skip word_limit in
  match ending run with
  | Py.Ok _ =>
      exists o,
        audit_file run =
          file ++ [AuditLogger.log_entry (sha256_hexdigest w) (log_now w) o] /\
        snd (last (yielded run) ("", NoPayload)) = payload_of o
  | Py.Raise _ => audit_file run = file
  end.
Proof.
  cbv zeta. unfold decide_generator.
  destruct (negb (SafetyGate.passed
                    (SafetyGate.check (re_search w) (safety_gate council) query))).
  - exists (Blocked (block w query
                       (SafetyGate.check (re_search w) (safety_gate council) query))).
    split; reflexivity.
  - match goal with
    | |- context [conclude ?a ?b ?c ?d ?e ?f] => destruct (conclude a b c d e f) as [d0|e0]
    end; simpl ending; simpl audit_file; [|reflexivity].
    exists (Decided d0). split; [reflexivity|]. simpl yielded.
    match goal with
    | |- snd (last (?x :: ?l ++ [?a; ?b; ?c]) _) = _ =>
        replace (x :: l ++ [a; b; c]) with ((x :: l ++ [a; b]) ++ [c])
          by (simpl; rewrite <- app_assoc; reflexivity)
    end.
    rewrite last_last. reflexivity.
Qed.

(** X22.  A decision holds one response per agent, in the order of the
    roster, and one evaluation for every pair of a judge and an agent,
    judge by judge; the selected response is one of its responses, and
    its disagreement flag is the check of its own evaluations at the
    default threshold. *)
Theorem decision_records_the_panel
    (file file' : list json) (query : string) (d : Decision) :
  decide w council file query = Py.Ok (Decided d, file') ->
  map agent_id (agent_responses d) = map a_id (agents council) /\
  map (fun ev => (judge_id ev, target_agent_id ev)) (judge_evaluations d) =
    list_prod (map j_id (judges council)) (map a_id (agents council)) /\
  In (selected_response d) (agent_responses d) /\
  judge_disagreement d =
    Judges.check_judge_disagreement (judge_evaluations d) Judges.default_threshold.
Proof.
  intros Hrun. apply decide_decided in Hrun.
  destruct Hrun as (_ & generated & Hgenerated & Hconclude).
  destruct (conclude_fields _ _ _ _ _ _ _ Hconclude)
    as (selected & confidence & why & refined & refined_flag & retried & feedback
        & final & level & risks & Hsel & _ & _ & ->).
  simpl agent_responses. simpl judge_evaluations. simpl selected_response.
  simpl judge_disagreement.
  split; [now apply (run_agents_ids w _ query)|]. split; [|split].
  - rewrite panel_pairs, (run_agents_ids w _ query _ Hgenerated). reflexivity.
  - exact (select_best_member _ _ _ _ _ _ Hsel).
  - reflexivity.
Qed.

(** X23.  A decision rated LOW certifies that its confidence is neither
    below the council's threshold nor below 0.6, that the judges did not
    disagree, and that at most one risk was found, none of them
    alarming; no warning was added. *)
Theorem low_risk_certifies (file file' : list json) (query : string) (d : Decision) :
  decide w council file query = Py.Ok (Decided d, file') ->
  risk_level d = LOW ->
  Py.flt (confidence_score d) (confidence_threshold council) = false /\
  Py.flt (confidence_score d) 0.6%float = false /\
  judge_disagreement d = false /\
  identified_risks d = Risk.collect_risks (repr_float w) (judge_evaluations d) /\
  (List.length (identified_risks d) <= 1)%nat /\
  existsb Risk.is_alarming (identified_risks d) = false.
Proof.
  intros Hrun Hlow. apply decide_decided in Hrun.
  destruct Hrun as (_ & generated & Hgenerated & Hconclude).
  destruct (conclude_fields _ _ _ _ _ _ _ Hconclude)
    as (selected & confidence & why & refined & refined_flag & retried & feedback
        & final & level & risks & _ & _ & Hrisk & ->).
  simpl in Hlow. subst level. simpl.
  rewrite annotate_risk_spec in Hrisk. cbv zeta in Hrisk.
  apply pair_equal_spec in Hrisk. destruct Hrisk as (Hlevel & Hrisks).
  rewrite assess_risk_risks in Hrisks.
  set (evaluations := run_judges_on_responses w (judges council) query
                        generated) in *.
  set (disagreement := Judges.check_judge_disagreement evaluations
                         Judges.default_threshold) in *.
  assert (Hassessed :
    fst (Risk.assess_risk (repr_float w) evaluations final disagreement) = LOW).
  { destruct (fst (Risk.assess_risk (repr_float w) evaluations final disagreement));
      try reflexivity;
      destruct (Py.flt final (confidence_threshold council)); simpl in Hlevel;
      discriminate. }
  rewrite Hassessed in Hlevel, Hrisks. simpl in Hlevel, Hrisks.
  destruct (assess_risk_low _ _ _ Hassessed) as (Halarm & Hlen & H06 & Hdis).
  destruct (Py.flt final (confidence_threshold council)); [discriminate|].
  rewrite Hdis in Hrisks. simpl in Hrisks. rewrite app_nil_r in Hrisks.
  subst risks. repeat split; assumption.
Qed.


(** X25.  After a retry the confidence of a decision is a number that
    does not exceed 1.0. *)
Theorem retried_confidence_is_capped
    (file file' : list json) (query : string) (d : Decision) :
  decide w council file query = Py.Ok (Decided d, file') ->
  was_retried d = true ->
  PrimFloat.is_nan (confidence_score d) = false /\
  Py.flt 1%float (confidence_score d) = false.
Proof.
  intros Hrun Hretried. apply decide_decided in Hrun.
  destruct Hrun as (_ & generated & Hgenerated & Hconclude).
  destruct (conclude_fields _ _ _ _ _ _ _ Hconclude)
    as (selected & confidence & why & refined & refined_flag & retried & feedback
        & final & level & risks & _ & Hrefine & _ & ->).
  simpl in *. subst retried.
  pose proof (refine_and_retry_spec w council query generated
                (run_judges_on_responses w (judges council) query generated)
                selected confidence) as Hspec.
  rewrite Hrefine in Hspec. destruct Hspec as (_ & Hyes & _).
  destruct (Hyes eq_refl) as (-> & _). apply min2_capped.
Qed.

(** X26.  A decision always carries a refined response, and its final
    text and its citations are those of that response.  The refinement
    flag tells whether synthesis is switched on, not whether the
    synthesizer ran: with synthesis switched off, the final text is the
    selected response's own text unless the decision was retried. *)
Theorem final_text_of_a_decision
    (file file' : list json) (query : string) (d : Decision) :
  decide w council file query = Py.Ok (Decided d, file') ->
  (exists refined,
     refined_response d = Some refined /\
     get_final_response_text d = response_text refined) /\
  citations d =
    Citations.extract_citations (re_findall w) (get_final_response_text d) /\
  was_refined d = negb (skip_synthesis council) /\
  (skip_synthesis council = true -> was_retried d = false ->
   refined_response d = Some (selected_response d)).
Proof.
  intros Hrun. apply decide_decided in Hrun.
  destruct Hrun as (_ & generated & Hgenerated & Hconclude).
  destruct (conclude_fields _ _ _ _ _ _ _ Hconclude)
    as (selected & confidence & why & refined & refined_flag & retried & feedback
        & final & level & risks & _ & Hrefine & _ & ->).
  unfold get_final_response_text. simpl.
  split; [eexists; split; reflexivity|]. split; [reflexivity|].
  unfold refine_and_retry in Hrefine.
  destruct (skip_synthesis council);
    destruct (Py.flt confidence (confidence_threshold council)
              && (0 <? max_retries council)%Z);
    try destruct (Py.truthy_str _);
    inversion Hrefine; subst; split; try reflexivity; try discriminate;
    intros; congruence.
Qed.

(** X27.  The confidence of a decision comes from its score table: it
    is a tenth of the highest agent score, and after a retry that value
    plus 0.1, capped at 1.0. *)
Theorem confidence_comes_from_the_score_table
    (file file' : list json) (query : string) (d : Decision) :
  decide w council file query = Py.Ok (Decided d, file') ->
  exists best,
    Py.max (Py.values (get_agent_scores d)) = Py.Ok best /\
    confidence_score d =
      if was_retried d
      then Py.min2 1%float (PrimFloat.add (PrimFloat.div best 10%float) 0.1%float)
      else PrimFloat.div best 10%float.
Proof.
  intros Hrun. apply decide_decided in Hrun.
  destruct Hrun as (_ & generated & Hgenerated & Hconclude).
  destruct (conclude_fields _ _ _ _ _ _ _ Hconclude)
    as (selected & confidence & why & refined & refined_flag & retried & feedback
        & final & level & risks & Hsel & Hrefine & _ & ->).
  unfold get_agent_scores. simpl.
  set (evaluations := run_judges_on_responses w (judges council) query
                        generated) in *.
  pose proof (refine_and_retry_spec w council query generated evaluations
                selected confidence) as Hspec.
  rewrite Hrefine in Hspec. destruct Hspec as (_ & Hyes & Hno).
  unfold Selector.select_best in Hsel.
  destruct (Py.max (Py.values (average_scores (collect_scores evaluations))))
    as [best|]; simpl in Hsel; [|discriminate].
  exists best. split; [reflexivity|].
  destruct (Selector.tie_break _) as [aid|]; simpl in Hsel; [|discriminate].
  destruct (Selector.response_of _ _) as [r|]; simpl in Hsel; [|discriminate].
  inversion Hsel; subst.
  destruct retried.
  - now destruct (Hyes eq_refl) as (-> & _).
  - now apply Hno.
Qed.


End Pipeline.

(** X29.  A query the gate rejects never reaches the agents, the judges
    or the synthesizer: both modes end the same way in any two settings
    that share the gate, the regular-expression engine, the digest, the
    identifier and the clock. *)
Theorem blocked_run_needs_no_backend {U : Py.Unicode}
    (w w' : World) (council council' : LLMCouncil)
    (file : list json) (query : string) (skip : bool) (word_limit : option Z) :
  re_search w = re_search w' ->
  sha256_hexdigest w = sha256_hexdigest w' ->
  new_decision_id w = new_decision_id w' ->
  now w = now w' ->
  log_now w = log_now w' ->
  safety_gate council = safety_gate council' ->
  SafetyGate.passed (SafetyGate.check (re_search w) (safety_gate council) query) = false ->
  decide w council file query = decide w' council' file query /\
  decide_generator w council file query skip word_limit =
    decide_generator w' council' file query skip word_limit.
Proof.
  intros Hre Hsha Hid Hnow Hlog Hgate Hfail.
  unfold decide, decide_generator, block.
  rewrite <- Hre, <- Hsha, <- Hid, <- Hnow, <- Hlog, <- Hgate, Hfail.
  split; reflexivity.
Qed.

(** X30.  With at least one judge and agents whose identifiers differ,
    the score table of a decision has one row for every agent of the
    roster, in the order of the roster. *)
Theorem score_table_follows_the_roster {U : Py.Unicode}
    (w : World) (council : LLMCouncil)
    (file file' : list json) (query : string) (d : Decision) :
  decide w council file query = Py.Ok (Decided d, file') ->
  judges council <> [] ->
  NoDup (map a_id (agents council)) ->
  Py.keys (get_agent_scores d) = map a_id (agents council).
Proof.
  intros Hrun Hjudges Hnodup.
  apply decide_decided in Hrun.
  destruct Hrun as (_ & generated & Hgenerated & Hconclude).
  destruct (conclude_fields _ _ _ _ _ _ _ Hconclude)
    as (selected & confidence & why & refined & refined_flag & retried & feedback
        & final & level & risks & _ & _ & _ & ->).
  unfold get_agent_scores. simpl judge_evaluations.
  rewrite <- (run_agents_ids w (agents council) query _ Hgenerated) in Hnodup |- *.
  exact (panel_mentions_agents_in_order w (judges council) query _ Hjudges Hnodup).
Qed.

(* ================================================================== *)
(** ** The pipeline properties on the demonstration council *)
(* ================================================================== *)

Section PipelineExamples.

#[local] Existing Instance Py.ascii_text.

Lemma decide_logs_the_returned_outcome_witness :
  exists o file',
    decide (demo_world 5 3) demo_council [] "What is a hash table?" =
      Py.Ok (o, file') /\
    file' =
      [] ++ [AuditLogger.log_entry (sha256_hexdigest (demo_world 5 3))
               (log_now (demo_world 5 3)) o] /\
    outcome_query o = "What is a hash table?" /\
    outcome_id o = new_decision_id (demo_world 5 3) /\
    outcome_safety_passed o =
      SafetyGate.passed
        (SafetyGate.check (re_search (demo_world 5 3)) (safety_gate demo_council)
           "What is a hash table?") /\
    (SafetyGate.passed
       (SafetyGate.check (re_search (demo_world 5 3)) (safety_gate demo_council)
          "What is a hash table?") = false
     <-> exists b, o = Blocked b).
Proof.
  eexists. eexists. split; [vm_compute; reflexivity|].
  apply (decide_logs_the_returned_outcome (demo_world 5 3) demo_council []).
  vm_compute. reflexivity.
Defined.

Lemma decision_records_the_panel_witness :
  exists d file',
    decide (demo_world 5 3) demo_council [] "What is a hash table?" =
      Py.Ok (Decided d, file') /\
    map agent_id (agent_responses d) = map a_id (agents demo_council) /\
    map (fun ev => (judge_id ev, target_agent_id ev)) (judge_evaluations d) =
      list_prod (map j_id (judges demo_council)) (map a_id (agents demo_council)) /\
    In (selected_response d) (agent_responses d) /\
    judge_disagreement d =
      Judges.check_judge_disagreement (judge_evaluations d) Judges.default_threshold.
Proof.
  eexists. eexists. split; [vm_compute; reflexivity|].
  eapply (decision_records_the_panel (demo_world 5 3) demo_council []
           _ "What is a hash table?").
  vm_compute. reflexivity.
Defined.

Lemma low_risk_certifies_witness :
  exists d file',
    decide (demo_world 9 3) demo_council [] "What is a hash table?" =
      Py.Ok (Decided d, file') /\
    Py.flt (confidence_score d) (confidence_threshold demo_council) = false /\
    Py.flt (confidence_score d) 0.6%float = false /\
    judge_disagreement d = false /\
    identified_risks d =
      Risk.collect_risks (repr_float (demo_world 9 3)) (judge_evaluations d) /\
    (List.length (identified_risks d) <= 1)%nat /\
    existsb Risk.is_alarming (identified_risks d) = false.
Proof.
  eexists. eexists. split; [vm_compute; reflexivity|].
  eapply (low_risk_certifies (demo_world 9 3) demo_council []
           _ "What is a hash table?").
  - vm_compute. reflexivity.
  - vm_compute. reflexivity.
Defined.


Lemma retried_confidence_is_capped_witness :
  exists d file',
    decide (demo_world 5 3) demo_council [] "What is a hash table?" =
      Py.Ok (Decided d, file') /\
    PrimFloat.is_nan (confidence_score d) = false /\
    Py.flt 1%float (confidence_score d) = false.
Proof.
  eexists. eexists. split; [vm_compute; reflexivity|].
  eapply (retried_confidence_is_capped (demo_world 5 3) demo_council []
           _ "What is a hash table?").
  - vm_compute. reflexivity.
  - vm_compute. reflexivity.
Defined.

Lemma final_text_of_a_decision_witness :
  exists d file',
    decide (demo_world 5 3) demo_council [] "What is a hash table?" =
      Py.Ok (Decided d, file') /\
    (exists refined,
       refined_response d = Some refined /\
       get_final_response_text d = response_text refined) /\
    citations d =
      Citations.extract_citations (re_findall (demo_world 5 3))
        (get_final_response_text d) /\
    was_refined d = negb (skip_synthesis demo_council) /\
    (skip_synthesis demo_council = true -> was_retried d = false ->
     refined_response d = Some (selected_response d)).
Proof.
  eexists. eexists. split; [vm_compute; reflexivity|].
  eapply (final_text_of_a_decision (demo_world 5 3) demo_council []
           _ "What is a hash table?").
  vm_compute. reflexivity.
Defined.

Lemma confidence_comes_from_the_score_table_witness :
  exists d file',
    decide (demo_world 5 3) demo_council [] "What is a hash table?" =
      Py.Ok (Decided d, file') /\
    exists best,
      Py.max (Py.values (get_agent_scores d)) = Py.Ok best /\
      confidence_score d =
        if was_retried d
        then Py.min2 1%float (PrimFloat.add (PrimFloat.div best 10%float) 0.1%float)
        else PrimFloat.div best 10%float.
Proof.
  eexists. eexists. split; [vm_compute; reflexivity|].
  eapply (confidence_comes_from_the_score_table (demo_world 5 3) demo_council []
           _ "What is a hash table?").
  vm_compute. reflexivity.
Defined.

(** Another council, without agents and judges, in a world with other
    backends, but with the same gate, digest, identifier and clock. *)
Lemma blocked_run_needs_no_backend_witness :
  decide (demo_world 5 3) demo_council [] "how to make a bomb" =
    decide (demo_world 9 0) (mkCouncil [] [] gate_default true 0.9 0 true) []
      "how to make a bomb" /\
  decide_generator (demo_world 5 3) demo_council [] "how to make a bomb" false None =
    decide_generator (demo_world 9 0) (mkCouncil [] [] gate_default true 0.9 0 true) []
      "how to make a bomb" false None.
Proof.
  apply (blocked_run_needs_no_backend (demo_world 5 3) (demo_world 9 0) demo_council
           (mkCouncil [] [] gate_default true 0.9 0 true) [] "how to make a bomb"
           false None); try reflexivity.
Defined.


Lemma score_table_follows_the_roster_witness :
  exists d file',
    decide (demo_world 5 3) demo_council [] "What is a hash table?" =
      Py.Ok (Decided d, file') /\
    Py.keys (get_agent_scores d) = map a_id (agents demo_council).
Proof.
  eexists. eexists. split; [vm_compute; reflexivity|].
  eapply (score_table_follows_the_roster (demo_world 5 3) demo_council []
            _ "What is a hash table?").
  - vm_compute. reflexivity.
  - discriminate.
  - vm_compute. repeat constructor; simpl; intuition discriminate.
Defined.

End PipelineExamples.

